(* ===== verification/_CoqProject ===== *)
-Q . S2P
Prelude.v
Calendar.v
DateRange.v
Battery.v
BatteryLiveness.v
FloatExact.v
BatteryFloat.v
ProfileFrame.v
PandasIndex.v
Dynamization.v
DayClassifier.v
LoadProfile.v
SpecAssembler.v
