(* ===== verification/Prelude.v ===== *)
(** * A verification library for fh-pandapower-cosimulation

    The repository synthesises a quarter-hourly household load series from
    the VDEW standard load profiles (src/src/load_profiles.py) and offers a
    clamped battery model for dispatch experiments (src/src/battery.py).
    This library models both Python files as shallow Rocq definitions and
    proves what they do, including where they depart from the spec.

    ** The program and how its parts interact

    - [battery.py], class [Battery]: one mutable record
      (capacity_kWh, charge_kWh, discharge_kWh, current_kWh), read-only
      properties [SoC], [max_charge], [max_discharge] and the mutating
      methods [charge] and [discharge], which clamp the request with the
      builtin [min] and update [current_kWh] in place.
    - [load_profiles.py]:
      [get_profile_from_file] reads one sheet of the VDEW workbook into a
      DataFrame with (season, day type) column pairs and 96 quarter-hour
      rows; [load_profile_for_day] picks the column of a date by the season
      rule and the day-type rule (holidays from the [holidays] package),
      re-stamps the 96 times of day onto the date (24:00, stored as 00:00,
      goes to the next day) and, for H0, scales the column by the
      4th-degree dynamisation polynomial of the day of year
      ([dynamize_day]); [get_load_profile] loops over the timestamps of
      [pd.date_range] for 2015, converts each with [.date()] and
      concatenates the daily series. Library behaviour the code relies on
      is modelled where a claim depends on it: CPython's date arithmetic,
      pandas' [date_range], [Index.map] dtype inference, the [dayofyear]
      accessor and NumPy indexing.

    ** Files

    - [Prelude] (this file): the Python exception type, the [result] error
      monad with its notation in [py_scope], the [for ... append] loop
      combinator and its equivalence with [res_mapM], shared list lemmas,
      tactics and hint databases.
    - [Calendar]: the parts of Python's [datetime] the code calls:
      proleptic Gregorian dates, [toordinal], [isoweekday], day of year,
      the calendar successor [next_day], times of day, [datetime.combine];
      the ordinal arithmetic every timestamp theorem rests on.
    - [DateRange]: CPython's [_ord2ymd] / [date.fromordinal],
      [datetime.__add__] for [dt + timedelta(days=1)] with its
      [OverflowError] past 9999-12-31 ([datetime_add_day]), pandas
      timestamps in nanoseconds, [generate_regular_range] / [np.arange]
      behind [pd.date_range(..., freq="D")], and [Timestamp.date()].
    - [Battery]: [battery.py], generic over a [PyFloat] interface (Python
      float operations), instantiated exactly by [Q] and by IEEE binary64
      [PrimFloat.float], the floats the program computes with.
    - [BatteryLiveness]: repeated calls of one method as a client loop; a
      section [Saturation] with the shared argument (a step that shrinks a
      gap to [max(0, gap - rate)]).
    - [FloatExact]: binary64 [+], [-] and comparisons are exact on
      integers below [2^53], proved from the specification of Rocq's
      primitive floats ([Prim2SF] into [SpecFloat]); [float_value], the
      rational a float denotes.
    - [BatteryFloat]: the battery on binary64 floats with whole-number
      amounts simulates the battery over [Q] ([charge_float],
      [discharge_float], and a section [FloatIter] for repeated calls), so
      the exact theorems carry over to the program's floats.
    - [Dynamization]: the coefficients [A4 .. A0], NumPy's fixed-width
      [np.power] on the [int32] day of year, [dynamize_day]; the factor
      both exactly ([Q]) and in binary64 as Python evaluates it.
    - [DayClassifier]: the season and day-type rules of
      [load_profile_for_day] (lines 65-83), with the Python comparison of
      a bound method with an int, and the spec's day-type rule.
    - [ProfileFrame]: the DataFrame / Series values the code indexes and
      re-indexes, [get_profile_from_file] on a parsed workbook (sheet
      lookup, [nrows=96]) and [pd.concat] with its [ValueError] on an
      empty list.
    - [PandasIndex]: pandas [Index] values with a dtype; [Index.map] with
      the function's exceptions propagating and the dtype inference of
      [Index._with_infer] (class [InferDtype]), the index setter, the
      [dayofyear] accessor and NumPy [arr[i]].
    - [LoadProfile]: [load_profile_for_day] with its closure
      [combine_day_time], and [get_load_profile].
    - [SpecAssembler]: the spec's [assemble] (spec.md 4.3) as an abstract
      specification, parametric in classifier, catalog lookup and factor,
      with its day loop [spec_days] defined by well-founded recursion
      (Equations) on the number of days left; the refinement theorem
      relating [get_load_profile] to it.

    ** What the theorems show

    - LoadProfile: one day gives 96 points at minutes 15..1440 with the
      right column and factor, and the 24:00 row rolls over to the next
      day, on every valid date before 9999-12-31; on 9999-12-31 the
      re-stamping raises [OverflowError] ([combine_day_time_spec],
      [load_profile_for_day_last_date]). The whole call gives 35040
      points on the uniform quarter-hour grid of 2015, strictly
      increasing, from 2015-01-01 00:15 to 2016-01-01 00:00, with values
      scaled exactly for "H0"; it ignores [from_] and [to]; rows of a
      sheet after the 96th never reach the result
      ([get_load_profile_nrows]); the final [pd.concat] never sees an
      empty list (the loop has 365 days), so its [ValueError] is
      unreachable; a missing sheet raises [ValueError], a missing column
      aborts the call, an empty "H0" sheet raises [AttributeError]; with
      [int32] powers the block of 2015-08-04 in the output is its column
      scaled by at least 2.4 ([get_load_profile_int32_day216]).
    - SpecAssembler: on a VDEW sheet [get_load_profile] returns what
      [assemble] returns for 2015 with the code's classifier, the frame
      as catalog and the NumPy-width factor
      ([get_load_profile_refines_assemble]): the code implements the
      spec's algorithm, and differs from the spec only in those
      collaborators and in the ignored range. The spec's day loop
      terminates after [toordinal to - toordinal from + 1] iterations
      ([spec_days_terminates], a lemma of the refinement).
    - DayClassifier: the seasons as closed month-day intervals; the day
      type never depends on the weekday
      ([weekday_of_day_ignores_weekday]) and agrees with the spec's rule
      exactly on holidays, weekdays and Saturday December 24/31
      ([weekday_of_day_agrees_iff]).
    - Dynamization: [np.power] on [int32] is exact exactly up to day 215
      ([np_power_int32_exact_iff]); with 64-bit powers the factor is the
      polynomial and lies in [0.78, 1.26] on days 1..366, with [int32]
      powers it is at least 2.4 on days 216..366; the binary64 factor is
      within [10^-14] of the exact one for both widths
      ([dynamization_value_float_error]), so the exact theorems carry
      over to the floats the code computes; across the turn of the year
      the 64-bit factor drops by less than 0.02, the [int32] one by more
      than 6 ([dynamization_year_boundary]).
    - DateRange and Calendar: the dates of [pd.date_range(start, end)]
      are the days from [start] to [end] ([date_range_days]);
      [date + timedelta(days=1)] keeps dates valid and advances the
      ordinal and the day of the year ([next_day_spec]). Supporting
      lemmas: [_ord2ymd] and [toordinal] are inverse on years 1..9999
      ([fromordinal_toordinal_roundtrip]), and [datetime.__add__] is
      [next_day] except on the last date ([datetime_add_day_next_day]).
    - Battery on binary64 floats (the program as run): for batteries
      whose four fields and requests are whole numbers below [2^53]
      every float operation of the methods is exact, and [charge]
      implements its exact contract ([charge_refines_float]), every
      state of the client loop keeps [0 <= current_kWh <= capacity_kWh]
      ([reachable_wf_float]), charging then discharging the returned
      amount gives back the identical record
      ([charge_discharge_roundtrip_float]), and repeated calls fill or
      empty the battery,
      to the float [capacity_kWh] or [0.0], after exactly
      [ceil(gap / limit)] calls ([charge_fills_float],
      [discharge_empties_float]). Outside whole numbers rounding breaks
      these: [float_charge_exceeds_capacity] (a charge overfills),
      [float_discharge_residue] (four [discharge(0.1)] leave 2.8e-17),
      [float_roundtrip_drift] (0.1 + 0.2 - 0.2).
    - Battery over [Q]: the same contract for [discharge]
      ([discharge_refines]); [SoC] in [0, 1] and 1 exactly when full,
      [ZeroDivisionError] at capacity 0; the headroom limits vanish at
      the ends. The exact lemmas behind the float theorems
      ([charge_refines], [reachable_wf] by rule induction over
      [batt_step], [charge_discharge_roundtrip], [run_conservation],
      [charge_fills], [discharge_empties]) hold for the rational model
      and transfer to floats through [BatteryFloat].

    ** Bounds and evaluation

    There is no fuel: every definition of the code is structural; the
    spec's day loop is the one well-founded recursion (measure: the days
    left, decreasing by [toordinal_next_day]). Closed facts over a
    range (the factor bounds over the 366 days, the first and last of the
    35040 timestamps) are checked by [vm_compute] on boolean tests,
    turned into propositions by [forallb_Z_range]; the month table of
    [_ord2ymd] is checked on all 731 days of a common and a leap year.
    Dates are bounded by CPython's range, years 1..9999 (ordinals up to
    3652059): the re-stamping raises [OverflowError] on the last date,
    so the day theorems assume a date before it, which the 2015 loop
    satisfies. Nanosecond timestamps are unbounded integers: the range
    of pandas' [datetime64[ns]] (years 1677-2262) is not needed for
    2015. The float battery theorems assume whole numbers below [2^53],
    the range where binary64 represents every integer; a battery whose
    capacity is below [2^53] keeps every intermediate result in it.

    ** Not modelled

    Spreadsheet parsing ([pd.read_excel]), the data of [holidays.AUT()]
    (library data, taken as a parameter), plotting, and the rounding of
    the product [ser * dynamization_value] of line 48 (the factor itself
    is modelled in binary64; the series values stay rationals). The
    battery on floats with fractional amounts is not characterised
    beyond the counterexamples: rounding there depends on the values.

    ** Modelling choices

    - Python floats: the battery is generic over the float operations
      and run on both [Q] and binary64; the load-profile values are
      rationals, the dynamisation factor is modelled in binary64 as well.
    - The holiday calendar is a section variable [in_holidays : date ->
      bool]; the real [holidays.AUT()] is library data, not modelled.
    - Spreadsheet parsing is not modelled: a workbook is a list of sheet
      names with their parsed frames.
    - [profile_df[season][weekday]] returns a fresh Series on every call
      (pandas builds a new frame for a MultiIndex level selection), so the
      index assignment of line 94 mutates no shared state; the model is
      pure.
*)

From stdpp Require Export base list strings.
From Stdlib Require Export ZArith QArith Lia Lqa.

(** ** Python exceptions and the error monad *)

Inductive py_exc : Type :=
| KeyError (key : string)
| ValueError (msg : string)
| AttributeError (msg : string)
| IndexError (msg : string)
| OverflowError (msg : string)
| ZeroDivisionError.

#[export] Instance py_exc_eq_dec : EqDecision py_exc.
Proof. solve_decision. Defined.

(** A Python call returns a value or raises. *)
Inductive result (A : Type) : Type :=
| Ok (a : A)
| Raise (e : py_exc).
Arguments Ok {A} a.
Arguments Raise {A} e.

Definition res_bind {A B : Type} (m : result A) (k : A -> result B) : result B :=
  match m with
  | Ok a => k a
  | Raise e => Raise e
  end.

Definition res_map {A B : Type} (f : A -> B) (m : result A) : result B :=
  res_bind m (fun a => Ok (f a)).

Declare Scope py_scope.
Delimit Scope py_scope with py.
Notation "x <- m ;; k" := (res_bind m (fun x => k))
  (at level 60, m at next level, right associativity) : py_scope.
Open Scope py_scope.

(** [mapM] over a list: the first exception aborts. *)
Fixpoint res_mapM {A B : Type} (f : A -> result B) (l : list A) : result (list B) :=
  match l with
  | [] => Ok []
  | x :: l' => y <- f x ;; ys <- res_mapM f l' ;; Ok (y :: ys)
  end.

(** [for x in xs: acc.append(f(x))], as the Python loop is written: an
    exception raised by [f] leaves the loop and the function. *)
Fixpoint for_append {A B : Type} (f : A -> result B) (xs : list A)
    (acc : list B) : result (list B) :=
  match xs with
  | [] => Ok acc
  | x :: xs' => y <- f x ;; for_append f xs' (acc ++ [y])
  end.

Create HintDb pyres.
Create Rewrite HintDb pyres_rw.

Lemma res_bind_Ok {A B : Type} (a : A) (k : A -> result B) :
  res_bind (Ok a) k = k a.
Proof. reflexivity. Qed.

Lemma res_bind_Raise {A B : Type} (e : py_exc) (k : A -> result B) :
  res_bind (Raise e) k = Raise e.
Proof. reflexivity. Qed.

Lemma res_bind_assoc {A B C : Type} (m : result A) (k : A -> result B)
    (h : B -> result C) :
  res_bind (res_bind m k) h = res_bind m (fun a => res_bind (k a) h).
Proof. by destruct m. Qed.

Lemma res_bind_eq_Ok {A B : Type} (m : result A) (k : A -> result B) (b : B) :
  res_bind m k = Ok b <-> exists a, m = Ok a /\ k a = Ok b.
Proof. destruct m; simpl; split; [eauto | intros (? & [= <-] & ?); done | intros ?; discriminate | intros (? & ? & ?); discriminate]. Qed.

#[export] Hint Rewrite @res_bind_Ok @res_bind_Raise : pyres_rw.

(** Unfold binds on known values and split hypotheses [res_bind m k = Ok b]. *)
Ltac res_simpl :=
  repeat match goal with
  | H : res_bind ?m _ = Ok _ |- _ =>
      apply res_bind_eq_Ok in H; destruct H as (? & ? & ?)
  | H : Ok _ = Ok _ |- _ => injection H as H
  | H : Ok _ = Raise _ |- _ => discriminate H
  | H : Raise _ = Ok _ |- _ => discriminate H
  | _ => progress autorewrite with pyres_rw in *
  end.

(** The loop with an accumulator computes the same as [mapM]. *)
Lemma for_append_mapM {A B : Type} (f : A -> result B) (xs : list A) (acc : list B) :
  for_append f xs acc = res_map (fun ys => acc ++ ys) (res_mapM f xs).
Proof.
  revert acc. induction xs as [|x xs IH]; intros acc; simpl.
  - by rewrite app_nil_r.
  - destruct (f x) as [y|e]; simpl; [|done].
    rewrite IH. unfold res_map. destruct (res_mapM f xs); simpl; [|done].
    by rewrite <- app_assoc.
Qed.

(** Mapping a conversion before the loop body. *)
Lemma res_mapM_map {A B C : Type} (f : B -> result C) (g : A -> B) (xs : list A) :
  res_mapM (fun x => f (g x)) xs = res_mapM f (map g xs).
Proof. induction xs as [|x xs IH]; simpl; [done|]. by rewrite IH. Qed.

Lemma res_mapM_Ok_Forall2 {A B : Type} (f : A -> result B) (xs : list A) (ys : list B) :
  res_mapM f xs = Ok ys <-> Forall2 (fun x y => f x = Ok y) xs ys.
Proof.
  revert ys. induction xs as [|x xs IH]; intros ys; simpl.
  - split; [intros [= <-]; constructor | intros H; inversion H; done].
  - split.
    + intros H. res_simpl. subst. constructor; [done|]. by apply IH.
    + intros H. inversion H as [|? y ? ys' Hxy Hrest]; subst.
      rewrite Hxy. simpl. by rewrite (proj2 (IH ys') Hrest).
Qed.

Lemma res_mapM_length {A B : Type} (f : A -> result B) (xs : list A) (ys : list B) :
  res_mapM f xs = Ok ys -> length ys = length xs.
Proof.
  intros H%res_mapM_Ok_Forall2. symmetry. by eapply Forall2_length.
Qed.

(** If every element succeeds, [mapM] succeeds with the mapped list. *)
Lemma res_mapM_all_Ok {A B : Type} (f : A -> result B) (g : A -> B) (xs : list A) :
  Forall (fun x => f x = Ok (g x)) xs -> res_mapM f xs = Ok (map g xs).
Proof. induction 1 as [|x xs Hx _ IH]; simpl; [done|]. by rewrite Hx, IH. Qed.

(** The first element that raises decides the exception of the whole run. *)
Lemma res_mapM_first_Raise {A B : Type} (f : A -> result B) (pre : list A)
    (x : A) (post : list A) (ys : list B) (e : py_exc) :
  res_mapM f pre = Ok ys -> f x = Raise e -> res_mapM f (pre ++ x :: post) = Raise e.
Proof.
  revert ys. induction pre as [|p pre IH]; intros ys Hpre Hx; simpl in *.
  - by rewrite Hx.
  - res_simpl. subst. rewrite H. simpl. by erewrite IH.
Qed.

(** ** Shared list lemmas *)

Lemma length_concat_uniform {A : Type} (n : nat) (L : list (list A)) :
  Forall (fun l => length l = n) L -> length (concat L) = (length L * n)%nat.
Proof.
  induction 1 as [|l L Hl _ IH]; simpl; [done|].
  rewrite length_app, Hl, IH. lia.
Qed.

(** [map f (seq a n)] glued with the next block is the longer block. *)
Lemma seq_app_block (a n m : nat) : seq a n ++ seq (a + n) m = seq a (n + m).
Proof. by rewrite seq_app. Qed.

(** A boolean property checked on every integer of a range by evaluation. *)
Lemma forallb_Z_range (P : Z -> bool) (a : Z) (n : nat) :
  forallb P (map (fun k => (a + Z.of_nat k)%Z) (seq 0 n)) = true ->
  forall d, (a <= d < a + Z.of_nat n)%Z -> P d = true.
Proof.
  intros H d Hd. rewrite forallb_forall in H. apply H. apply in_map_iff.
  exists (Z.to_nat (d - a)). split; [lia|]. apply in_seq. lia.
Qed.

(** [seq] started [b] later is [seq] shifted by [b]. *)
Lemma seq_offset (a b m : nat) : seq (b + a) m = map (Nat.add b) (seq a m).
Proof.
  revert a. induction m as [|m IH]; intros a; simpl; [done|].
  f_equal. by rewrite <- IH, Nat.add_succ_r.
Qed.

(** A list of integers whose values grow with their positions. *)
Definition strictly_increasing (l : list Z) : Prop :=
  forall (i j : nat) (x y : Z), (i < j)%nat -> l !! i = Some x -> l !! j = Some y -> (x < y)%Z.

(** The uniform grid [c + s * k], [k = a, a + 1, ...], of step [s > 0]. *)
Lemma grid_lookup (c s : Z) (a N k : nat) :
  (k < N)%nat -> map (fun k => (c + s * Z.of_nat k)%Z) (seq a N) !! k = Some (c + s * Z.of_nat (a + k))%Z.
Proof. intros Hk. by rewrite list_lookup_fmap, lookup_seq_lt. Qed.

Lemma grid_strictly_increasing (c s : Z) (a N : nat) :
  (0 < s)%Z -> strictly_increasing (map (fun k => (c + s * Z.of_nat k)%Z) (seq a N)).
Proof.
  intros Hs i j x y Hij Hx Hy.
  rewrite list_lookup_fmap in Hx, Hy.
  destruct (seq a N !! i) eqn:Ei, (seq a N !! j) eqn:Ej; simplify_eq/=.
  apply lookup_seq in Ei as [-> _], Ej as [-> _]. nia.
Qed.

(** An element that raises makes the whole [mapM] raise. *)
Lemma res_mapM_Raise_in {A B : Type} (f : A -> result B) (xs : list A) (x : A) (e : py_exc) :
  In x xs -> f x = Raise e -> exists e', res_mapM f xs = Raise e'.
Proof.
  induction xs as [|y xs IH]; intros Hin Hx; [done|]. simpl.
  destruct Hin as [->|Hin].
  - rewrite Hx. by eexists.
  - destruct (f y); simpl; [|by eexists].
    destruct (IH Hin Hx) as [e' ->]. by eexists.
Qed.

(** The [i]-th block of a concatenation of blocks of length [n]. *)
Lemma concat_uniform_block {A : Type} (n i : nat) (L : list (list A)) (b : list A) :
  Forall (fun l => length l = n) L -> L !! i = Some b -> take n (drop (i * n) (concat L)) = b.
Proof.
  intros Hall. revert i. induction Hall as [|l L Hl _ IH]; intros i Hi; [done|].
  destruct i as [|i]; simpl in *.
  - injection Hi as <-. rewrite drop_0, <- Hl. apply take_app_length.
  - rewrite <- drop_drop.
    replace (drop n (l ++ concat L)) with (concat L) by (rewrite <- Hl; by rewrite drop_app_length).
    by apply IH.
Qed.
