(* ===== verification/Calendar.v ===== *)
(** * Calendar: the parts of Python's [datetime] and pandas' [date_range]
    that src/src/load_profiles.py relies on

    Dates follow CPython's [datetime.py]: [_DAYS_IN_MONTH],
    [_DAYS_BEFORE_MONTH], [_days_before_year] and [_ymd2ord] give the
    proleptic Gregorian ordinal ([toordinal], 0001-01-01 is day 1), from
    which [isoweekday] and the day of the year are computed. [date +
    timedelta(days=1)] is [next_day]; the main lemma [toordinal_next_day]
    says it advances the ordinal by one, which is how CPython computes it
    ([fromordinal(toordinal() + 1)]). Times of day and [datetime.combine]
    complete the timestamp model; [dt_minutes] is the position of a
    timestamp on the minute axis, the order pandas compares
    [DatetimeIndex] values by. *)

From S2P Require Import Prelude.
Local Open Scope Z_scope.

(** ** Dates *)

Record date := mkdate { year : Z; month : Z; day : Z }.

#[export] Instance date_eq_dec : EqDecision date.
Proof. solve_decision. Defined.

Definition DAYS_IN_MONTH : list Z := [-1; 31; 28; 31; 30; 31; 30; 31; 31; 30; 31; 30; 31].
Definition DAYS_BEFORE_MONTH : list Z := [-1; 0; 31; 59; 90; 120; 151; 181; 212; 243; 273; 304; 334].

Definition is_leap (y : Z) : bool :=
  (y mod 4 =? 0) && (negb (y mod 100 =? 0) || (y mod 400 =? 0)).

Definition days_in_month (y m : Z) : Z :=
  if (m =? 2) && is_leap y then 29 else nth (Z.to_nat m) DAYS_IN_MONTH 0.

Definition days_before_month (y m : Z) : Z :=
  nth (Z.to_nat m) DAYS_BEFORE_MONTH 0 + (if (m >? 2) && is_leap y then 1 else 0).

Definition days_before_year (y : Z) : Z :=
  let y' := y - 1 in y' * 365 + y' / 4 - y' / 100 + y' / 400.

Definition toordinal (d : date) : Z :=
  days_before_year d.(year) + days_before_month d.(year) d.(month) + d.(day).

(** [date.isoweekday()]: [toordinal() % 7 or 7], Monday is 1, Sunday 7. *)
Definition isoweekday (d : date) : Z :=
  let r := toordinal d mod 7 in if r =? 0 then 7 else r.

(** [timetuple().tm_yday], pandas' [dayofyear]. *)
Definition dayofyear (d : date) : Z :=
  days_before_month d.(year) d.(month) + d.(day).

(** The arguments [datetime.date(y, m, d)] accepts without [ValueError]. *)
Definition valid_date (d : date) : bool :=
  (1 <=? d.(year)) && (d.(year) <=? 9999) && (1 <=? d.(month)) && (d.(month) <=? 12) &&
  (1 <=? d.(day)) && (d.(day) <=? days_in_month d.(year) d.(month)).

(** Date comparison [<=]: CPython compares [(year, month, day)]. *)
Definition date_leb (d1 d2 : date) : bool :=
  match Z.compare d1.(year) d2.(year) with
  | Lt => true
  | Gt => false
  | Eq =>
      match Z.compare d1.(month) d2.(month) with
      | Lt => true
      | Gt => false
      | Eq => d1.(day) <=? d2.(day)
      end
  end.

(** [d + timedelta(days=1)]. *)
Definition next_day (d : date) : date :=
  if d.(day) <? days_in_month d.(year) d.(month) then mkdate d.(year) d.(month) (d.(day) + 1)
  else if d.(month) <? 12 then mkdate d.(year) (d.(month) + 1) 1
  else mkdate (d.(year) + 1) 1 1.

(** [n] consecutive days from [d]. *)
Fixpoint days_from (d : date) (n : nat) : list date :=
  match n with
  | O => []
  | S n' => d :: days_from (next_day d) n'
  end.

(** ** Times of day and timestamps *)

Record time := mktime { hour : Z; minute : Z }.

#[export] Instance time_eq_dec : EqDecision time.
Proof. solve_decision. Defined.

Definition time_eqb (t1 t2 : time) : bool := bool_decide (t1 = t2).

Definition midnight : time := mktime 0 0.

Record datetime := mkdatetime { dt_date : date; dt_time : time }.

#[export] Instance datetime_eq_dec : EqDecision datetime.
Proof. solve_decision. Defined.

(** [datetime.datetime.combine(day, time)]. *)
Definition combine (d : date) (t : time) : datetime := mkdatetime d t.

(** Minutes since 0001-01-01 00:00 minus one day: the value pandas
    orders timestamps by, up to a constant offset and unit. *)
Definition dt_minutes (dt : datetime) : Z :=
  toordinal dt.(dt_date) * 1440 + dt.(dt_time).(hour) * 60 + dt.(dt_time).(minute).

(** ** Ordinal arithmetic *)

Create HintDb calendar.

(** Floor division steps by one exactly at multiples of [k]. *)
Lemma div_pred_step (y k : Z) :
  0 < k -> y / k - (y - 1) / k = if y mod k =? 0 then 1 else 0.
Proof.
  intros Hk. pose proof (Z.div_mod y k ltac:(lia)) as Hdm.
  pose proof (Z.mod_pos_bound y k Hk) as Hb.
  destruct (Z.eqb_spec (y mod k) 0) as [E|E].
  - assert (Hq : y / k - 1 = (y - 1) / k).
    { apply (Z.div_unique _ _ _ (k - 1)); lia. }
    lia.
  - assert (Hq : y / k = (y - 1) / k).
    { apply (Z.div_unique _ _ _ (y mod k - 1)); lia. }
    lia.
Qed.

Lemma mod_zero_weaken (y a b : Z) :
  0 < a -> 0 < b -> (a | b) -> y mod b = 0 -> y mod a = 0.
Proof.
  intros Ha Hb Hab Hy. apply Z.mod_divide; [lia|].
  apply Z.mod_divide in Hy; [|lia]. by apply (Z.divide_trans _ b).
Qed.

(** A year has 365 days plus one when it is a leap year. *)
Lemma days_before_year_succ (y : Z) :
  days_before_year (y + 1) = days_before_year y + 365 + (if is_leap y then 1 else 0).
Proof.
  unfold days_before_year, is_leap. replace (y + 1 - 1) with y by lia.
  pose proof (div_pred_step y 4 ltac:(lia)) as H4.
  pose proof (div_pred_step y 100 ltac:(lia)) as H100.
  pose proof (div_pred_step y 400 ltac:(lia)) as H400.
  pose proof (mod_zero_weaken y 4 100 ltac:(lia) ltac:(lia) ltac:(by exists 25)) as W1.
  pose proof (mod_zero_weaken y 100 400 ltac:(lia) ltac:(lia) ltac:(by exists 4)) as W2.
  destruct (Z.eqb_spec (y mod 4) 0), (Z.eqb_spec (y mod 100) 0), (Z.eqb_spec (y mod 400) 0);
    simpl in *; lia.
Qed.

Lemma days_in_month_bounds (y m : Z) : 1 <= m <= 12 -> 28 <= days_in_month y m <= 31.
Proof.
  intros Hm. unfold days_in_month.
  assert (m = 1 \/ m = 2 \/ m = 3 \/ m = 4 \/ m = 5 \/ m = 6 \/ m = 7 \/ m = 8 \/
          m = 9 \/ m = 10 \/ m = 11 \/ m = 12) as Hc by lia.
  destruct (is_leap y); repeat destruct Hc as [-> | Hc]; subst; simpl; lia.
Qed.

Lemma days_before_month_succ (y m : Z) :
  1 <= m <= 11 -> days_before_month y (m + 1) = days_before_month y m + days_in_month y m.
Proof.
  intros Hm. unfold days_before_month, days_in_month.
  assert (m = 1 \/ m = 2 \/ m = 3 \/ m = 4 \/ m = 5 \/ m = 6 \/ m = 7 \/ m = 8 \/
          m = 9 \/ m = 10 \/ m = 11) as Hc by lia.
  destruct (is_leap y); repeat destruct Hc as [-> | Hc]; subst; reflexivity.
Qed.

Lemma valid_date_spec (d : date) :
  valid_date d = true <->
  1 <= d.(year) <= 9999 /\ 1 <= d.(month) <= 12 /\ 1 <= d.(day) <= days_in_month d.(year) d.(month).
Proof.
  unfold valid_date. rewrite !andb_true_iff, !Z.leb_le. tauto.
Qed.

(** [d + timedelta(days=1)] is the date of the next ordinal. *)
Lemma toordinal_next_day (d : date) :
  valid_date d = true -> toordinal (next_day d) = toordinal d + 1.
Proof.
  intros (Hy & Hm & Hd)%valid_date_spec. destruct d as [y m dd]; simpl in *.
  unfold next_day, toordinal; simpl.
  destruct (Z.ltb_spec dd (days_in_month y m)); simpl; [lia|].
  destruct (Z.ltb_spec m 12); simpl.
  - rewrite days_before_month_succ by lia. lia.
  - assert (m = 12) as -> by lia. rewrite days_before_year_succ.
    unfold days_in_month, days_before_month in *. simpl in *.
    destruct (is_leap y); simpl in *; lia.
Qed.

Lemma next_day_year (d : date) :
  d.(year) <= (next_day d).(year) <= d.(year) + 1.
Proof.
  unfold next_day. repeat case_match; simpl; lia.
Qed.

Lemma next_day_valid (d : date) :
  valid_date d = true -> d.(year) < 9999 -> valid_date (next_day d) = true.
Proof.
  intros Hv Hy. pose proof Hv as (? & ? & ?)%valid_date_spec.
  apply valid_date_spec. unfold next_day.
  destruct (Z.ltb_spec d.(day) (days_in_month d.(year) d.(month))); simpl; [lia|].
  destruct (Z.ltb_spec d.(month) 12); simpl.
  - pose proof (days_in_month_bounds d.(year) (d.(month) + 1)). lia.
  - pose proof (days_in_month_bounds (d.(year) + 1) 1). lia.
Qed.

#[export] Hint Resolve next_day_valid : calendar.

(** ** Ranges of days *)

Lemma length_days_from (d : date) (n : nat) : length (days_from d n) = n.
Proof. revert d. induction n; intros d; simpl; auto. Qed.

Lemma days_from_add (d : date) (n m : nat) :
  days_from d (n + m) = days_from d n ++ days_from (Nat.iter n next_day d) m.
Proof.
  revert d. induction n as [|n IH]; intros d; [done|].
  simpl. rewrite IH. f_equal. f_equal. f_equal. clear IH. revert d.
  induction n as [|n IH]; intros d; [done|]. simpl. by rewrite IH.
Qed.

(** Within the years [datetime] supports, [n] consecutive days are valid
    dates with consecutive ordinals. *)
Lemma days_from_ordinals (d : date) (n : nat) :
  valid_date d = true -> d.(year) + Z.of_nat n < 9999 ->
  Forall (fun d' => valid_date d' = true) (days_from d n) /\
  map toordinal (days_from d n) = map (fun k => toordinal d + Z.of_nat k) (seq 0 n).
Proof.
  revert d. induction n as [|n IH]; intros d Hv Hy; [done|].
  pose proof (next_day_year d).
  destruct (IH (next_day d)) as [Hall Hord]; [apply next_day_valid; [done | lia] | lia |].
  simpl. split; [by constructor|]. f_equal; [lia|].
  rewrite Hord, toordinal_next_day by done.
  rewrite <- seq_shift, map_map. apply map_ext. intros k. lia.
Qed.

Lemma iter_next_day_year (d : date) (n : nat) :
  (Nat.iter n next_day d).(year) <= d.(year) + Z.of_nat n.
Proof.
  induction n as [|n IH]; simpl; [lia|].
  pose proof (next_day_year (Nat.iter n next_day d)). lia.
Qed.

Lemma toordinal_iter_next_day (d : date) (n : nat) :
  valid_date d = true -> d.(year) + Z.of_nat n < 9999 ->
  valid_date (Nat.iter n next_day d) = true /\
  toordinal (Nat.iter n next_day d) = toordinal d + Z.of_nat n.
Proof.
  intros Hv Hy. induction n as [|n IH]; simpl; [split; [done | lia]|].
  destruct IH as [Hv' Ho]; [lia|].
  pose proof (iter_next_day_year d n).
  split; [apply next_day_valid; [done | lia]|].
  rewrite toordinal_next_day by done. lia.
Qed.

(** ** Day of the year *)

Lemma days_before_month_last (y m : Z) :
  1 <= m <= 12 ->
  days_before_month y m + days_in_month y m <= 365 + (if is_leap y then 1 else 0).
Proof.
  intros Hm. unfold days_before_month, days_in_month.
  assert (m = 1 \/ m = 2 \/ m = 3 \/ m = 4 \/ m = 5 \/ m = 6 \/ m = 7 \/ m = 8 \/
          m = 9 \/ m = 10 \/ m = 11 \/ m = 12) as Hc by lia.
  destruct (is_leap y); repeat destruct Hc as [-> | Hc]; subst; simpl; lia.
Qed.

Lemma days_before_month_nonneg (y m : Z) : 1 <= m <= 12 -> 0 <= days_before_month y m.
Proof.
  intros Hm. unfold days_before_month.
  assert (m = 1 \/ m = 2 \/ m = 3 \/ m = 4 \/ m = 5 \/ m = 6 \/ m = 7 \/ m = 8 \/
          m = 9 \/ m = 10 \/ m = 11 \/ m = 12) as Hc by lia.
  destruct (is_leap y); repeat destruct Hc as [-> | Hc]; subst; simpl; lia.
Qed.

(** The day of the year of a valid date is between 1 and the length
    of its year, 365 or 366. *)
Theorem dayofyear_bounds (d : date) :
  valid_date d = true -> 1 <= dayofyear d <= 365 + (if is_leap d.(year) then 1 else 0).
Proof.
  intros (_ & Hm & Hd)%valid_date_spec. unfold dayofyear.
  pose proof (days_before_month_last d.(year) d.(month) Hm).
  pose proof (days_before_month_nonneg d.(year) d.(month) Hm). lia.
Qed.

(** C32: [date + timedelta(days=1)] on a valid date gives a valid date
    whose ordinal is one more and whose day of the year is one more,
    except after December 31, where it is 1. *)
Theorem next_day_spec (d : date) :
  valid_date d = true -> d.(year) < 9999 ->
  valid_date (next_day d) = true /\ toordinal (next_day d) = toordinal d + 1 /\
  dayofyear (next_day d) = if (d.(month) =? 12) && (d.(day) =? 31) then 1 else dayofyear d + 1.
Proof.
  intros Hv Hy. split; [by apply next_day_valid|]. split; [by apply toordinal_next_day|].
  pose proof Hv as (_ & Hm & Hd)%valid_date_spec. unfold next_day, dayofyear.
  destruct (Z.ltb_spec d.(day) (days_in_month d.(year) d.(month))) as [Hlt|Hge]; simpl.
  - assert (d.(day) <> 31 \/ d.(month) <> 12).
    { destruct (Z.eq_dec d.(month) 12) as [E|]; [|by right]. left. rewrite E in Hlt.
      unfold days_in_month in Hlt. simpl in Hlt. lia. }
    destruct (Z.eqb_spec d.(month) 12), (Z.eqb_spec d.(day) 31); simpl; lia.
  - destruct (Z.ltb_spec d.(month) 12); simpl.
    + rewrite days_before_month_succ by lia.
      destruct (Z.eqb_spec d.(month) 12); simpl; lia.
    + assert (d.(month) = 12) as E by lia. rewrite E in *.
      unfold days_in_month in *. simpl in *. assert (d.(day) = 31) as -> by lia.
      rewrite Z.eqb_refl. reflexivity.
Qed.

Lemma next_day_spec_witness :
  next_day (mkdate 2015 12 31) = mkdate 2016 1 1 /\
  dayofyear (next_day (mkdate 2015 12 31)) = 1.
Proof.
  pose proof (next_day_spec (mkdate 2015 12 31) eq_refl ltac:(simpl; lia)) as (_ & _ & H).
  split; [reflexivity|]. exact H.
Defined.

Lemma dayofyear_bounds_witness : 1 <= dayofyear (mkdate 2016 12 31) <= 366.
Proof. exact (dayofyear_bounds (mkdate 2016 12 31) eq_refl). Defined.
