(* ===== verification/DateRange.v ===== *)
(** * DateRange: ordinals back to dates, [date + timedelta], and
    [pd.date_range(..., freq="D")] with [Timestamp.date()]
    (src/src/load_profiles.py, lines 91 and 122-123)

    CPython turns an ordinal back into a date with [_ord2ymd]: it splits
    the day count into 400-year, 100-year, 4-year and 1-year cycles, then
    guesses the month as [(n + 50) >> 5] and corrects the guess once.
    [date + timedelta(days=k)] is [fromordinal(toordinal() + k)] and
    raises [OverflowError] outside [1, _MAXORDINAL].

    pandas stores a [Timestamp] as nanoseconds since 1970-01-01. For a
    fixed frequency [pd.date_range] computes the range with
    [generate_regular_range]: [np.arange(b, e, stride)] with
    [e = b + (end - b) // stride * stride + stride // 2 + 1], so the end
    is included when it lies on the grid. [Timestamp.date()] divides by
    the length of a day and converts the day number back to a date.

    The main theorems: [_ord2ymd] and [toordinal] are inverse on the
    years 1..9999; [date + timedelta(days=1)] is the calendar successor
    [next_day] except after 9999-12-31; and the dates of
    [pd.date_range(start, end, freq="D")] are the days from [start] to
    [end]. *)

From S2P Require Import Prelude Calendar.
Local Open Scope Z_scope.

(** ** [_ord2ymd] and [fromordinal] *)

Definition DI400Y : Z := days_before_year 401.
Definition DI100Y : Z := days_before_year 101.
Definition DI4Y : Z := days_before_year 5.
Definition MAXORDINAL : Z := 3652059.

(** The end of [_ord2ymd]: month and day of the 0-based day [n] of
    [year], from the estimate [(n + 50) >> 5] corrected once. *)
Definition ymd_of_yday (year : Z) (leapyear : bool) (n : Z) : date :=
  let month := Z.shiftr (n + 50) 5 in
  let preceding := nth (Z.to_nat month) DAYS_BEFORE_MONTH 0 +
                   (if (month >? 2) && leapyear then 1 else 0) in
  let '(month, preceding) :=
    if preceding >? n then
      (month - 1, preceding - (nth (Z.to_nat (month - 1)) DAYS_IN_MONTH 0 +
                               (if (month - 1 =? 2) && leapyear then 1 else 0)))
    else (month, preceding) in
  mkdate year month (n - preceding + 1).

(** [_ord2ymd(n)]. *)
Definition ord2ymd (n : Z) : date :=
  let n := n - 1 in
  let n400 := n / DI400Y in let n := n mod DI400Y in
  let year := n400 * 400 + 1 in
  let n100 := n / DI100Y in let n := n mod DI100Y in
  let n4 := n / DI4Y in let n := n mod DI4Y in
  let n1 := n / 365 in let n := n mod 365 in
  let year := year + n100 * 100 + n4 * 4 + n1 in
  if (n1 =? 4) || (n100 =? 4) then mkdate (year - 1) 12 31
  else ymd_of_yday year ((n1 =? 3) && (negb (n4 =? 24) || (n100 =? 3))) n.

(** [date.fromordinal(n)]: the constructor checks the year. *)
Definition fromordinal (n : Z) : result date :=
  let d := ord2ymd n in
  if valid_date d then Ok d else Raise (ValueError "year is out of range").

(** [dt + timedelta(days=1)] for a datetime ([datetime.__add__]): the
    day count of the sum is the ordinal plus one; inside
    [1, _MAXORDINAL] the date comes from [date.fromordinal] and the time
    of day is kept, outside it raises [OverflowError]. *)
Definition datetime_add_day (dt : datetime) : result datetime :=
  let days := toordinal dt.(dt_date) + 1 in
  if (0 <? days) && (days <=? MAXORDINAL) then
    d <- fromordinal days ;; Ok (combine d dt.(dt_time))
  else Raise (OverflowError "result out of range").

(** ** Timestamps and [pd.date_range] *)

Definition NS_PER_DAY : Z := 86400 * 10 ^ 9.
Definition EPOCH_ORDINAL : Z := toordinal (mkdate 1970 1 1).

(** [pd.Timestamp(d)] for a date [d]: midnight, in nanoseconds. *)
Definition timestamp_of_date (d : date) : Z := (toordinal d - EPOCH_ORDINAL) * NS_PER_DAY.

(** [ts.date()]. *)
Definition timestamp_date (ts : Z) : date := ord2ymd (ts / NS_PER_DAY + EPOCH_ORDINAL).

(** [np.arange(start, stop, step)] for [step > 0]: [ceil((stop - start) / step)] values. *)
Definition np_arange (start stop step : Z) : list Z :=
  map (fun k => start + Z.of_nat k * step) (seq 0 (Z.to_nat ((stop - start + step - 1) / step))).

(** [generate_regular_range(start, end, None, freq)]. *)
Definition generate_regular_range (istart iend stride : Z) : list Z :=
  let e := istart + (iend - istart) / stride * stride + stride / 2 + 1 in
  np_arange istart e stride.

(** [pd.date_range(start, end, freq="D")]: the timestamps. *)
Definition date_range (start end_ : date) : list Z :=
  generate_regular_range (timestamp_of_date start) (timestamp_of_date end_) NS_PER_DAY.

(** ** The year of an ordinal: the cycles of the Gregorian calendar *)

(** The days before the first day of year [400a + 100b + 4c + e + 1]. *)
Lemma days_before_year_cycles (a b c e : Z) :
  0 <= b <= 3 -> 0 <= c <= 24 -> 0 <= e <= 3 ->
  days_before_year (400 * a + 100 * b + 4 * c + e + 1) = 146097 * a + 36524 * b + 1461 * c + 365 * e.
Proof.
  intros Hb Hc He. unfold days_before_year.
  replace (400 * a + 100 * b + 4 * c + e + 1 - 1) with (400 * a + 100 * b + 4 * c + e) by lia.
  Z.div_mod_to_equations. lia.
Qed.

(** The leap-year test of [_ord2ymd], from the cycle positions. *)
Lemma is_leap_cycles (a b c e : Z) :
  0 <= b <= 3 -> 0 <= c <= 24 -> 0 <= e <= 3 ->
  is_leap (400 * a + 100 * b + 4 * c + e + 1) = (e =? 3) && (negb (c =? 24) || (b =? 3)).
Proof.
  intros Hb Hc He. unfold is_leap.
  destruct (Z.eqb_spec ((400 * a + 100 * b + 4 * c + e + 1) mod 4) 0),
    (Z.eqb_spec ((400 * a + 100 * b + 4 * c + e + 1) mod 100) 0),
    (Z.eqb_spec ((400 * a + 100 * b + 4 * c + e + 1) mod 400) 0),
    (Z.eqb_spec e 3), (Z.eqb_spec c 24), (Z.eqb_spec b 3); simpl; try reflexivity;
    exfalso; Z.div_mod_to_equations; lia.
Qed.

Lemma days_before_year_mono (y1 y2 : Z) : y1 <= y2 -> days_before_year y1 + 365 * (y2 - y1) <= days_before_year y2.
Proof.
  intros Hle. assert (y2 = y1 + Z.of_nat (Z.to_nat (y2 - y1))) as -> by lia.
  induction (Z.to_nat (y2 - y1)) as [|k IH]; [cbn [Z.of_nat]; rewrite Z.add_0_r; lia|].
  rewrite Nat2Z.inj_succ, <- Z.add_1_r, Z.add_assoc, days_before_year_succ.
  destruct (is_leap _); lia.
Qed.

(** ** Month and day within a year *)

(** The month tables, with the leap flag given. *)
Definition dim_of (leap : bool) (m : Z) : Z :=
  if (m =? 2) && leap then 29 else nth (Z.to_nat m) DAYS_IN_MONTH 0.
Definition dbm_of (leap : bool) (m : Z) : Z :=
  nth (Z.to_nat m) DAYS_BEFORE_MONTH 0 + (if (m >? 2) && leap then 1 else 0).

Lemma days_in_month_of (y m : Z) : days_in_month y m = dim_of (is_leap y) m.
Proof. reflexivity. Qed.

Lemma days_before_month_of (y m : Z) : days_before_month y m = dbm_of (is_leap y) m.
Proof. reflexivity. Qed.

Lemma ymd_of_yday_year (y : Z) (leap : bool) (u : Z) :
  ymd_of_yday y leap u = mkdate y (ymd_of_yday 0 leap u).(month) (ymd_of_yday 0 leap u).(day).
Proof. unfold ymd_of_yday. by case_match. Qed.

(** The month estimate and its correction, checked on every day of both
    kinds of year. *)
Definition ymd_ok (leap : bool) (u : Z) : bool :=
  let d := ymd_of_yday 0 leap u in
  (1 <=? d.(month)) && (d.(month) <=? 12) && (1 <=? d.(day)) && (d.(day) <=? dim_of leap d.(month)) &&
  (dbm_of leap d.(month) + d.(day) =? u + 1).

Lemma ymd_ok_all (leap : bool) (u : Z) :
  0 <= u < 365 + (if leap then 1 else 0) -> ymd_ok leap u = true.
Proof.
  destruct leap; intros Hu.
  - exact (forallb_Z_range (ymd_ok true) 0 366 ltac:(vm_compute; reflexivity) u ltac:(lia)).
  - exact (forallb_Z_range (ymd_ok false) 0 365 ltac:(vm_compute; reflexivity) u ltac:(lia)).
Qed.

Lemma ymd_of_yday_spec (y : Z) (u : Z) :
  0 <= u < 365 + (if is_leap y then 1 else 0) ->
  let d := ymd_of_yday y (is_leap y) u in
  d.(year) = y /\ 1 <= d.(month) <= 12 /\ 1 <= d.(day) <= days_in_month y d.(month) /\
  days_before_month y d.(month) + d.(day) = u + 1.
Proof.
  intros Hu. pose proof (ymd_ok_all (is_leap y) u Hu) as H. unfold ymd_ok in H.
  rewrite !andb_true_iff, !Z.leb_le, Z.eqb_eq in H.
  cbv zeta. rewrite ymd_of_yday_year. cbn [year month day].
  rewrite days_in_month_of, days_before_month_of. lia.
Qed.

(** Conversely the day of the year determines month and day. *)
Definition yday_ok (leap : bool) (m d : Z) : bool :=
  implb (d <=? dim_of leap m) (bool_decide (ymd_of_yday 0 leap (dbm_of leap m + d - 1) = mkdate 0 m d)).

Lemma yday_ok_all (leap : bool) (m d : Z) : 1 <= m <= 12 -> 1 <= d <= 31 -> yday_ok leap m d = true.
Proof.
  intros Hm Hd.
  assert (Hrow : forallb (fun m => forallb (yday_ok leap m) (map (fun k => 1 + Z.of_nat k) (seq 0 31)))
                   (map (fun k => 1 + Z.of_nat k) (seq 0 12)) = true)
    by (destruct leap; vm_compute; reflexivity).
  exact (forallb_Z_range (yday_ok leap m) 1 31 (forallb_Z_range _ 1 12 Hrow m ltac:(lia)) d ltac:(lia)).
Qed.

Lemma ymd_of_yday_dayofyear (d : date) :
  valid_date d = true -> ymd_of_yday d.(year) (is_leap d.(year)) (dayofyear d - 1) = d.
Proof.
  intros (Hy & Hm & Hd)%valid_date_spec. destruct d as [y m dd]; simpl in *.
  pose proof (days_in_month_bounds y m Hm).
  pose proof (yday_ok_all (is_leap y) m dd Hm ltac:(lia)) as Hok.
  unfold yday_ok in Hok. rewrite <- days_in_month_of in Hok.
  destruct (Z.leb_spec dd (days_in_month y m)); [|lia]. simpl in Hok.
  apply bool_decide_eq_true in Hok.
  unfold dayofyear. simpl. rewrite days_before_month_of, ymd_of_yday_year, Hok. reflexivity.
Qed.

(** ** [_ord2ymd] inverts [toordinal] *)

(** The cycle decomposition of a day count [n - 1 >= 0]. *)
Lemma ord2ymd_unfold (n : Z) :
  ord2ymd n =
  let a := (n - 1) / 146097 in let r := (n - 1) mod 146097 in
  let b := r / 36524 in let s := r mod 36524 in
  let c := s / 1461 in let t := s mod 1461 in
  let e := t / 365 in let u := t mod 365 in
  let y := a * 400 + 1 + b * 100 + c * 4 + e in
  if (e =? 4) || (b =? 4) then mkdate (y - 1) 12 31
  else ymd_of_yday y ((e =? 3) && (negb (c =? 24) || (b =? 3))) u.
Proof.
  reflexivity.
Qed.

Lemma toordinal_dec31 (y : Z) : toordinal (mkdate y 12 31) = days_before_year (y + 1).
Proof.
  unfold toordinal. rewrite days_before_year_succ. simpl.
  rewrite days_before_month_of. unfold dbm_of. simpl. destruct (is_leap y); simpl; lia.
Qed.

Lemma valid_dec31 (y : Z) : 1 <= y <= 9999 -> valid_date (mkdate y 12 31) = true.
Proof. intros Hy. apply valid_date_spec. simpl. rewrite days_in_month_of. unfold dim_of. simpl. lia. Qed.

(** [_ord2ymd] gives a valid date whose ordinal is [n], on the whole range
    of [datetime.date]. *)
Lemma toordinal_ord2ymd (n : Z) :
  1 <= n <= MAXORDINAL -> valid_date (ord2ymd n) = true /\ toordinal (ord2ymd n) = n.
Proof.
  intros Hn. unfold MAXORDINAL in Hn. rewrite ord2ymd_unfold. cbv zeta.
  pose proof (Z.div_mod (n - 1) 146097 ltac:(lia)) as E1.
  pose proof (Z.mod_pos_bound (n - 1) 146097 ltac:(lia)) as B1.
  set (a := (n - 1) / 146097) in *. set (r := (n - 1) mod 146097) in *.
  pose proof (Z.div_mod r 36524 ltac:(lia)) as E2. pose proof (Z.mod_pos_bound r 36524 ltac:(lia)) as B2.
  set (b := r / 36524) in *. set (s := r mod 36524) in *.
  pose proof (Z.div_mod s 1461 ltac:(lia)) as E3. pose proof (Z.mod_pos_bound s 1461 ltac:(lia)) as B3.
  set (c := s / 1461) in *. set (t := s mod 1461) in *.
  pose proof (Z.div_mod t 365 ltac:(lia)) as E4. pose proof (Z.mod_pos_bound t 365 ltac:(lia)) as B4.
  set (e := t / 365) in *. set (u := t mod 365) in *.
  clearbody a r b s c t e u.
  replace (a * 400 + 1 + b * 100 + c * 4 + e) with (400 * a + 100 * b + 4 * c + e + 1) by lia.
  destruct (Z.eqb_spec e 4) as [He|He]; destruct (Z.eqb_spec b 4) as [Hb|Hb]; simpl.
  - exfalso. lia.
  - rewrite toordinal_dec31, valid_dec31 by lia. split; [done|].
    replace (400 * a + 100 * b + 4 * c + e + 1 - 1 + 1) with (400 * a + 100 * b + 4 * (c + 1) + 0 + 1)
      by lia.
    rewrite days_before_year_cycles by lia. lia.
  - rewrite toordinal_dec31, valid_dec31 by lia. split; [done|].
    replace (400 * a + 100 * b + 4 * c + e + 1 - 1 + 1) with (400 * (a + 1) + 100 * 0 + 4 * 0 + 0 + 1)
      by lia.
    rewrite days_before_year_cycles by lia. lia.
  - rewrite <- (is_leap_cycles a b c e) by lia.
    pose proof (days_before_year_cycles a b c e ltac:(lia) ltac:(lia) ltac:(lia)) as Hdby.
    remember (400 * a + 100 * b + 4 * c + e + 1) as y eqn:Ey.
    destruct (ymd_of_yday_spec y u ltac:(destruct (is_leap y); lia)) as (Hy & Hm & Hd & Ho).
    remember (ymd_of_yday y (is_leap y) u) as d eqn:Ed. split.
    + apply valid_date_spec. rewrite Hy. lia.
    + unfold toordinal. rewrite Hy. lia.
Qed.

Lemma toordinal_dayofyear (d : date) : toordinal d = days_before_year d.(year) + dayofyear d.
Proof. unfold toordinal, dayofyear. lia. Qed.

(** A valid date lies after the days of the years before it and within
    the days of its own year. *)
Lemma toordinal_year_bounds (d : date) :
  valid_date d = true ->
  days_before_year d.(year) < toordinal d <= days_before_year (d.(year) + 1).
Proof.
  intros Hv. pose proof (dayofyear_bounds d Hv). rewrite toordinal_dayofyear, days_before_year_succ.
  destruct (is_leap d.(year)); lia.
Qed.

Lemma toordinal_inj (d1 d2 : date) :
  valid_date d1 = true -> valid_date d2 = true -> toordinal d1 = toordinal d2 -> d1 = d2.
Proof.
  intros Hv1 Hv2 Ho.
  pose proof (toordinal_year_bounds d1 Hv1). pose proof (toordinal_year_bounds d2 Hv2).
  assert (Hy : d1.(year) = d2.(year)).
  { destruct (Z.lt_trichotomy d1.(year) d2.(year)) as [Hlt|[Heq|Hgt]]; [|done|].
    - pose proof (days_before_year_mono (d1.(year) + 1) d2.(year) ltac:(lia)). lia.
    - pose proof (days_before_year_mono (d2.(year) + 1) d1.(year) ltac:(lia)). lia. }
  assert (Hdoy : dayofyear d1 = dayofyear d2) by (rewrite !toordinal_dayofyear, Hy in Ho; lia).
  rewrite <- (ymd_of_yday_dayofyear d1 Hv1), <- (ymd_of_yday_dayofyear d2 Hv2), Hy, Hdoy.
  reflexivity.
Qed.

Lemma toordinal_range (d : date) : valid_date d = true -> 1 <= toordinal d <= MAXORDINAL.
Proof.
  intros Hv. pose proof (toordinal_year_bounds d Hv).
  pose proof Hv as (Hy & _)%valid_date_spec.
  pose proof (days_before_year_mono 1 d.(year) ltac:(lia)).
  pose proof (days_before_year_mono (d.(year) + 1) 10000 ltac:(lia)).
  assert (days_before_year 1 = 0) by reflexivity.
  assert (days_before_year 10000 = MAXORDINAL) by reflexivity.
  unfold MAXORDINAL in *. lia.
Qed.

(** [_ord2ymd(d.toordinal())] gives [d] back. *)
Lemma ord2ymd_toordinal (d : date) : valid_date d = true -> ord2ymd (toordinal d) = d.
Proof.
  intros Hv. destruct (toordinal_ord2ymd (toordinal d) (toordinal_range d Hv)) as [Hv' Ho].
  by apply toordinal_inj.
Qed.

Lemma fromordinal_toordinal (d : date) : valid_date d = true -> fromordinal (toordinal d) = Ok d.
Proof. intros Hv. unfold fromordinal. by rewrite ord2ymd_toordinal, Hv. Qed.

(** ** The calendar successor *)

Lemma toordinal_last : toordinal (mkdate 9999 12 31) = MAXORDINAL.
Proof. reflexivity. Qed.

(** [next_day] stays a valid date below the last ordinal. *)
Lemma next_day_valid_ord (d : date) :
  valid_date d = true -> toordinal d < MAXORDINAL -> valid_date (next_day d) = true.
Proof.
  intros Hv Ho. pose proof Hv as (Hy & Hm & Hd)%valid_date_spec.
  destruct (Z.ltb_spec d.(year) 9999); [by apply next_day_valid|].
  apply valid_date_spec. unfold next_day.
  destruct (Z.ltb_spec d.(day) (days_in_month d.(year) d.(month))); simpl; [lia|].
  destruct (Z.ltb_spec d.(month) 12); simpl.
  - pose proof (days_in_month_bounds d.(year) (d.(month) + 1)). lia.
  - exfalso. destruct d as [y m dd]; simpl in *.
    assert (y = 9999) as -> by lia. assert (m = 12) as -> by lia.
    rewrite days_in_month_of in *. unfold dim_of in *. simpl in *.
    assert (dd = 31) as -> by lia. rewrite toordinal_last in Ho. lia.
Qed.

(** [n] days from a valid date are the dates of [n] consecutive ordinals. *)
Lemma days_from_ord2ymd (d : date) (n : nat) :
  valid_date d = true -> toordinal d + Z.of_nat n - 1 <= MAXORDINAL ->
  days_from d n = map (fun k => ord2ymd (toordinal d + Z.of_nat k)) (seq 0 n).
Proof.
  revert d. induction n as [|n IH]; intros d Hv Hn; [done|].
  simpl. rewrite Z.add_0_r, ord2ymd_toordinal by done. f_equal.
  destruct n as [|n]; [done|].
  pose proof (toordinal_range d Hv).
  assert (Hlt : toordinal d < MAXORDINAL) by lia.
  rewrite IH by (try apply next_day_valid_ord; rewrite ?toordinal_next_day; lia || done).
  rewrite toordinal_next_day by done. rewrite <- seq_shift, map_map.
  apply map_ext. intros k. f_equal. lia.
Qed.

(** ** The day grid of [pd.date_range] *)

Lemma NS_PER_DAY_val : NS_PER_DAY = 86400000000000.
Proof. reflexivity. Qed.

(** The number of values of the range: one more than the days between
    the ends, none when the end precedes the start. *)
Lemma generate_regular_range_days (o1 o2 : Z) :
  generate_regular_range (o1 * NS_PER_DAY) (o2 * NS_PER_DAY) NS_PER_DAY =
  map (fun k => (o1 + Z.of_nat k) * NS_PER_DAY) (seq 0 (Z.to_nat (o2 - o1 + 1))).
Proof.
  unfold generate_regular_range, np_arange. rewrite NS_PER_DAY_val.
  replace ((o1 * 86400000000000 + (o2 * 86400000000000 - o1 * 86400000000000) / 86400000000000 *
            86400000000000 + 86400000000000 / 2 + 1 - o1 * 86400000000000 + 86400000000000 - 1)
           / 86400000000000) with (o2 - o1 + 1) by (Z.div_mod_to_equations; lia).
  apply map_ext. intros k. lia.
Qed.

Lemma timestamp_date_day (o : Z) : timestamp_date ((o - EPOCH_ORDINAL) * NS_PER_DAY) = ord2ymd o.
Proof.
  unfold timestamp_date. rewrite Z.div_mul by (rewrite NS_PER_DAY_val; lia). f_equal. lia.
Qed.

Lemma date_range_dates (start end_ : date) :
  map timestamp_date (date_range start end_) =
  map (fun k => ord2ymd (toordinal start + Z.of_nat k))
      (seq 0 (Z.to_nat (toordinal end_ - toordinal start + 1))).
Proof.
  unfold date_range, timestamp_of_date. rewrite generate_regular_range_days, map_map.
  replace (toordinal end_ - EPOCH_ORDINAL - (toordinal start - EPOCH_ORDINAL) + 1)
    with (toordinal end_ - toordinal start + 1) by lia.
  apply map_ext. intros k.
  replace (toordinal start - EPOCH_ORDINAL + Z.of_nat k)
    with (toordinal start + Z.of_nat k - EPOCH_ORDINAL) by lia.
  apply timestamp_date_day.
Qed.

(** The loop range of [get_load_profile]: the 365 days of 2015. *)
Lemma date_range_2015 :
  map timestamp_date (date_range (mkdate 2015 1 1) (mkdate 2015 12 31)) = days_from (mkdate 2015 1 1) 365.
Proof. rewrite date_range_dates, days_from_ord2ymd by (vm_compute; done). reflexivity. Qed.

(** ** Properties *)

(** [date.fromordinal] and [date.toordinal] are inverse: every valid
    date comes back from its ordinal, and every ordinal of
    [1, _MAXORDINAL] gives a valid date with that ordinal. *)
Lemma fromordinal_toordinal_roundtrip :
  (forall d, valid_date d = true -> fromordinal (toordinal d) = Ok d) /\
  (forall n, 1 <= n <= MAXORDINAL ->
     exists d, fromordinal n = Ok d /\ valid_date d = true /\ toordinal d = n).
Proof.
  split; [exact fromordinal_toordinal|].
  intros n Hn. destruct (toordinal_ord2ymd n Hn) as [Hv Ho].
  exists (ord2ymd n). unfold fromordinal. by rewrite Hv.
Qed.

(** [dt + timedelta(days=1)] as CPython computes it (through the
    ordinal) moves the date to the calendar successor [next_day] and
    keeps the time, on every valid date but the last, 9999-12-31, where
    it raises [OverflowError]. *)
Lemma datetime_add_day_next_day (dt : datetime) :
  valid_date dt.(dt_date) = true ->
  datetime_add_day dt =
    if toordinal dt.(dt_date) <? MAXORDINAL then Ok (mkdatetime (next_day dt.(dt_date)) dt.(dt_time))
    else Raise (OverflowError "result out of range").
Proof.
  intros Hv. pose proof (toordinal_range _ Hv). unfold datetime_add_day.
  destruct (Z.ltb_spec (toordinal (dt_date dt)) MAXORDINAL) as [Hlt|Hge].
  - rewrite (proj2 (andb_true_iff _ _)) by (split; apply Z.ltb_lt || apply Z.leb_le; lia).
    rewrite <- toordinal_next_day by done.
    by rewrite fromordinal_toordinal by (by apply next_day_valid_ord).
  - replace ((0 <? toordinal (dt_date dt) + 1) && (toordinal (dt_date dt) + 1 <=? MAXORDINAL))
      with false; [done|].
    symmetry. apply andb_false_iff. right. apply Z.leb_gt. lia.
Qed.

(** C8: the dates of [pd.date_range(start, end_, freq="D")] are the days
    from [start] to [end_], one per day, none when [end_] precedes
    [start]. *)
Theorem date_range_days (start end_ : date) :
  valid_date start = true -> valid_date end_ = true ->
  map timestamp_date (date_range start end_) =
  days_from start (Z.to_nat (toordinal end_ - toordinal start + 1)).
Proof.
  intros Hs He. pose proof (toordinal_range end_ He). pose proof (toordinal_range start Hs).
  rewrite date_range_dates, days_from_ord2ymd by (done || lia). reflexivity.
Qed.

(** ** Witnesses *)

Lemma date_range_days_witness :
  map timestamp_date (date_range (mkdate 2016 2 28) (mkdate 2016 3 1)) =
  [mkdate 2016 2 28; mkdate 2016 2 29; mkdate 2016 3 1].
Proof. exact (date_range_days (mkdate 2016 2 28) (mkdate 2016 3 1) eq_refl eq_refl). Defined.
