(* ===== verification/Battery.v ===== *)
(** * Battery: src/src/battery.py

    The class [Battery] is a record of four floats mutated in place by
    [charge] and [discharge]. Its methods are written once, over a
    [PyFloat] interface giving the Python float operations they use
    ([+], [-], [/], [<], [==] and the literal 0). The theorems here are
    proved for the exact instance [Q]; on the binary64 instance
    [PrimFloat.float], the floats Python computes with, rounding breaks
    them for fractional amounts (the lemmas at the end of this file),
    and [BatteryFloat] carries them over for whole-number amounts.

    A method call is a function from the battery record to the new record
    and the returned value (explicit state passing), [run] chains calls
    in order, and [batt_step] is the step relation of the client loop that
    issues non-negative requests. *)

From S2P Require Import Prelude.
From Stdlib Require Import PrimFloat Qminmax.
From stdpp Require Import relations.

(** ** The float interface *)

Class PyFloat (F : Type) := {
  f_add : F -> F -> F;
  f_sub : F -> F -> F;
  f_div : F -> F -> F;
  f_lt : F -> F -> bool;
  f_eqb : F -> F -> bool;
  f_zero : F
}.

(** Python's builtin [min(a, b)]: it keeps [a] unless [b < a]. *)
Definition py_min {F : Type} `{PyFloat F} (a b : F) : F :=
  if f_lt b a then b else a.

#[export] Instance Q_PyFloat : PyFloat Q := {
  f_add := Qplus;
  f_sub := Qminus;
  f_div := Qdiv;
  f_lt := fun a b => negb (Qle_bool b a);
  f_eqb := Qeq_bool;
  f_zero := 0%Q
}.

#[export] Instance Float_PyFloat : PyFloat float := {
  f_add := PrimFloat.add;
  f_sub := PrimFloat.sub;
  f_div := PrimFloat.div;
  f_lt := PrimFloat.ltb;
  f_eqb := PrimFloat.eqb;
  f_zero := PrimFloat.zero
}.

(** ** The class [Battery] *)

Section BatteryClass.
Context {F : Type} `{PyFloat F}.

Record Battery := mkBattery {
  capacity_kWh : F;
  charge_kWh : F;
  discharge_kWh : F;
  current_kWh : F
}.

(** [self.current_kWh = c], the only field a method assigns. *)
Definition set_current (b : Battery) (c : F) : Battery :=
  mkBattery b.(capacity_kWh) b.(charge_kWh) b.(discharge_kWh) c.

(** [__init__]: the four arguments are stored as given, unchecked. *)
Definition Battery_init (capacity_kWh charge_kWh discharge_kWh current_kWh : F) : Battery :=
  mkBattery capacity_kWh charge_kWh discharge_kWh current_kWh.

(** [SoC]: [current_kWh / capacity_kWh]; Python raises on a zero divisor. *)
Definition SoC (b : Battery) : result F :=
  if f_eqb b.(capacity_kWh) f_zero then Raise ZeroDivisionError
  else Ok (f_div b.(current_kWh) b.(capacity_kWh)).

Definition max_charge (b : Battery) : F :=
  py_min b.(charge_kWh) (f_sub b.(capacity_kWh) b.(current_kWh)).

Definition max_discharge (b : Battery) : F :=
  py_min b.(discharge_kWh) b.(current_kWh).

(** [charge(amount)]: the new record and the returned [actual]. *)
Definition charge (b : Battery) (amount : F) : Battery * F :=
  let actual := py_min amount (max_charge b) in
  (set_current b (f_add b.(current_kWh) actual), actual).

Definition discharge (b : Battery) (amount : F) : Battery * F :=
  let actual := py_min amount (max_discharge b) in
  (set_current b (f_sub b.(current_kWh) actual), actual).

(** A client's sequence of method calls on one battery object. *)
Inductive batt_op : Type :=
| Charge (amount : F)
| Discharge (amount : F).

Definition exec_op (b : Battery) (o : batt_op) : Battery * F :=
  match o with
  | Charge a => charge b a
  | Discharge a => discharge b a
  end.

Fixpoint run (b : Battery) (ops : list batt_op) : Battery * list F :=
  match ops with
  | [] => (b, [])
  | o :: ops' =>
      let '(b1, x) := exec_op b o in
      let '(b2, xs) := run b1 ops' in (b2, x :: xs)
  end.

End BatteryClass.

Arguments Battery F : clear implicits.
Arguments batt_op F : clear implicits.

(** ** Exact arithmetic: the battery over [Q] *)


Local Open Scope Q_scope.

#[export] Instance Qle_Decision (x y : Q) : Decision (x <= y).
Proof. destruct (Qlt_le_dec y x) as [Hlt|Hle]; [right; by apply Qlt_not_le | by left]. Defined.

(** The invariant of [battery.py]: non-negative limits and
    [0 <= current_kWh <= capacity_kWh]. *)
Definition battery_wf (b : Battery Q) : Prop :=
  0 <= b.(charge_kWh) /\ 0 <= b.(discharge_kWh) /\
  0 <= b.(current_kWh) /\ b.(current_kWh) <= b.(capacity_kWh).

#[export] Instance Qlt_Decision (x y : Q) : Decision (x < y).
Proof. destruct (Qlt_le_dec x y) as [Hlt|Hle]; [by left | right; by apply Qle_not_lt]. Defined.

(** Decide a closed proposition on rationals by evaluation. *)
Ltac qdecide := apply (bool_decide_unpack _); vm_compute; reflexivity.

#[export] Instance battery_wf_dec (b : Battery Q) : Decision (battery_wf b).
Proof. unfold battery_wf. apply _. Defined.

(** Unfold the [Q] instance of the float interface. *)
Ltac qnorm := cbn [f_add f_sub f_div f_lt f_eqb f_zero Q_PyFloat] in *.

Lemma py_min_Q_cases (a b : Q) :
  (a <= b /\ py_min a b = a) \/ (b < a /\ py_min a b = b).
Proof.
  unfold py_min. qnorm. destruct (Qle_bool a b) eqn:E; simpl.
  - left. split; [by apply Qle_bool_iff | done].
  - right. split; [|done]. apply Qnot_le_lt. intros Hle. apply Qle_bool_iff in Hle. congruence.
Qed.

Lemma py_min_Q_le_l (a b : Q) : py_min a b <= a.
Proof. destruct (py_min_Q_cases a b) as [[? ->]|[? ->]]; lra. Qed.

Lemma py_min_Q_le_r (a b : Q) : py_min a b <= b.
Proof. destruct (py_min_Q_cases a b) as [[? ->]|[? ->]]; lra. Qed.

Lemma py_min_Q_glb (a b c : Q) : c <= a -> c <= b -> c <= py_min a b.
Proof. destruct (py_min_Q_cases a b) as [[? ->]|[? ->]]; lra. Qed.

(** Python's [min] is the lattice minimum up to [==]. *)
Lemma py_min_Q_Qmin (a b : Q) : py_min a b == Qmin a b.
Proof.
  destruct (py_min_Q_cases a b) as [[? ->]|[? ->]].
  - symmetry. by apply Q.min_l.
  - symmetry. apply Q.min_r. lra.
Qed.

#[export] Hint Resolve py_min_Q_le_l py_min_Q_le_r py_min_Q_glb : pyres.

Lemma charge_fst (b : Battery Q) (a : Q) :
  (charge b a).1 = set_current b (b.(current_kWh) + (charge b a).2).
Proof. reflexivity. Qed.

Lemma discharge_fst (b : Battery Q) (a : Q) :
  (discharge b a).1 = set_current b (b.(current_kWh) - (discharge b a).2).
Proof. reflexivity. Qed.

(** Rewrite the new record of a method call to [set_current], keeping its
    returned value folded as [act], and project the fields. *)
Ltac battery_step_unfold :=
  match goal with
  | |- context [ (charge ?b ?a).1 ] =>
      rewrite (charge_fst b a); set (act := (charge b a).2) in *
  | |- context [ (discharge ?b ?a).1 ] =>
      rewrite (discharge_fst b a); set (act := (discharge b a).2) in *
  end;
  unfold set_current; cbn [current_kWh capacity_kWh charge_kWh discharge_kWh]; qnorm.

(** Bounds on what [charge] and [discharge] return: the clamp. *)
Lemma charge_actual_bounds (b : Battery Q) (a : Q) :
  (charge b a).2 <= a /\ (charge b a).2 <= b.(charge_kWh) /\
  (charge b a).2 <= b.(capacity_kWh) - b.(current_kWh).
Proof.
  unfold charge, max_charge; simpl. qnorm.
  pose proof (py_min_Q_le_l a (py_min b.(charge_kWh) (b.(capacity_kWh) - b.(current_kWh)))).
  pose proof (py_min_Q_le_r a (py_min b.(charge_kWh) (b.(capacity_kWh) - b.(current_kWh)))).
  pose proof (py_min_Q_le_l b.(charge_kWh) (b.(capacity_kWh) - b.(current_kWh))).
  pose proof (py_min_Q_le_r b.(charge_kWh) (b.(capacity_kWh) - b.(current_kWh))).
  repeat split; lra.
Qed.

Lemma discharge_actual_bounds (b : Battery Q) (a : Q) :
  (discharge b a).2 <= a /\ (discharge b a).2 <= b.(discharge_kWh) /\
  (discharge b a).2 <= b.(current_kWh).
Proof.
  unfold discharge, max_discharge; simpl.
  pose proof (py_min_Q_le_l a (py_min b.(discharge_kWh) b.(current_kWh))).
  pose proof (py_min_Q_le_r a (py_min b.(discharge_kWh) b.(current_kWh))).
  pose proof (py_min_Q_le_l b.(discharge_kWh) b.(current_kWh)).
  pose proof (py_min_Q_le_r b.(discharge_kWh) b.(current_kWh)).
  repeat split; lra.
Qed.

(** With a well-formed battery and a non-negative request nothing is
    taken back: the clamp is at least 0. *)
Lemma charge_actual_nonneg (b : Battery Q) (a : Q) :
  battery_wf b -> 0 <= a -> 0 <= (charge b a).2.
Proof.
  intros (? & ? & ? & ?) ?. unfold charge, max_charge; simpl. qnorm.
  apply py_min_Q_glb; [done|]. apply py_min_Q_glb; lra.
Qed.

Lemma discharge_actual_nonneg (b : Battery Q) (a : Q) :
  battery_wf b -> 0 <= a -> 0 <= (discharge b a).2.
Proof.
  intros (? & ? & ? & ?) ?. unfold discharge, max_discharge; simpl.
  apply py_min_Q_glb; [done|]. by apply py_min_Q_glb.
Qed.



(** ** The contract of [charge] and [discharge]

    The docstrings promise: the battery is charged "by the maximum
    possible amount, up to the requested parameter", and the returned
    value is the amount actually moved. [charge_spec] states it as a
    relation between the old record, the request, the new record and the
    returned value; [charge_refines] proves the code implements it. *)

Definition charge_spec (b : Battery Q) (amount : Q) (b' : Battery Q) (actual : Q) : Prop :=
  0 <= actual <= amount /\ actual <= b.(charge_kWh) /\
  b'.(current_kWh) == b.(current_kWh) + actual /\
  b'.(current_kWh) <= b.(capacity_kWh) /\
  b'.(capacity_kWh) = b.(capacity_kWh) /\ b'.(charge_kWh) = b.(charge_kWh) /\
  b'.(discharge_kWh) = b.(discharge_kWh) /\
  (forall a', 0 <= a' <= amount -> a' <= b.(charge_kWh) ->
     b.(current_kWh) + a' <= b.(capacity_kWh) -> a' <= actual).

Definition discharge_spec (b : Battery Q) (amount : Q) (b' : Battery Q) (actual : Q) : Prop :=
  0 <= actual <= amount /\ actual <= b.(discharge_kWh) /\
  b'.(current_kWh) == b.(current_kWh) - actual /\
  0 <= b'.(current_kWh) /\
  b'.(capacity_kWh) = b.(capacity_kWh) /\ b'.(charge_kWh) = b.(charge_kWh) /\
  b'.(discharge_kWh) = b.(discharge_kWh) /\
  (forall a', 0 <= a' <= amount -> a' <= b.(discharge_kWh) ->
     a' <= b.(current_kWh) -> a' <= actual).

(** The clamp is the largest amount within the three limits. *)
Lemma charge_actual_max (b : Battery Q) (a a' : Q) :
  a' <= a -> a' <= b.(charge_kWh) -> b.(current_kWh) + a' <= b.(capacity_kWh) ->
  a' <= (charge b a).2.
Proof.
  intros. unfold charge, max_charge; simpl. qnorm.
  apply py_min_Q_glb; [done|]. apply py_min_Q_glb; lra.
Qed.

Lemma discharge_actual_max (b : Battery Q) (a a' : Q) :
  a' <= a -> a' <= b.(discharge_kWh) -> a' <= b.(current_kWh) ->
  a' <= (discharge b a).2.
Proof.
  intros. unfold discharge, max_discharge; simpl.
  apply py_min_Q_glb; [done|]. by apply py_min_Q_glb.
Qed.

(** [charge] implements its contract on every well-formed battery and
    non-negative request. *)
Lemma charge_refines (b : Battery Q) (amount : Q) :
  battery_wf b -> 0 <= amount ->
  charge_spec b amount (charge b amount).1 (charge b amount).2.
Proof.
  intros Hwf Ha.
  pose proof (charge_actual_bounds b amount) as (? & ? & ?).
  pose proof (charge_actual_nonneg b amount Hwf Ha).
  unfold charge_spec. battery_step_unfold.
  repeat split; try done; try lra.
  intros a' [? ?] ? ?. subst act. by apply charge_actual_max.
Qed.

(** C23: [discharge] implements its contract on every well-formed battery
    and non-negative request. *)
Theorem discharge_refines (b : Battery Q) (amount : Q) :
  battery_wf b -> 0 <= amount ->
  discharge_spec b amount (discharge b amount).1 (discharge b amount).2.
Proof.
  intros Hwf Ha.
  pose proof (discharge_actual_bounds b amount) as (? & ? & ?).
  pose proof (discharge_actual_nonneg b amount Hwf Ha).
  unfold discharge_spec. battery_step_unfold.
  repeat split; try done; try lra.
  intros a' [? ?] ? ?. subst act. by apply discharge_actual_max.
Qed.

(** Each method keeps the invariant on a non-negative request. *)
Lemma charge_preserves_wf (b : Battery Q) (a : Q) :
  battery_wf b -> 0 <= a -> battery_wf (charge b a).1.
Proof.
  intros Hwf Ha.
  pose proof (charge_actual_bounds b a) as (? & ? & ?).
  pose proof (charge_actual_nonneg b a Hwf Ha).
  destruct Hwf as (? & ? & ? & ?).
  unfold battery_wf. battery_step_unfold. repeat split; lra.
Qed.

Lemma discharge_preserves_wf (b : Battery Q) (a : Q) :
  battery_wf b -> 0 <= a -> battery_wf (discharge b a).1.
Proof.
  intros Hwf Ha.
  pose proof (discharge_actual_bounds b a) as (? & ? & ?).
  pose proof (discharge_actual_nonneg b a Hwf Ha).
  destruct Hwf as (? & ? & ? & ?).
  unfold battery_wf. battery_step_unfold. repeat split; lra.
Qed.

(** ** The client loop as a step relation *)

(** One call of the simulation loop: a non-negative request to either
    method (the spec's caller contract). *)
Inductive batt_step : Battery Q -> Battery Q -> Prop :=
| step_charge (b : Battery Q) (a : Q) : 0 <= a -> batt_step b (charge b a).1
| step_discharge (b : Battery Q) (a : Q) : 0 <= a -> batt_step b (discharge b a).1.

Lemma batt_step_wf (b b' : Battery Q) : battery_wf b -> batt_step b b' -> battery_wf b'.
Proof.
  intros Hwf Hstep. destruct Hstep; eauto using charge_preserves_wf, discharge_preserves_wf.
Qed.

(** Every battery reachable by a sequence of non-negative requests
    from a well-formed one keeps [0 <= current_kWh <= capacity_kWh]. *)
Lemma reachable_wf (b0 b : Battery Q) :
  battery_wf b0 -> rtc batt_step b0 b -> battery_wf b.
Proof. intros Hwf Hreach. induction Hreach; eauto using batt_step_wf. Qed.

(** ** Equivalent batteries

    Rationals have many representations ([1#2] and [2#4]); two batteries
    are equivalent when their four fields are equal as numbers. The
    methods respect this equivalence, so results can be rewritten with
    [==] in any field. *)

Definition battery_equiv (b1 b2 : Battery Q) : Prop :=
  b1.(capacity_kWh) == b2.(capacity_kWh) /\ b1.(charge_kWh) == b2.(charge_kWh) /\
  b1.(discharge_kWh) == b2.(discharge_kWh) /\ b1.(current_kWh) == b2.(current_kWh).

#[export] Instance battery_equiv_Equivalence : Equivalence battery_equiv.
Proof.
  split.
  - intros b. unfold battery_equiv. repeat split; reflexivity.
  - intros b1 b2 (? & ? & ? & ?). unfold battery_equiv. repeat split; by symmetry.
  - intros b1 b2 b3 (? & ? & ? & ?) (? & ? & ? & ?).
    unfold battery_equiv. repeat split; etransitivity; eauto.
Qed.

#[export] Instance py_min_Q_Proper : Proper (Qeq ==> Qeq ==> Qeq) (@py_min Q _).
Proof.
  intros a a' Ha b b' Hb.
  destruct (py_min_Q_cases a b) as [[? ->]|[? ->]],
           (py_min_Q_cases a' b') as [[? ->]|[? ->]]; lra.
Qed.

#[export] Instance max_charge_Proper : Proper (battery_equiv ==> Qeq) (@max_charge Q _).
Proof. intros b b' (Hc & Hk & _ & Hu). unfold max_charge. qnorm. by rewrite Hc, Hk, Hu. Qed.

#[export] Instance max_discharge_Proper : Proper (battery_equiv ==> Qeq) (@max_discharge Q _).
Proof. intros b b' (_ & _ & Hd & Hu). unfold max_discharge. by rewrite Hd, Hu. Qed.

(** The pair a method returns, compared field by field. *)
Definition call_equiv (r1 r2 : Battery Q * Q) : Prop :=
  battery_equiv r1.1 r2.1 /\ r1.2 == r2.2.

#[export] Instance charge_Proper : Proper (battery_equiv ==> Qeq ==> call_equiv) (@charge Q _).
Proof.
  intros b b' Hb a a' Ha. pose proof (max_charge_Proper b b' Hb) as Hm.
  destruct Hb as (? & ? & ? & Hu).
  unfold charge, call_equiv, battery_equiv, set_current; simpl. qnorm.
  rewrite Ha, Hm, Hu. repeat split; done.
Qed.

#[export] Instance discharge_Proper :
  Proper (battery_equiv ==> Qeq ==> call_equiv) (@discharge Q _).
Proof.
  intros b b' Hb a a' Ha. pose proof (max_discharge_Proper b b' Hb) as Hm.
  destruct Hb as (? & ? & ? & Hu).
  unfold discharge, call_equiv, battery_equiv, set_current; simpl. qnorm.
  rewrite Ha, Hm, Hu. repeat split; done.
Qed.

#[export] Instance battery_wf_Proper : Proper (battery_equiv ==> iff) battery_wf.
Proof.
  intros b b' (Hc & Hk & Hd & Hu). unfold battery_wf. by rewrite Hc, Hk, Hd, Hu.
Qed.

(** ** State of charge *)

Lemma SoC_Ok (b : Battery Q) :
  ~ b.(capacity_kWh) == 0 -> SoC b = Ok (b.(current_kWh) / b.(capacity_kWh)).
Proof.
  intros Hc. unfold SoC. qnorm.
  destruct (Qeq_bool _ _) eqn:E; [|done]. by apply Qeq_bool_iff in E.
Qed.

(** C26: [SoC] of a well-formed battery with positive capacity is a
    number in [0, 1], and it is 1 exactly when the battery is full. *)
Theorem SoC_in_unit_interval (b : Battery Q) :
  battery_wf b -> 0 < b.(capacity_kWh) ->
  exists s, SoC b = Ok s /\ 0 <= s <= 1 /\ (s == 1 <-> b.(current_kWh) == b.(capacity_kWh)).
Proof.
  intros (_ & _ & H0 & H1) Hpos.
  exists (b.(current_kWh) / b.(capacity_kWh)). split; [apply SoC_Ok; lra|].
  assert (Hnz : ~ b.(capacity_kWh) == 0) by lra.
  repeat split.
  - apply Qle_shift_div_l; lra.
  - apply Qle_shift_div_r; lra.
  - intros Hs. rewrite <- (Qmult_1_l b.(capacity_kWh)), <- Hs. field. done.
  - intros ->. field. done.
Qed.

(** C31: with a zero capacity [SoC] raises [ZeroDivisionError]; the
    constructor accepts such a battery. *)
Theorem SoC_zero_capacity (b : Battery Q) :
  b.(capacity_kWh) == 0 -> SoC b = Raise ZeroDivisionError.
Proof. intros Hc. unfold SoC. qnorm. by rewrite (proj2 (Qeq_bool_iff _ _) Hc). Qed.

(** C30: the headroom limits vanish at the ends: [max_charge] is 0 on a
    full battery and [max_discharge] is 0 on an empty one. *)
Theorem max_charge_discharge_boundaries (b : Battery Q) :
  battery_wf b ->
  (b.(current_kWh) == b.(capacity_kWh) -> max_charge b == 0) /\
  (b.(current_kWh) == 0 -> max_discharge b == 0).
Proof.
  intros (? & ? & ? & ?). unfold max_charge, max_discharge. qnorm. split; intros Hu.
  - destruct (py_min_Q_cases b.(charge_kWh) (b.(capacity_kWh) - b.(current_kWh)))
      as [[? ->]|[? ->]]; lra.
  - destruct (py_min_Q_cases b.(discharge_kWh) b.(current_kWh)) as [[? ->]|[? ->]]; lra.
Qed.

(** ** Round trip and conservation *)

Lemma py_min_Q_left (a b : Q) : a <= b -> py_min a b = a.
Proof. intros. destruct (py_min_Q_cases a b) as [[? ->]|[? ->]]; [done | lra]. Qed.

(** Discharging exactly what a charge moved returns that amount and
    restores the battery, when the discharge limit allows it. *)
Lemma charge_discharge_roundtrip (b : Battery Q) (x : Q) :
  battery_wf b -> 0 <= x -> (charge b x).2 <= b.(discharge_kWh) ->
  (discharge (charge b x).1 (charge b x).2).2 = (charge b x).2 /\
  battery_equiv (discharge (charge b x).1 (charge b x).2).1 b.
Proof.
  intros Hwf Hx Hlim. pose proof (charge_actual_nonneg b x Hwf Hx) as Hpos.
  destruct Hwf as (_ & _ & H0 & _).
  set (a := (charge b x).2) in *.
  assert (Hd : (discharge (charge b x).1 a).2 = a).
  { unfold discharge, max_discharge. rewrite charge_fst.
    cbn [fst snd set_current current_kWh discharge_kWh]. qnorm.
    apply py_min_Q_left, py_min_Q_glb; [done | fold a; lra]. }
  split; [done|]. rewrite discharge_fst, Hd, charge_fst.
  unfold battery_equiv, set_current. cbn [fst snd current_kWh capacity_kWh charge_kWh discharge_kWh].
  qnorm. fold a. repeat split; try reflexivity. ring.
Qed.

(** The net energy a run moved into the battery: the returned amounts,
    positive for [charge], negative for [discharge]. *)
Fixpoint net_flow (ops : list (batt_op Q)) (xs : list Q) : Q :=
  match ops, xs with
  | Charge _ :: ops', x :: xs' => x + net_flow ops' xs'
  | Discharge _ :: ops', x :: xs' => - x + net_flow ops' xs'
  | _, _ => 0
  end.

Lemma exec_op_fields (b : Battery Q) (o : batt_op Q) :
  (exec_op b o).1 = set_current b (b.(current_kWh) +
     match o with Charge _ => (exec_op b o).2 | Discharge _ => - (exec_op b o).2 end).
Proof. by destruct o. Qed.

(** Over any sequence of calls (any requests, negative ones too) the
    charge held at the end is the initial charge plus the net amount the
    calls returned, and the three parameters are never changed. *)
Lemma run_conservation (b : Battery Q) (ops : list (batt_op Q)) :
  (run b ops).1.(current_kWh) == b.(current_kWh) + net_flow ops (run b ops).2 /\
  (run b ops).1.(capacity_kWh) = b.(capacity_kWh) /\
  (run b ops).1.(charge_kWh) = b.(charge_kWh) /\
  (run b ops).1.(discharge_kWh) = b.(discharge_kWh).
Proof.
  revert b. induction ops as [|o ops IH]; intros b; simpl.
  - repeat split; [ring | done..].
  - pose proof (exec_op_fields b o) as Hf.
    destruct (exec_op b o) as [b1 x] eqn:E. simpl in Hf.
    destruct (IH b1) as (Hc & Hcap & Hck & Hdk).
    destruct (run b1 ops) as [b2 xs]. simpl in *. subst b1.
    unfold set_current in *. simpl in *.
    repeat split; [|done..]. rewrite Hc. destruct o; simpl; ring.
Qed.

(** [Battery()] with the constructor's default arguments. *)
Definition Battery_default : Battery Q := Battery_init 1000 200 200 0.

(** The spec's example on the default battery: [charge(500)] returns
    200 and leaves 200 stored, a following [discharge(500)] returns 200
    and empties it, and [SoC] is then 0. *)
Theorem battery_default_example :
  let r1 := charge Battery_default 500 in
  let r2 := discharge r1.1 500 in
  r1.2 == 200 /\ r1.1.(current_kWh) == 200 /\ r2.2 == 200 /\
  r2.1.(current_kWh) == 0 /\
  match SoC r2.1 with Ok s => s == 0 | Raise _ => False end.
Proof. vm_compute. repeat split; reflexivity. Qed.

(** A negative request is not rejected: [charge(-500)] on the default
    battery returns -500 and leaves [current_kWh = -500], outside
    [0 <= current_kWh <= capacity_kWh]. *)
Lemma charge_negative_request_breaks_wf :
  battery_wf Battery_default /\
  (charge Battery_default (-500)).2 == -500 /\
  ~ battery_wf (charge Battery_default (-500)).1.
Proof.
  split; [|split].
  - apply (bool_decide_unpack _). vm_compute. reflexivity.
  - vm_compute. reflexivity.
  - intros H. apply (bool_decide_pack _) in H. vm_compute in H. exact H.
Qed.

(** The round trip needs the discharge limit: with [charge_kWh = 200]
    and [discharge_kWh = 100], discharging the 200 just charged returns
    100 and leaves 100 stored. *)
Theorem roundtrip_fails_below_discharge_limit :
  let b0 := Battery_init 1000 200 100 0 in
  let r1 := charge b0 200 in
  let r2 := discharge r1.1 r1.2 in
  r1.2 == 200 /\ r2.2 == 100 /\ r2.1.(current_kWh) == 100.
Proof. vm_compute. repeat split; reflexivity. Qed.

(** ** Binary64 floats *)

(** On Python floats the round trip drifts: from [current_kWh = 0.1],
    [charge(0.2)] returns 0.2, [discharge(0.2)] returns 0.2, and the
    charge held is then not [== 0.1] (it is 0.10000000000000003). *)
Lemma float_roundtrip_drift :
  let b0 := @Battery_init float 1%float 1%float 1%float 0.1%float in
  let r1 := charge b0 0.2%float in
  let r2 := discharge r1.1 r1.2 in
  PrimFloat.eqb r1.2 0.2%float = true /\ PrimFloat.eqb r2.2 0.2%float = true /\
  PrimFloat.eqb r2.1.(current_kWh) 0.1%float = false.
Proof. vm_compute. repeat split; reflexivity. Qed.

(** On Python floats [charge] can overfill: the battery
    [(996.3662983104842, 1000, 200, 398.2631935352344)] holds between 0
    and its capacity, and after [charge(1000)] its charge exceeds the
    capacity, because [capacity - current] (line 34) and [+=] (line 48)
    both round. *)
Lemma float_charge_exceeds_capacity :
  let b0 := @Battery_init float 996.3662983104842%float 1000%float 200%float 398.2631935352344%float in
  let b1 := (charge b0 1000%float).1 in
  PrimFloat.leb 0%float b0.(current_kWh) = true /\
  PrimFloat.leb b0.(current_kWh) b0.(capacity_kWh) = true /\
  PrimFloat.ltb b1.(capacity_kWh) b1.(current_kWh) = true.
Proof. vm_compute. repeat split; reflexivity. Qed.

(** On Python floats four calls [discharge(0.1)] do not empty a battery
    holding 0.4: a residue of about 2.8e-17 is left and [max_discharge]
    is still positive. *)
Lemma float_discharge_residue :
  let b0 := @Battery_init float 1%float 1%float 1%float 0.4%float in
  let step b := (discharge b 0.1%float).1 in
  let b4 := step (step (step (step b0))) in
  PrimFloat.ltb 0%float b4.(current_kWh) = true /\
  PrimFloat.ltb 0%float (max_discharge b4) = true.
Proof. vm_compute. repeat split; reflexivity. Qed.

(** ** Witnesses *)

Lemma discharge_refines_witness :
  let b := Battery_init 1000 200 200 150 in
  discharge_spec b 500 (discharge b 500).1 (discharge b 500).2.
Proof. apply discharge_refines; qdecide. Defined.

Lemma SoC_in_unit_interval_witness :
  exists s, SoC (Battery_init 1000 200 200 250) = Ok s /\ 0 <= s <= 1 /\
    (s == 1 <-> 250 == 1000).
Proof. apply (SoC_in_unit_interval (Battery_init 1000 200 200 250)); qdecide. Defined.

Lemma SoC_zero_capacity_witness :
  SoC (Battery_init 0 200 200 0) = Raise ZeroDivisionError.
Proof. apply SoC_zero_capacity. vm_compute. reflexivity. Defined.

Lemma max_charge_discharge_boundaries_witness :
  max_charge (Battery_init 1000 200 200 1000) == 0 /\
  max_discharge (Battery_init 1000 200 200 0) == 0.
Proof.
  split.
  - apply (max_charge_discharge_boundaries (Battery_init 1000 200 200 1000)); [qdecide|].
    vm_compute. reflexivity.
  - apply (max_charge_discharge_boundaries (Battery_init 1000 200 200 0)); [qdecide|].
    vm_compute. reflexivity.
Defined.
