(* ===== verification/BatteryLiveness.v ===== *)
(** * BatteryLiveness: repeated [charge] fills, repeated [discharge] empties
    (src/src/battery.py, [Battery.charge] and [Battery.discharge])

    A client that keeps requesting at least the per-call limit moves the
    battery to full (or empty) in a number of calls computed from the
    state: [ceil(headroom / charge_kWh)] calls of [charge], and
    [ceil(current_kWh / discharge_kWh)] calls of [discharge], and not one
    call earlier. Each call is a step of the client loop [batt_step], so
    the full (empty) state is reachable.

    The argument is shared by both methods: the section [Saturation]
    takes a step function on batteries, an invariant it keeps, a gap to
    the goal that is non-negative under the invariant and a rate that the
    step keeps, with the law that one step shrinks
    the gap to [max(0, gap - rate)]; it gives the gap after [k] steps in
    closed form. *)

From S2P Require Import Prelude Battery.
From Stdlib Require Import Qminmax Qround.
From stdpp Require Import relations.

Local Open Scope Q_scope.

(** [n] calls of the same method with the same request. *)
Definition charge_iter (n : nat) (a : Q) (b : Battery Q) : Battery Q :=
  Nat.iter n (fun b' => (charge b' a).1) b.

Definition discharge_iter (n : nat) (a : Q) (b : Battery Q) : Battery Q :=
  Nat.iter n (fun b' => (discharge b' a).1) b.

(** The number of calls the closed form predicts: [ceil(gap / rate)]. *)
Definition calls_needed (gap rate : Q) : nat := Z.to_nat (Qceiling (gap / rate)).

(** ** Clamped subtraction *)

Lemma inject_Z_of_nat_S (n : nat) : inject_Z (Z.of_nat (S n)) == inject_Z (Z.of_nat n) + 1.
Proof. rewrite Nat2Z.inj_succ, <- Z.add_1_r, inject_Z_plus. reflexivity. Qed.

Lemma inject_Z_pred (z : Z) : inject_Z (z - 1) = inject_Z z - 1.
Proof. unfold Z.sub. rewrite inject_Z_plus, inject_Z_opp. reflexivity. Qed.

(** [calls_needed] calls cover the gap, and one call fewer does not. *)
Lemma calls_needed_spec (g r : Q) :
  0 < r -> 0 < g ->
  g <= inject_Z (Z.of_nat (calls_needed g r)) * r /\
  inject_Z (Z.of_nat (calls_needed g r) - 1) * r < g.
Proof.
  intros Hr Hg. unfold calls_needed.
  assert (Hq : 0 < g / r) by (apply Qlt_shift_div_l; lra).
  pose proof (Qle_ceiling (g / r)) as Hc. pose proof (Qceiling_lt (g / r)) as Hc'.
  assert (Hpos : (0 <= Qceiling (g / r))%Z).
  { rewrite Zle_Qle. change (inject_Z 0) with 0. lra. }
  rewrite Z2Nat.id by done. rewrite inject_Z_pred in Hc' |- *.
  assert (Hgr : g / r * r == g) by (field; lra).
  set (c := inject_Z (Qceiling (g / r))) in *. set (q := g / r) in *. split; nra.
Qed.

(** ** The saturation argument *)

Section Saturation.
Variables (inv : Battery Q -> Prop) (step : Battery Q -> Battery Q) (gap rate : Battery Q -> Q).
Hypothesis step_inv : forall b, inv b -> inv (step b).
Hypothesis rate_step : forall b, rate (step b) = rate b.
Hypothesis rate_nonneg : forall b, inv b -> 0 <= rate b.
Hypothesis gap_nonneg : forall b, inv b -> 0 <= gap b.
Hypothesis gap_step : forall b, inv b -> gap (step b) == Qmax 0 (gap b - rate b).

Lemma iter_inv (n : nat) (b : Battery Q) : inv b -> inv (Nat.iter n step b).
Proof. intros Hwf. induction n as [|n IH]; simpl; auto. Qed.

Lemma iter_rate (n : nat) (b : Battery Q) : rate (Nat.iter n step b) = rate b.
Proof. induction n as [|n IH]; simpl; [done|]. by rewrite rate_step. Qed.

(** The gap after [n] steps. *)
Lemma gap_iter (n : nat) (b : Battery Q) :
  inv b -> gap (Nat.iter n step b) == Qmax 0 (gap b - inject_Z (Z.of_nat n) * rate b).
Proof.
  intros Hwf. induction n as [|n IH]; simpl.
  - pose proof (gap_nonneg b Hwf).
    destruct (Q.max_spec 0 (gap b - inject_Z (Z.of_nat 0) * rate b)) as [[? ->]|[? ->]]; change (inject_Z (Z.of_nat 0)) with 0 in *; lra.
  - rewrite gap_step by (by apply iter_inv). rewrite iter_rate.
    pose proof (rate_nonneg b Hwf) as Hr.
    destruct (Q.max_spec 0 (gap (Nat.iter n step b) - rate b)) as [[? E1]|[? E1]];
    destruct (Q.max_spec 0 (gap b - inject_Z (Z.of_nat (S n)) * rate b)) as [[? E2]|[? E2]];
    destruct (Q.max_spec 0 (gap b - inject_Z (Z.of_nat n) * rate b)) as [[? E3]|[? E3]];
    rewrite inject_Z_of_nat_S in *; nra.
Qed.

(** The goal is reached after exactly [calls_needed] steps: the gap is 0
    then, and still positive one step before. *)
Lemma saturation (b : Battery Q) :
  inv b -> 0 < rate b ->
  gap (Nat.iter (calls_needed (gap b) (rate b)) step b) == 0 /\
  (forall k, (k < calls_needed (gap b) (rate b))%nat -> 0 < gap (Nat.iter k step b)).
Proof.
  intros Hwf Hr. pose proof (gap_nonneg b Hwf) as Hg.
  destruct (Qeq_dec (gap b) 0) as [E|Hne].
  - assert (Hn : calls_needed (gap b) (rate b) = 0%nat).
    { unfold calls_needed. assert (Hq : gap b / rate b == 0) by (rewrite E; reflexivity).
      by rewrite Hq. }
    rewrite Hn. split; [exact E | intros; lia].
  - destruct (calls_needed_spec (gap b) (rate b) Hr ltac:(lra)) as [Hhi Hlo].
    split.
    + rewrite gap_iter by done. apply Q.max_l. lra.
    + intros k Hk. rewrite gap_iter by done.
      assert (Hk' : inject_Z (Z.of_nat k) <= inject_Z (Z.of_nat (calls_needed (gap b) (rate b)) - 1))
        by (rewrite <- Zle_Qle; lia).
      destruct (Q.max_spec 0 (gap b - inject_Z (Z.of_nat k) * rate b)) as [[? ->]|[? ->]]; nra.
Qed.

(** Every intermediate state is reached by the step relation. *)
Lemma iter_rtc (R : relation (Battery Q)) (n : nat) (b : Battery Q) :
  (forall b, inv b -> R b (step b)) -> inv b -> rtc R b (Nat.iter n step b).
Proof.
  intros HR Hwf. induction n as [|n IH]; simpl; [apply rtc_refl|].
  eapply rtc_r; [exact IH | apply HR, iter_inv, Hwf].
Qed.

End Saturation.

(** ** The two methods as saturating steps *)

(** Case split on the outer [min(amount, ...)] of a method call. *)
Ltac outer_min_cases a :=
  match goal with |- context [py_min a ?m] => destruct (py_min_Q_cases a m) as [[? ->]|[? ->]] end.

(** With a request of at least [charge_kWh], [charge] moves
    [min(charge_kWh, headroom)]. *)
Lemma charge_gap_step (a : Q) (b : Battery Q) :
  battery_wf b -> b.(charge_kWh) <= a ->
  (charge b a).1.(capacity_kWh) - (charge b a).1.(current_kWh) ==
    Qmax 0 ((b.(capacity_kWh) - b.(current_kWh)) - b.(charge_kWh)).
Proof.
  intros (? & ? & ? & ?) Ha. rewrite charge_fst. unfold charge, max_charge. simpl. qnorm.
  destruct (py_min_Q_cases b.(charge_kWh) (b.(capacity_kWh) - b.(current_kWh))) as [[? ->]|[? ->]];
  outer_min_cases a;
  destruct (Q.max_spec 0 (b.(capacity_kWh) - b.(current_kWh) - b.(charge_kWh))) as [[? ->]|[? ->]];
  lra.
Qed.

Lemma discharge_gap_step (a : Q) (b : Battery Q) :
  battery_wf b -> b.(discharge_kWh) <= a ->
  (discharge b a).1.(current_kWh) == Qmax 0 (b.(current_kWh) - b.(discharge_kWh)).
Proof.
  intros (? & ? & ? & ?) Ha. rewrite discharge_fst. unfold discharge, max_discharge. simpl. qnorm.
  destruct (py_min_Q_cases b.(discharge_kWh) b.(current_kWh)) as [[? ->]|[? ->]];
  outer_min_cases a;
  destruct (Q.max_spec 0 (b.(current_kWh) - b.(discharge_kWh))) as [[? ->]|[? ->]];
  lra.
Qed.

(** ** Properties *)

(** Liveness of charging. From a well-formed battery with a positive
    charge limit, repeated [charge(a)] with [a >= charge_kWh] fills the
    battery after exactly [ceil((capacity_kWh - current_kWh) / charge_kWh)]
    calls: it is full then and not full after any fewer calls, and every
    call is a step of the client loop. *)
Lemma charge_fills (b : Battery Q) (a : Q) :
  battery_wf b -> 0 < b.(charge_kWh) -> b.(charge_kWh) <= a ->
  let n := calls_needed (b.(capacity_kWh) - b.(current_kWh)) b.(charge_kWh) in
  (charge_iter n a b).(current_kWh) == b.(capacity_kWh) /\
  (forall k, (k < n)%nat -> (charge_iter k a b).(current_kWh) < b.(capacity_kWh)) /\
  rtc batt_step b (charge_iter n a b).
Proof.
  intros Hwf Hr Ha n.
  set (step := fun b' : Battery Q => (charge b' a).1).
  set (inv := fun b' : Battery Q => battery_wf b' /\ b'.(charge_kWh) <= a).
  assert (Hinv : forall b', inv b' -> inv (step b')).
  { intros b' [Hw Hc]. split; [|done]. apply charge_preserves_wf; [done|].
    destruct Hw as (? & _). lra. }
  assert (Hcap : forall k, (Nat.iter k step b).(capacity_kWh) = b.(capacity_kWh))
    by (intros k; by apply (iter_rate step capacity_kWh)).
  destruct (saturation inv step (fun b' => b'.(capacity_kWh) - b'.(current_kWh)) charge_kWh
    Hinv (fun _ => eq_refl) (fun b' H => proj1 (proj1 H))
    (fun b' H => ltac:(destruct H as ((? & ? & ? & ?) & _); lra))
    (fun b' H => charge_gap_step a b' (proj1 H) (proj2 H)) b (conj Hwf Ha) Hr) as [Hfull Hbefore].
  cbv beta in Hfull, Hbefore. fold n in Hfull, Hbefore. unfold charge_iter. fold step.
  rewrite Hcap in Hfull. split; [lra|split].
  - intros k Hk. specialize (Hbefore k Hk). rewrite Hcap in Hbefore. lra.
  - apply (iter_rtc inv step Hinv); [|exact (conj Hwf Ha)]. intros b' [Hw Hc]. apply step_charge.
    destruct Hw as (? & _). lra.
Qed.

(** Liveness of discharging. From a well-formed battery with a
    positive discharge limit, repeated [discharge(a)] with
    [a >= discharge_kWh] empties the battery after exactly
    [ceil(current_kWh / discharge_kWh)] calls, and not earlier. *)
Lemma discharge_empties (b : Battery Q) (a : Q) :
  battery_wf b -> 0 < b.(discharge_kWh) -> b.(discharge_kWh) <= a ->
  let n := calls_needed b.(current_kWh) b.(discharge_kWh) in
  (discharge_iter n a b).(current_kWh) == 0 /\
  (forall k, (k < n)%nat -> 0 < (discharge_iter k a b).(current_kWh)) /\
  rtc batt_step b (discharge_iter n a b).
Proof.
  intros Hwf Hr Ha n.
  set (step := fun b' : Battery Q => (discharge b' a).1).
  set (inv := fun b' : Battery Q => battery_wf b' /\ b'.(discharge_kWh) <= a).
  assert (Hinv : forall b', inv b' -> inv (step b')).
  { intros b' [Hw Hc]. split; [|done]. apply discharge_preserves_wf; [done|].
    destruct Hw as (_ & ? & _). lra. }
  destruct (saturation inv step current_kWh discharge_kWh
    Hinv (fun _ => eq_refl) (fun b' H => proj1 (proj2 (proj1 H)))
    (fun b' H => proj1 (proj2 (proj2 (proj1 H))))
    (fun b' H => discharge_gap_step a b' (proj1 H) (proj2 H)) b (conj Hwf Ha) Hr) as [Hempty Hbefore].
  fold n in Hempty, Hbefore. unfold discharge_iter. fold step.
  split; [done|split; [done|]].
  apply (iter_rtc inv step Hinv); [|exact (conj Hwf Ha)]. intros b' [Hw Hc]. apply step_discharge.
  destruct Hw as (_ & ? & _). lra.
Qed.
