(* ===== verification/FloatExact.v ===== *)
(** * FloatExact: binary64 arithmetic on integers below 2^53

    Python floats are IEEE binary64 numbers, which Rocq provides as the
    primitive type [float] with its specification [Prim2SF] into
    [SpecFloat] (round to nearest even). The battery of [battery.py]
    computes with [+], [-] and [<] only (and [/] in [SoC]). This file
    proves that these three operations are exact on floats that hold
    integers of magnitude below [2^53]: the sum or difference of two
    such floats is the float of the exact integer result whenever that
    result is below [2^53] again, and [<], [<=], [==] compare the
    integers. This is the rounding-error model of a floating-point
    development specialised to the case where the error is zero.

    [SFofZ n] is the float [binary_normalize] gives the integer [n];
    [SFofZ_spec] computes it: the magnitude shifted to 53 digits with the
    matching exponent. [normalize_shift] shows that [n * 2^k] at exponent
    [-k] rounds to the same float, which is what [SFadd] and [SFsub]
    produce after aligning both operands to the smaller exponent.
    [float_int x n] says that the primitive float [x] is the float of
    [n]; [float_add_int], [float_sub_int], [float_ltb_int] and the
    others transfer the operations through the primitive operators'
    specifications ([add_spec], [sub_spec], [ltb_spec], ...).
    [float_value] is the rational a float denotes. *)

From S2P Require Import Prelude.
From Stdlib Require Import Floats Qpower.
Local Open Scope Z_scope.

(** ** Shifting binary mantissas *)

(** [p * 2^k] for [k >= 0]: [k] doublings of a binary mantissa. *)
Definition shiftpos (p : positive) (k : Z) : positive :=
  match k with Zpos k' => Pos.iter xO p k' | _ => p end.

Lemma iter_xO_Z (p n : positive) : Zpos (Pos.iter xO p n) = Zpos p * 2 ^ Zpos n.
Proof.
  induction n as [|n IH] using Pos.peano_ind; [simpl; lia|].
  rewrite Pos.iter_succ, Pos2Z.inj_xO, IH, Pos2Z.inj_succ, Z.pow_succ_r by lia. lia.
Qed.

Lemma shiftpos_Z (p : positive) (k : Z) : 0 <= k -> Zpos (shiftpos p k) = Zpos p * 2 ^ k.
Proof. intros Hk. destruct k as [|k|k]; simpl; [lia| apply iter_xO_Z | lia]. Qed.

Lemma digits_iter_xO (p n : positive) :
  Zpos (digits2_pos (Pos.iter xO p n)) = Zpos (digits2_pos p) + Zpos n.
Proof.
  induction n as [|n IH] using Pos.peano_ind; [simpl; lia|].
  rewrite Pos.iter_succ. cbn [digits2_pos]. rewrite Pos2Z.inj_succ, IH. lia.
Qed.

Lemma digits_shiftpos (p : positive) (k : Z) : 0 <= k ->
  Zpos (digits2_pos (shiftpos p k)) = Zpos (digits2_pos p) + k.
Proof. intros Hk. destruct k as [|k|k]; simpl; [lia| apply digits_iter_xO | lia]. Qed.

Lemma digits_bounds (p : positive) :
  2 ^ (Zpos (digits2_pos p) - 1) <= Zpos p < 2 ^ Zpos (digits2_pos p).
Proof.
  induction p as [p IH|p IH|]; cbn [digits2_pos]; [| |simpl; lia];
    rewrite Pos2Z.inj_succ; try rewrite (Pos2Z.inj_xI p); try rewrite (Pos2Z.inj_xO p);
    pose proof (Pos2Z.is_pos (digits2_pos p));
    replace (Z.succ (Zpos (digits2_pos p)) - 1) with (Zpos (digits2_pos p)) by lia;
    rewrite Z.pow_succ_r by lia;
    assert (2 ^ Zpos (digits2_pos p) = 2 * 2 ^ (Zpos (digits2_pos p) - 1))
      by (rewrite <- Z.pow_succ_r by lia; f_equal; lia);
    lia.
Qed.

(** SpecFloat's [iter_pos] is [Pos.iter]. *)
Lemma iter_pos_iter {A : Type} (f : A -> A) (n : positive) (x : A) :
  iter_pos f n x = Pos.iter f x n.
Proof.
  revert x. induction n as [n IH|n IH|]; intros x; simpl; [| |done].
  - rewrite !IH, !Pos.iter_swap. reflexivity.
  - rewrite !IH. reflexivity.
Qed.

(** Shifting out [j] zero bits is exact: no rounding bit, no sticky bit. *)
Lemma shr_iter_exact (r j : positive) :
  Pos.iter shr_1 (Build_shr_record (Zpos (Pos.iter xO r j)) false false) j =
  Build_shr_record (Zpos r) false false.
Proof.
  revert r. induction j as [|j IH] using Pos.peano_ind; intros r; [reflexivity|].
  rewrite Pos.iter_succ, Pos.iter_succ_r, IH. reflexivity.
Qed.

(** ** Rounding an exactly representable mantissa *)

Definition emin64 : Z := emin.

Lemma prec_val : prec = 53. Proof. reflexivity. Qed.
Lemma emax_val : emax = 1024. Proof. reflexivity. Qed.
Lemma emin64_val : emin64 = -1074. Proof. reflexivity. Qed.

(** [lia] with the binary64 parameters. *)
Ltac flia := pose proof prec_val; pose proof emax_val; pose proof emin64_val; lia.

Lemma fexp_normal (x : Z) : emin64 + prec <= x -> fexp prec emax x = x - prec.
Proof. intros H. unfold fexp, emin64 in *. apply Z.max_l. lia. Qed.

Lemma shr_exact (r : positive) (j e : Z) :
  0 <= j ->
  shr (Build_shr_record (Zpos (shiftpos r j)) false false) e j = (Build_shr_record (Zpos r) false false, e + j).
Proof.
  intros Hj. destruct j as [|j|j]; [simpl; f_equal; lia| |lia].
  unfold shr. rewrite iter_pos_iter. cbn [shiftpos]. by rewrite shr_iter_exact.
Qed.

Lemma shr_fexp_exact (r : positive) (j e : Z) :
  Zpos (digits2_pos r) = prec -> 0 <= j -> emin64 <= e + j ->
  shr_fexp prec emax (Zpos (shiftpos r j)) e loc_Exact = (Build_shr_record (Zpos r) false false, e + j).
Proof.
  intros Hr Hj He. unfold shr_fexp. cbn [Zdigits2 shr_record_of_loc].
  rewrite digits_shiftpos, Hr by done.
  rewrite fexp_normal by flia.
  replace (prec + j + e - prec - e) with j by lia. by apply shr_exact.
Qed.

(** A 53-digit mantissa followed by [j] zero bits rounds to itself. *)
Lemma binary_round_aux_exact (s : bool) (r : positive) (j e : Z) :
  Zpos (digits2_pos r) = prec -> 0 <= j -> emin64 <= e + j <= emax - prec ->
  binary_round_aux prec emax s (Zpos (shiftpos r j)) e loc_Exact = S754_finite s r (e + j).
Proof.
  intros Hr Hj He. unfold binary_round_aux.
  rewrite shr_fexp_exact by (done || lia). cbn [shr_m loc_of_shr_record round_nearest_even].
  pose proof (shr_fexp_exact r 0 (e + j) Hr ltac:(lia) ltac:(lia)) as H0.
  cbn [shiftpos] in H0. rewrite H0. cbn [shr_m].
  rewrite Z.add_0_r, (proj2 (Z.leb_le _ _)) by lia. reflexivity.
Qed.

Lemma digits_le_prec (p : positive) : Zpos p < 2 ^ prec -> Zpos (digits2_pos p) <= prec.
Proof.
  intros Hp. pose proof (digits_bounds p) as [Hlo _].
  destruct (Z.le_gt_cases (Zpos (digits2_pos p)) prec) as [|Hgt]; [done|].
  assert (2 ^ prec <= 2 ^ (Zpos (digits2_pos p) - 1)) by (apply Z.pow_le_mono_r; lia). lia.
Qed.

Lemma shiftpos_inj (p q : positive) (k l : Z) :
  0 <= k -> 0 <= l -> Zpos p * 2 ^ k = Zpos q * 2 ^ l -> shiftpos p k = shiftpos q l.
Proof. intros Hk Hl H. apply Pos2Z.inj. by rewrite !shiftpos_Z. Qed.

Lemma binary_round_shift (s : bool) (p : positive) (k : Z) :
  Zpos (digits2_pos p) <= prec -> 0 <= k ->
  binary_round prec emax s (shiftpos p k) (- k) =
  S754_finite s (shiftpos p (prec - Zpos (digits2_pos p))) (Zpos (digits2_pos p) - prec).
Proof.
  intros Hd Hk. pose proof (Pos2Z.is_pos (digits2_pos p)) as Hd1.
  set (d := Zpos (digits2_pos p)) in *. set (r := shiftpos p (prec - d)).
  assert (Hr : Zpos (digits2_pos r) = prec) by (unfold r; rewrite digits_shiftpos; lia).
  unfold binary_round. rewrite digits_shiftpos by done. fold d.
  rewrite fexp_normal by flia.
  replace (d + k + - k - prec) with (d - prec) by lia.
  unfold shl_align. destruct (d - prec - - k) as [|t|t] eqn:Ht.
  - replace (shiftpos p k) with (shiftpos r 0).
    + rewrite binary_round_aux_exact by (done || flia). f_equal. lia.
    + apply shiftpos_inj; [lia|done|]. unfold r. rewrite shiftpos_Z by lia.
      rewrite <- Z.mul_assoc, <- Z.pow_add_r by lia. f_equal. f_equal. lia.
  - replace (shiftpos p k) with (shiftpos r (Zpos t)).
    + rewrite binary_round_aux_exact by (done || flia). f_equal. lia.
    + apply shiftpos_inj; [lia|lia|]. unfold r. rewrite shiftpos_Z by lia.
      rewrite <- Z.mul_assoc, <- Z.pow_add_r by lia. f_equal. f_equal. lia.
  - replace (Pos.iter xO (shiftpos p k) t) with (shiftpos r 0).
    + rewrite binary_round_aux_exact by (done || flia). f_equal. lia.
    + apply Pos2Z.inj. rewrite iter_xO_Z. cbn [shiftpos]. unfold r.
      rewrite !shiftpos_Z by lia. rewrite <- Z.mul_assoc, <- Z.pow_add_r by lia. f_equal. f_equal. lia.
Qed.

(** ** The binary64 float of an integer *)

Definition SFofZ (n : Z) : spec_float := binary_normalize prec emax n 0 false.

Definition canon_mant (p : positive) : positive := shiftpos p (prec - Zpos (digits2_pos p)).
Definition canon_exp (p : positive) : Z := Zpos (digits2_pos p) - prec.

(** Below [2^53] an integer is a float: its sign, its magnitude shifted
    to 53 digits and the matching exponent. *)
Lemma SFofZ_spec (n : Z) :
  Z.abs n < 2 ^ prec ->
  SFofZ n = match n with
            | Z0 => S754_zero false
            | Zpos p => S754_finite false (canon_mant p) (canon_exp p)
            | Zneg p => S754_finite true (canon_mant p) (canon_exp p)
            end.
Proof.
  intros Hn. unfold SFofZ, binary_normalize.
  destruct n as [|p|p]; [done|pose (s := false)|pose (s := true)];
    (pose proof (binary_round_shift s p 0 ltac:(apply digits_le_prec; simpl in Hn; lia) ltac:(lia)) as H;
     cbn [shiftpos Z.opp] in H; exact H).
Qed.

(** [n * 2^k] at exponent [-k] rounds to the float of [n]. *)
Lemma normalize_shift (n k : Z) :
  Z.abs n < 2 ^ prec -> 0 <= k -> binary_normalize prec emax (n * 2 ^ k) (- k) false = SFofZ n.
Proof.
  intros Hn Hk. rewrite SFofZ_spec by done. unfold binary_normalize.
  pose proof (Z.pow_pos_nonneg 2 k ltac:(lia) Hk).
  destruct n as [|p|p]; [done| |].
  - assert (Hp : Zpos p * 2 ^ k = Zpos (shiftpos p k)) by (by rewrite shiftpos_Z).
    rewrite Hp. apply binary_round_shift; [apply digits_le_prec; simpl in Hn; lia | done].
  - assert (Hp : Zneg p * 2 ^ k = Zneg (shiftpos p k)).
    { change (Zneg (shiftpos p k)) with (- Zpos (shiftpos p k)). change (Zneg p) with (- Zpos p).
      rewrite shiftpos_Z by done. lia. }
    rewrite Hp. apply binary_round_shift; [apply digits_le_prec; simpl in Hn; lia | done].
Qed.

(** ** Exact sums, differences and comparisons *)

Lemma shl_align_fst (m : positive) (e e' : Z) :
  e' <= e -> Zpos (fst (shl_align m e e')) = Zpos m * 2 ^ (e - e').
Proof.
  intros H. unfold shl_align. destruct (e' - e) as [|t|t] eqn:Ht; cbn [fst].
  - replace (e - e') with 0 by lia. lia.
  - lia.
  - rewrite iter_xO_Z. do 2 f_equal. lia.
Qed.

Lemma canon_exp_range (p : positive) : Zpos p < 2 ^ prec -> 1 - prec <= canon_exp p <= 0.
Proof.
  intros Hp. pose proof (digits_le_prec p Hp). pose proof (Pos2Z.is_pos (digits2_pos p)).
  unfold canon_exp. lia.
Qed.

(** Aligning the float of [p] to a smaller exponent [ez] gives [p * 2^(-ez)]. *)
Lemma canon_aligned (p : positive) (ez : Z) :
  Zpos p < 2 ^ prec -> ez <= canon_exp p ->
  Zpos (fst (shl_align (canon_mant p) (canon_exp p) ez)) = Zpos p * 2 ^ (- ez).
Proof.
  intros Hp Hez. pose proof (digits_le_prec p Hp).
  rewrite shl_align_fst by done. unfold canon_mant, canon_exp in *.
  rewrite shiftpos_Z by lia. rewrite <- Z.mul_assoc, <- Z.pow_add_r by lia. do 2 f_equal. lia.
Qed.

Ltac finite_sum_cases p q :=
  let ez := fresh "ez" in
  set (ez := Z.min (canon_exp p) (canon_exp q));
  pose proof (canon_exp_range p ltac:(simpl in *; lia));
  pose proof (canon_exp_range q ltac:(simpl in *; lia));
  rewrite !canon_aligned by (simpl in *; lia);
  cbn [cond_Zopp];
  rewrite <- (normalize_shift _ (- ez)) by (done || lia);
  rewrite Z.opp_involutive; f_equal;
  change (Zneg p) with (- Zpos p) in *; change (Zneg q) with (- Zpos q) in *; ring.

Lemma SFadd_exact (a b : Z) :
  Z.abs a < 2 ^ prec -> Z.abs b < 2 ^ prec -> Z.abs (a + b) < 2 ^ prec ->
  SFadd prec emax (SFofZ a) (SFofZ b) = SFofZ (a + b).
Proof.
  intros Ha Hb Hab. rewrite (SFofZ_spec a Ha), (SFofZ_spec b Hb).
  destruct a as [|p|p], b as [|q|q]; cbn [SFadd];
    try (rewrite SFofZ_spec by done; reflexivity);
    finite_sum_cases p q.
Qed.

Lemma SFsub_exact (a b : Z) :
  Z.abs a < 2 ^ prec -> Z.abs b < 2 ^ prec -> Z.abs (a - b) < 2 ^ prec ->
  SFsub prec emax (SFofZ a) (SFofZ b) = SFofZ (a - b).
Proof.
  intros Ha Hb Hab. rewrite (SFofZ_spec a Ha), (SFofZ_spec b Hb).
  destruct a as [|p|p], b as [|q|q]; cbn [SFsub];
    try (rewrite SFofZ_spec by done; reflexivity);
    finite_sum_cases p q.
Qed.

Lemma digits_lt_Z (p q : positive) :
  Zpos (digits2_pos p) < Zpos (digits2_pos q) -> Zpos p < Zpos q.
Proof.
  intros H. pose proof (digits_bounds p) as [_ Hp]. pose proof (digits_bounds q) as [Hq _].
  assert (2 ^ Zpos (digits2_pos p) <= 2 ^ (Zpos (digits2_pos q) - 1)) by (apply Z.pow_le_mono_r; lia).
  lia.
Qed.

(** Two positive floats compare by exponent first, then by mantissa. *)
Lemma canon_compare (p q : positive) :
  Zpos p < 2 ^ prec -> Zpos q < 2 ^ prec ->
  match Z.compare (canon_exp p) (canon_exp q) with
  | Lt => Lt
  | Gt => Gt
  | Eq => Pos.compare_cont Eq (canon_mant p) (canon_mant q)
  end = Z.compare (Zpos p) (Zpos q).
Proof.
  intros Hp Hq. unfold canon_exp.
  destruct (Z.compare_spec (Zpos (digits2_pos p) - prec) (Zpos (digits2_pos q) - prec)) as [He|He|He].
  - assert (Hd : Zpos (digits2_pos p) = Zpos (digits2_pos q)) by lia.
    change (Pos.compare_cont Eq (canon_mant p) (canon_mant q)) with
      (Z.compare (Zpos (canon_mant p)) (Zpos (canon_mant q))).
    pose proof (digits_le_prec p Hp). unfold canon_mant. rewrite !shiftpos_Z by lia. rewrite Hd.
    symmetry. apply Zmult_compare_compat_r. apply Z.lt_gt, Z.pow_pos_nonneg; lia.
  - symmetry. apply Z.compare_lt_iff, digits_lt_Z. lia.
  - symmetry. apply Z.compare_gt_iff, digits_lt_Z. lia.
Qed.

Lemma SFcompare_exact (a b : Z) :
  Z.abs a < 2 ^ prec -> Z.abs b < 2 ^ prec ->
  SFcompare (SFofZ a) (SFofZ b) = Some (Z.compare a b).
Proof.
  intros Ha Hb. rewrite (SFofZ_spec a Ha), (SFofZ_spec b Hb).
  destruct a as [|p|p], b as [|q|q]; cbn [SFcompare]; try reflexivity.
  - f_equal. apply canon_compare; simpl in *; lia.
  - f_equal. pose proof (canon_compare p q ltac:(simpl in *; lia) ltac:(simpl in *; lia)) as H.
    change (Zneg p ?= Zneg q) with (CompOpp (Zpos p ?= Zpos q)). rewrite <- H.
    by destruct (Z.compare (canon_exp p) (canon_exp q)).
Qed.

(** ** Primitive floats holding integers *)

(** [x] is the binary64 float of the integer [n], [|n| < 2^53]. *)
Definition float_int (x : float) (n : Z) : Prop := Z.abs n < 2 ^ prec /\ Prim2SF x = SFofZ n.

Lemma float_int_inj (x y : float) (n : Z) : float_int x n -> float_int y n -> x = y.
Proof. intros [_ Hx] [_ Hy]. apply Prim2SF_inj. congruence. Qed.

Lemma float_add_int (x y : float) (a b : Z) :
  float_int x a -> float_int y b -> Z.abs (a + b) < 2 ^ prec -> float_int (x + y)%float (a + b).
Proof.
  intros [Ha Hx] [Hb Hy] Hab. split; [done|].
  rewrite add_spec, Hx, Hy. by apply SFadd_exact.
Qed.

Lemma float_sub_int (x y : float) (a b : Z) :
  float_int x a -> float_int y b -> Z.abs (a - b) < 2 ^ prec -> float_int (x - y)%float (a - b).
Proof.
  intros [Ha Hx] [Hb Hy] Hab. split; [done|].
  rewrite sub_spec, Hx, Hy. by apply SFsub_exact.
Qed.

Lemma float_ltb_int (x y : float) (a b : Z) :
  float_int x a -> float_int y b -> (x <? y)%float = (a <? b).
Proof.
  intros [Ha Hx] [Hb Hy]. rewrite ltb_spec, Hx, Hy. unfold SFltb.
  rewrite SFcompare_exact by done. unfold Z.ltb. by destruct (a ?= b).
Qed.

Lemma float_leb_int (x y : float) (a b : Z) :
  float_int x a -> float_int y b -> (x <=? y)%float = (a <=? b).
Proof.
  intros [Ha Hx] [Hb Hy]. rewrite leb_spec, Hx, Hy. unfold SFleb.
  rewrite SFcompare_exact by done. unfold Z.leb. by destruct (a ?= b).
Qed.

Lemma float_eqb_int (x y : float) (a b : Z) :
  float_int x a -> float_int y b -> (x =? y)%float = (a =? b).
Proof.
  intros [Ha Hx] [Hb Hy]. rewrite eqb_spec, Hx, Hy. unfold SFeqb.
  rewrite SFcompare_exact by done. rewrite Z.eqb_compare. by destruct (a ?= b).
Qed.

(** ** The exact value of a float *)

(** The rational a finite float denotes, [(-1)^s * m * 2^e]; 0 for the
    other classes. *)
Definition sf_value (f : spec_float) : Q :=
  match f with
  | S754_finite s m e => inject_Z (cond_Zopp s (Zpos m)) * Qpower 2 e
  | _ => 0
  end.

Definition float_value (x : float) : Q := sf_value (Prim2SF x).

Lemma inject_Z_pow2 (k : Z) : 0 <= k -> inject_Z (2 ^ k) == Qpower 2 k.
Proof. intros Hk. by rewrite Zpower_Qpower. Qed.

Lemma canon_value (p : positive) :
  Zpos p < 2 ^ prec -> inject_Z (Zpos (canon_mant p)) * Qpower 2 (canon_exp p) == inject_Z (Zpos p).
Proof.
  intros Hp. pose proof (canon_exp_range p Hp). pose proof (digits_le_prec p Hp).
  assert (Hm : Zpos (canon_mant p) = Zpos p * 2 ^ (- canon_exp p))
    by (unfold canon_mant, canon_exp in *; rewrite shiftpos_Z by lia; do 2 f_equal; lia).
  rewrite Hm, inject_Z_mult, inject_Z_pow2 by lia.
  rewrite <- Qmult_assoc, <- Qpower_plus by discriminate.
  rewrite Z.add_opp_diag_l. simpl. ring.
Qed.

Lemma float_int_value (x : float) (n : Z) : float_int x n -> float_value x == inject_Z n.
Proof.
  intros [Hn Hx]. unfold float_value. rewrite Hx, SFofZ_spec by done.
  destruct n as [|p|p]; [reflexivity| |]; cbn [sf_value cond_Zopp].
  - apply canon_value. simpl in Hn. lia.
  - rewrite inject_Z_opp.
    transitivity (- (inject_Z (Zpos (canon_mant p)) * Qpower 2 (canon_exp p)))%Q; [ring|].
    rewrite canon_value by (simpl in Hn; lia). reflexivity.
Qed.
