(* ===== verification/BatteryFloat.v ===== *)
(** * BatteryFloat: [battery.py] on binary64 floats
    (src/src/battery.py, [Battery.max_charge], [max_discharge], [charge],
    [discharge])

    The methods of [Battery] are generic over the float interface
    [PyFloat]; [Float_PyFloat] runs them on IEEE binary64 numbers as
    Python does. On arbitrary floats the exact contract fails
    ([Battery.float_charge_exceeds_capacity]). This file shows where it
    holds: when the four fields and the requests are whole numbers below
    [2^53] (whole kWh, or whole Wh with the unit changed), every
    operation the methods perform ([-] in [max_charge], [min], [+=],
    [-=]) is exact by [FloatExact], so the float battery computes what
    the battery over [Q] computes ([charge_float], [discharge_float]: a
    simulation through [battery_value], the rational each field denotes).
    The theorems of [Battery] and [BatteryLiveness] then carry over to
    the floats the program computes: the contract, the invariant
    [0 <= current_kWh <= capacity_kWh] over every client loop, the exact
    round trip, and the number of calls that fill or empty the battery. *)

From S2P Require Import Prelude Battery BatteryLiveness FloatExact.
From Stdlib Require Import Floats.
From stdpp Require Import relations.

Local Open Scope Q_scope.

(** ** Integer-valued float batteries *)

(** Python's [min(a, b)] on integers. *)
Definition zmin (a b : Z) : Z := if (b <? a)%Z then b else a.

Definition float_is_int (x : float) : Prop := exists n, float_int x n.

(** All four fields hold integers below [2^53]. *)
Definition battery_int (b : Battery float) : Prop :=
  float_is_int b.(capacity_kWh) /\ float_is_int b.(charge_kWh) /\
  float_is_int b.(discharge_kWh) /\ float_is_int b.(current_kWh).

(** The battery over [Q] a float battery denotes. *)
Definition battery_value (b : Battery float) : Battery Q :=
  mkBattery (float_value b.(capacity_kWh)) (float_value b.(charge_kWh))
            (float_value b.(discharge_kWh)) (float_value b.(current_kWh)).

Lemma py_min_float (x y : float) (n m : Z) :
  float_int x n -> float_int y m -> float_int (py_min x y) (zmin n m).
Proof.
  intros Hx Hy. unfold py_min, zmin. cbn [f_lt Float_PyFloat].
  rewrite (float_ltb_int y x m n Hy Hx). by destruct (m <? n)%Z.
Qed.

Lemma py_min_Q_inject (qx qy : Q) (n m : Z) :
  qx == inject_Z n -> qy == inject_Z m -> py_min qx qy == inject_Z (zmin n m).
Proof.
  intros Hx Hy. rewrite Hx, Hy. unfold py_min, zmin. cbn [f_lt Q_PyFloat].
  destruct (Qle_bool (inject_Z n) (inject_Z m)) eqn:E; destruct (Z.ltb_spec m n) as [Hlt|Hge];
    cbn [negb]; try reflexivity; exfalso.
  - apply Qle_bool_iff in E. rewrite <- Zle_Qle in E. lia.
  - rewrite Zle_Qle in Hge. apply Qle_bool_iff in Hge. congruence.
Qed.

Lemma zmin_cases (a b : Z) : (zmin a b = b /\ b < a \/ zmin a b = a /\ a <= b)%Z.
Proof. unfold zmin. destruct (Z.ltb_spec b a); lia. Qed.

Lemma battery_wf_Z (b : Battery float) (c h d u : Z) :
  float_int b.(capacity_kWh) c -> float_int b.(charge_kWh) h ->
  float_int b.(discharge_kWh) d -> float_int b.(current_kWh) u ->
  battery_wf (battery_value b) <-> (0 <= h /\ 0 <= d /\ 0 <= u <= c)%Z.
Proof.
  intros Hc Hh Hd Hu. unfold battery_wf, battery_value. cbn [capacity_kWh charge_kWh discharge_kWh current_kWh].
  rewrite (float_int_value _ _ Hc), (float_int_value _ _ Hh), (float_int_value _ _ Hd),
    (float_int_value _ _ Hu).
  change 0%Q with (inject_Z 0). rewrite <- !Zle_Qle. lia.
Qed.

(** ** One call: the float battery computes the exact battery *)

Lemma charge_float_Z (b : Battery float) (x : float) (c h u a : Z) :
  float_int b.(capacity_kWh) c -> float_int b.(charge_kWh) h -> float_int b.(current_kWh) u ->
  float_int x a -> (0 <= h)%Z -> (0 <= u <= c)%Z -> (0 <= a)%Z ->
  float_int (charge b x).2 (zmin a (zmin h (c - u))) /\
  float_int (charge b x).1.(current_kWh) (u + zmin a (zmin h (c - u))) /\
  (0 <= zmin a (zmin h (c - u)) <= c - u)%Z.
Proof.
  intros Hc Hh Hu Ha Hh0 Hcu Ha0. pose proof (proj1 Hc) as Hcr.
  assert (Hsub : float_int (f_sub b.(capacity_kWh) b.(current_kWh)) (c - u))
    by (apply float_sub_int; [done | done | lia]).
  assert (Hmc : float_int (max_charge b) (zmin h (c - u))) by (by apply py_min_float).
  assert (Hact : float_int (charge b x).2 (zmin a (zmin h (c - u)))) by (by apply py_min_float).
  assert (Hbnd : (0 <= zmin a (zmin h (c - u)) <= c - u)%Z)
    by (pose proof (zmin_cases h (c - u)); pose proof (zmin_cases a (zmin h (c - u))); lia).
  split; [done|split; [|done]].
  apply float_add_int; [done | done | lia].
Qed.

Lemma charge_Q_Z (b : Battery Q) (q : Q) (c h u a : Z) :
  b.(capacity_kWh) == inject_Z c -> b.(charge_kWh) == inject_Z h ->
  b.(current_kWh) == inject_Z u -> q == inject_Z a ->
  (charge b q).2 == inject_Z (zmin a (zmin h (c - u))) /\
  (charge b q).1.(current_kWh) == inject_Z (u + zmin a (zmin h (c - u))).
Proof.
  intros Hc Hh Hu Ha.
  assert (Hact : (charge b q).2 == inject_Z (zmin a (zmin h (c - u)))).
  { unfold charge, max_charge. cbn [snd]. apply py_min_Q_inject; [done|].
    apply py_min_Q_inject; [done|]. qnorm. rewrite Hc, Hu. unfold Z.sub. rewrite inject_Z_plus, inject_Z_opp. reflexivity. }
  split; [done|]. rewrite charge_fst. cbn [set_current current_kWh]. qnorm.
  rewrite Hu, Hact, inject_Z_plus. reflexivity.
Qed.

Lemma discharge_float_Z (b : Battery float) (x : float) (d u a : Z) :
  float_int b.(discharge_kWh) d -> float_int b.(current_kWh) u -> float_int x a ->
  (0 <= d)%Z -> (0 <= u)%Z -> (0 <= a)%Z ->
  float_int (discharge b x).2 (zmin a (zmin d u)) /\
  float_int (discharge b x).1.(current_kWh) (u - zmin a (zmin d u)) /\
  (0 <= zmin a (zmin d u) <= u)%Z.
Proof.
  intros Hd Hu Ha Hd0 Hu0 Ha0. pose proof (proj1 Hu) as Hur.
  assert (Hmd : float_int (max_discharge b) (zmin d u)) by (by apply py_min_float).
  assert (Hact : float_int (discharge b x).2 (zmin a (zmin d u))) by (by apply py_min_float).
  assert (Hbnd : (0 <= zmin a (zmin d u) <= u)%Z)
    by (pose proof (zmin_cases d u); pose proof (zmin_cases a (zmin d u)); lia).
  split; [done|split; [|done]].
  apply float_sub_int; [done | done | lia].
Qed.

Lemma discharge_Q_Z (b : Battery Q) (q : Q) (d u a : Z) :
  b.(discharge_kWh) == inject_Z d -> b.(current_kWh) == inject_Z u -> q == inject_Z a ->
  (discharge b q).2 == inject_Z (zmin a (zmin d u)) /\
  (discharge b q).1.(current_kWh) == inject_Z (u - zmin a (zmin d u)).
Proof.
  intros Hd Hu Ha.
  assert (Hact : (discharge b q).2 == inject_Z (zmin a (zmin d u))).
  { unfold discharge, max_discharge. cbn [snd]. apply py_min_Q_inject; [done|].
    by apply py_min_Q_inject. }
  split; [done|]. rewrite discharge_fst. cbn [set_current current_kWh]. qnorm.
  rewrite Hu, Hact. unfold Z.sub. rewrite inject_Z_plus, inject_Z_opp. reflexivity.
Qed.

Lemma float_value_nonneg (x : float) (a : Z) : float_int x a -> (0 <= float_value x)%Q -> (0 <= a)%Z.
Proof.
  intros Ha H. rewrite (float_int_value _ _ Ha) in H. change 0%Q with (inject_Z 0) in H.
  by rewrite <- Zle_Qle in H.
Qed.

(** One call of [charge] on an integer-valued well-formed float battery
    with a non-negative integer request: the result is integer-valued
    and denotes the result of the exact [charge]. *)
Lemma charge_float (b : Battery float) (x : float) :
  battery_int b -> battery_wf (battery_value b) -> float_is_int x -> (0 <= float_value x)%Q ->
  battery_int (charge b x).1 /\
  battery_equiv (battery_value (charge b x).1) (charge (battery_value b) (float_value x)).1 /\
  float_value (charge b x).2 == (charge (battery_value b) (float_value x)).2.
Proof.
  intros ([c Hc] & [h Hh] & [d Hd] & [u Hu]) Hwf [a Ha] Ha0.
  apply (battery_wf_Z b c h d u Hc Hh Hd Hu) in Hwf as (Hh0 & Hd0 & Hcu).
  apply (float_value_nonneg x a Ha) in Ha0.
  destruct (charge_float_Z b x c h u a Hc Hh Hu Ha Hh0 Hcu Ha0) as (Hact & Hcur & _).
  destruct (charge_Q_Z (battery_value b) (float_value x) c h u a) as [Qact Qcur];
    try by apply float_int_value.
  split; [|split].
  - split; [by exists c|split; [by exists h|split; [by exists d|by eexists]]].
  - unfold battery_equiv, battery_value. cbn [capacity_kWh charge_kWh discharge_kWh].
    repeat split; try reflexivity. rewrite Qcur. by apply float_int_value.
  - rewrite Qact. by apply float_int_value.
Qed.

Lemma discharge_float (b : Battery float) (x : float) :
  battery_int b -> battery_wf (battery_value b) -> float_is_int x -> (0 <= float_value x)%Q ->
  battery_int (discharge b x).1 /\
  battery_equiv (battery_value (discharge b x).1) (discharge (battery_value b) (float_value x)).1 /\
  float_value (discharge b x).2 == (discharge (battery_value b) (float_value x)).2.
Proof.
  intros ([c Hc] & [h Hh] & [d Hd] & [u Hu]) Hwf [a Ha] Ha0.
  apply (battery_wf_Z b c h d u Hc Hh Hd Hu) in Hwf as (Hh0 & Hd0 & Hcu).
  apply (float_value_nonneg x a Ha) in Ha0.
  destruct (discharge_float_Z b x d u a Hd Hu Ha Hd0 ltac:(lia) Ha0) as (Hact & Hcur & _).
  destruct (discharge_Q_Z (battery_value b) (float_value x) d u a) as [Qact Qcur];
    try by apply float_int_value.
  split; [|split].
  - split; [by exists c|split; [by exists h|split; [by exists d|by eexists]]].
  - unfold battery_equiv, battery_value. cbn [capacity_kWh charge_kWh discharge_kWh].
    repeat split; try reflexivity. rewrite Qcur. by apply float_int_value.
  - rewrite Qact. by apply float_int_value.
Qed.

(** ** Repeated calls *)

(** [n] calls of one float method with the same request simulate [n]
    calls of the exact method. *)
Section FloatIter.
Context (mf : Battery float -> float -> Battery float * float)
        (mq : Battery Q -> Q -> Battery Q * Q).
Hypothesis mf_sim : forall b x,
  battery_int b -> battery_wf (battery_value b) -> float_is_int x -> (0 <= float_value x)%Q ->
  battery_int (mf b x).1 /\
  battery_equiv (battery_value (mf b x).1) (mq (battery_value b) (float_value x)).1 /\
  float_value (mf b x).2 == (mq (battery_value b) (float_value x)).2.
Hypothesis mq_Proper : Proper (battery_equiv ==> Qeq ==> call_equiv) mq.
Hypothesis mq_wf : forall b a, battery_wf b -> (0 <= a)%Q -> battery_wf (mq b a).1.

Lemma iter_float_sim (n : nat) (b : Battery float) (x : float) :
  battery_int b -> battery_wf (battery_value b) -> float_is_int x -> (0 <= float_value x)%Q ->
  battery_int (Nat.iter n (fun b' => (mf b' x).1) b) /\
  battery_wf (battery_value (Nat.iter n (fun b' => (mf b' x).1) b)) /\
  battery_equiv (battery_value (Nat.iter n (fun b' => (mf b' x).1) b))
                (Nat.iter n (fun b' => (mq b' (float_value x)).1) (battery_value b)).
Proof.
  intros Hb Hwf Hx Hx0. induction n as [|n (Hi & Hw & He)]; [done|].
  cbn [Nat.iter]. destruct (mf_sim _ x Hi Hw Hx Hx0) as (Hi' & He' & _).
  assert (Hq : battery_equiv (mq (battery_value (Nat.iter n (fun b' => (mf b' x).1) b)) (float_value x)).1
                             (mq (Nat.iter n (fun b' => (mq b' (float_value x)).1) (battery_value b))
                                 (float_value x)).1)
    by (apply mq_Proper; [done | reflexivity]).
  split; [done|split].
  - rewrite He'. by apply mq_wf.
  - by rewrite He', Hq.
Qed.

End FloatIter.

(** Integer floats with equal values are the same float. *)
Lemma float_int_value_eq (x y : float) (n m : Z) :
  float_int x n -> float_int y m -> float_value x == float_value y -> x = y.
Proof.
  intros Hx Hy H. rewrite (float_int_value _ _ Hx), (float_int_value _ _ Hy) in H.
  assert (n = m) as <- by (apply Z.le_antisymm; rewrite Zle_Qle, H; apply Qle_refl).
  by apply (float_int_inj x y n).
Qed.

Lemma float_int_value_lt (x y : float) (n m : Z) :
  float_int x n -> float_int y m -> float_value x < float_value y -> (x <? y)%float = true.
Proof.
  intros Hx Hy H. rewrite (float_int_value _ _ Hx), (float_int_value _ _ Hy) in H.
  rewrite (float_ltb_int x y n m Hx Hy). apply Z.ltb_lt. by rewrite Zlt_Qlt.
Qed.

(** ** The client loop on floats *)

(** One call of the simulation loop on floats: a non-negative
    whole-number request to either method. *)
Inductive float_step : Battery float -> Battery float -> Prop :=
| fstep_charge (b : Battery float) (x : float) :
    float_is_int x -> 0 <= float_value x -> float_step b (charge b x).1
| fstep_discharge (b : Battery float) (x : float) :
    float_is_int x -> 0 <= float_value x -> float_step b (discharge b x).1.

(** [charge_spec] read on equivalent results. *)
Lemma charge_spec_equiv (b : Battery Q) (a : Q) (b1 b2 : Battery Q) (x1 x2 : Q) :
  charge_spec b a b1 x1 -> battery_equiv b2 b1 -> x2 == x1 ->
  b2.(capacity_kWh) = b1.(capacity_kWh) -> b2.(charge_kWh) = b1.(charge_kWh) ->
  b2.(discharge_kWh) = b1.(discharge_kWh) -> charge_spec b a b2 x2.
Proof.
  intros (H1 & H2 & H3 & H4 & H5 & H6 & H7 & H8) (_ & _ & _ & Hu) Hx Hc Hk Hd.
  unfold charge_spec. rewrite Hc, Hk, Hd, Hu, Hx. repeat split; try done; try apply H1.
  intros a' ? ? ?. rewrite Hx. by apply H8.
Qed.

(** A float battery whose value is well formed holds its charge between
    0 and its capacity, as floats compare. *)
Lemma battery_wf_float (b : Battery float) :
  battery_int b -> battery_wf (battery_value b) ->
  (0 <=? b.(current_kWh))%float = true /\ (b.(current_kWh) <=? b.(capacity_kWh))%float = true.
Proof.
  intros ([c Hc] & [h Hh] & [d Hd] & [u Hu]) Hwf.
  apply (battery_wf_Z b c h d u Hc Hh Hd Hu) in Hwf as (_ & _ & Hcu).
  assert (H0 : float_int 0%float 0) by (split; vm_compute; reflexivity).
  rewrite (float_leb_int _ _ 0 u H0 Hu), (float_leb_int _ _ u c Hu Hc).
  split; apply Z.leb_le; lia.
Qed.

Lemma float_int_zero : float_int 0%float 0.
Proof. split; vm_compute; reflexivity. Qed.

(** [n] calls of the same method with the same request, on floats. *)
Definition charge_iter_float (n : nat) (x : float) (b : Battery float) : Battery float :=
  Nat.iter n (fun b' => (charge b' x).1) b.

Definition discharge_iter_float (n : nat) (x : float) (b : Battery float) : Battery float :=
  Nat.iter n (fun b' => (discharge b' x).1) b.

(** [Battery()] with the constructor's default arguments, as floats. *)
Definition Battery_default_float : Battery float := Battery_init 1000%float 200%float 200%float 0%float.

(** ** Properties *)

(** C11: on binary64 floats, [charge] implements its exact contract on
    every well-formed battery whose fields are whole numbers below
    [2^53], for every non-negative whole-number request: read as the
    rationals the floats denote, the returned amount is the largest
    within the request, the charge limit and the headroom, it is added
    to [current_kWh] without rounding, and [current_kWh] stays at most
    [capacity_kWh]. *)
Theorem charge_refines_float (b : Battery float) (x : float) :
  battery_int b -> battery_wf (battery_value b) -> float_is_int x -> 0 <= float_value x ->
  charge_spec (battery_value b) (float_value x) (battery_value (charge b x).1)
              (float_value (charge b x).2).
Proof.
  intros Hb Hwf Hx Hx0. destruct (charge_float b x Hb Hwf Hx Hx0) as (_ & Heq & Hact).
  by apply (charge_spec_equiv _ _ _ _ _ _ (charge_refines _ _ Hwf Hx0) Heq Hact).
Qed.

(** C12: the invariant of the client loop on binary64 floats: every
    battery reachable from a well-formed whole-number battery by
    non-negative whole-number requests to [charge] and [discharge] keeps
    whole-number fields and [0 <= current_kWh <= capacity_kWh], also as
    the program's floats compare. *)
Theorem reachable_wf_float (b0 b : Battery float) :
  battery_int b0 -> battery_wf (battery_value b0) -> rtc float_step b0 b ->
  battery_int b /\ battery_wf (battery_value b) /\
  (0 <=? b.(current_kWh))%float = true /\ (b.(current_kWh) <=? b.(capacity_kWh))%float = true.
Proof.
  intros Hb Hwf Hreach. revert Hb Hwf.
  induction Hreach as [b|b1 b2 b3 Hstep _ IH]; intros Hb Hwf.
  - split; [done|split; [done|by apply battery_wf_float]].
  - destruct Hstep as [b1 x Hx Hx0|b1 x Hx Hx0].
    + destruct (charge_float b1 x Hb Hwf Hx Hx0) as (Hi & Heq & _).
      apply IH; [done|]. rewrite Heq. by apply charge_preserves_wf.
    + destruct (discharge_float b1 x Hb Hwf Hx Hx0) as (Hi & Heq & _).
      apply IH; [done|]. rewrite Heq. by apply discharge_preserves_wf.
Qed.

(** C13: the round trip the spec promises holds exactly on binary64
    floats for whole numbers: discharging the amount a [charge] call
    returned, when the discharge limit allows it, returns that amount
    and gives back the very same battery, float for float. *)
Theorem charge_discharge_roundtrip_float (b : Battery float) (x : float) :
  battery_int b -> battery_wf (battery_value b) -> float_is_int x -> 0 <= float_value x ->
  ((charge b x).2 <=? b.(discharge_kWh))%float = true ->
  (discharge (charge b x).1 (charge b x).2).2 = (charge b x).2 /\
  (discharge (charge b x).1 (charge b x).2).1 = b.
Proof.
  intros ([c Hc] & [h Hh] & [d Hd] & [u Hu]) Hwf [a Ha] Ha0 Hlim.
  apply (battery_wf_Z b c h d u Hc Hh Hd Hu) in Hwf as (Hh0 & Hd0 & Hcu).
  apply (float_value_nonneg x a Ha) in Ha0.
  destruct (charge_float_Z b x c h u a Hc Hh Hu Ha Hh0 Hcu Ha0) as (Hact & Hcur & Hbnd).
  set (act := zmin a (zmin h (c - u))) in *.
  rewrite (float_leb_int _ _ act d Hact Hd) in Hlim. apply Z.leb_le in Hlim.
  destruct (discharge_float_Z (charge b x).1 (charge b x).2 d (u + act) act Hd Hcur Hact Hd0
    ltac:(lia) ltac:(lia)) as (Hact' & Hcur' & _).
  assert (Hz : zmin act (zmin d (u + act)) = act)
    by (pose proof (zmin_cases d (u + act)); pose proof (zmin_cases act (zmin d (u + act))); lia).
  rewrite Hz in Hact', Hcur'. replace (u + act - act)%Z with u in Hcur' by lia.
  split; [by apply (float_int_inj _ _ act)|].
  change (discharge (charge b x).1 (charge b x).2).1 with
    (set_current b (discharge (charge b x).1 (charge b x).2).1.(current_kWh)).
  rewrite (float_int_inj _ _ u Hcur' Hu). by destruct b.
Qed.

(** C18: liveness of charging on binary64 floats. From a well-formed
    whole-number battery with a positive charge limit, repeated
    [charge(x)] with a whole-number [x >= charge_kWh] makes
    [current_kWh] equal to [capacity_kWh] as floats after exactly
    [ceil((capacity_kWh - current_kWh) / charge_kWh)] calls, and it is
    below the capacity after every fewer number of calls. *)
Theorem charge_fills_float (b : Battery float) (x : float) :
  battery_int b -> battery_wf (battery_value b) -> float_is_int x ->
  0 < float_value b.(charge_kWh) -> float_value b.(charge_kWh) <= float_value x ->
  let n := calls_needed (float_value b.(capacity_kWh) - float_value b.(current_kWh))
                        (float_value b.(charge_kWh)) in
  (charge_iter_float n x b).(current_kWh) = b.(capacity_kWh) /\
  (forall k, (k < n)%nat -> ((charge_iter_float k x b).(current_kWh) <? b.(capacity_kWh))%float = true).
Proof.
  intros Hb Hwf Hx Hr Ha n. assert (Hx0 : 0 <= float_value x) by lra.
  pose proof (charge_fills (battery_value b) (float_value x) Hwf Hr Ha) as (Hfull & Hbefore & _).
  cbv zeta in Hfull, Hbefore. fold n in Hfull, Hbefore.
  pose proof (fun k => iter_float_sim charge charge charge_float _ charge_preserves_wf k b x Hb Hwf Hx Hx0)
    as Hsim.
  destruct Hb as ([c Hc] & _ & _ & _).
  split.
  - destruct (Hsim n) as ((_ & _ & _ & [u Hu]) & _ & (_ & _ & _ & Heq)).
    apply (float_int_value_eq _ _ u c Hu Hc). rewrite Heq. exact Hfull.
  - intros k Hk. destruct (Hsim k) as ((_ & _ & _ & [u Hu]) & _ & (_ & _ & _ & Heq)).
    apply (float_int_value_lt _ _ u c Hu Hc). rewrite Heq. exact (Hbefore k Hk).
Qed.

(** C19: liveness of discharging on binary64 floats. From a well-formed
    whole-number battery with a positive discharge limit, repeated
    [discharge(x)] with a whole-number [x >= discharge_kWh] leaves
    [current_kWh] equal to the float [0.0] after exactly
    [ceil(current_kWh / discharge_kWh)] calls, and positive after every
    fewer number of calls: no residue is left. *)
Theorem discharge_empties_float (b : Battery float) (x : float) :
  battery_int b -> battery_wf (battery_value b) -> float_is_int x ->
  0 < float_value b.(discharge_kWh) -> float_value b.(discharge_kWh) <= float_value x ->
  let n := calls_needed (float_value b.(current_kWh)) (float_value b.(discharge_kWh)) in
  (discharge_iter_float n x b).(current_kWh) = 0%float /\
  (forall k, (k < n)%nat -> (0 <? (discharge_iter_float k x b).(current_kWh))%float = true).
Proof.
  intros Hb Hwf Hx Hr Ha n. assert (Hx0 : 0 <= float_value x) by lra.
  pose proof (discharge_empties (battery_value b) (float_value x) Hwf Hr Ha) as (Hempty & Hbefore & _).
  cbv zeta in Hempty, Hbefore. fold n in Hempty, Hbefore.
  pose proof (fun k => iter_float_sim discharge discharge discharge_float _ discharge_preserves_wf
                         k b x Hb Hwf Hx Hx0) as Hsim.
  assert (H0 : float_value 0%float == 0) by (apply (float_int_value _ _ float_int_zero)).
  split.
  - destruct (Hsim n) as ((_ & _ & _ & [u Hu]) & _ & (_ & _ & _ & Heq)).
    apply (float_int_value_eq _ _ u 0 Hu float_int_zero). rewrite Heq, H0. exact Hempty.
  - intros k Hk. destruct (Hsim k) as ((_ & _ & _ & [u Hu]) & _ & (_ & _ & _ & Heq)).
    apply (float_int_value_lt _ _ 0 u float_int_zero Hu). rewrite Heq, H0. exact (Hbefore k Hk).
Qed.

(** ** Witnesses *)

Local Ltac float_int_lit := split; vm_compute; reflexivity.

Lemma charge_refines_float_witness :
  charge_spec (battery_value Battery_default_float) (float_value 500%float)
    (battery_value (charge Battery_default_float 500%float).1)
    (float_value (charge Battery_default_float 500%float).2).
Proof.
  apply charge_refines_float.
  - split; [|split; [|split]]; [exists 1000%Z|exists 200%Z|exists 200%Z|exists 0%Z]; float_int_lit.
  - qdecide.
  - exists 500%Z. float_int_lit.
  - qdecide.
Defined.

Lemma reachable_wf_float_witness :
  ((charge Battery_default_float 500%float).1.(current_kWh) <=?
     (charge Battery_default_float 500%float).1.(capacity_kWh))%float = true.
Proof.
  apply (reachable_wf_float Battery_default_float (charge Battery_default_float 500%float).1).
  - split; [|split; [|split]]; [exists 1000%Z|exists 200%Z|exists 200%Z|exists 0%Z]; float_int_lit.
  - qdecide.
  - apply rtc_once. apply fstep_charge; [exists 500%Z; float_int_lit | qdecide].
Defined.

Lemma charge_discharge_roundtrip_float_witness :
  (discharge (charge Battery_default_float 150%float).1 (charge Battery_default_float 150%float).2).1 =
    Battery_default_float.
Proof.
  apply charge_discharge_roundtrip_float.
  - split; [|split; [|split]]; [exists 1000%Z|exists 200%Z|exists 200%Z|exists 0%Z]; float_int_lit.
  - qdecide.
  - exists 150%Z. float_int_lit.
  - qdecide.
  - vm_compute. reflexivity.
Defined.

Lemma charge_fills_float_witness :
  (charge_iter_float 5 500%float Battery_default_float).(current_kWh) = 1000%float.
Proof.
  apply (charge_fills_float Battery_default_float 500%float).
  - split; [|split; [|split]]; [exists 1000%Z|exists 200%Z|exists 200%Z|exists 0%Z]; float_int_lit.
  - qdecide.
  - exists 500%Z. float_int_lit.
  - qdecide.
  - qdecide.
Defined.

Lemma discharge_empties_float_witness :
  (discharge_iter_float 3 200%float (Battery_init 1000%float 200%float 150%float 450%float)).(current_kWh) =
    0%float.
Proof.
  apply (discharge_empties_float (Battery_init 1000%float 200%float 150%float 450%float) 200%float).
  - split; [|split; [|split]]; [exists 1000%Z|exists 200%Z|exists 150%Z|exists 450%Z]; float_int_lit.
  - qdecide.
  - exists 200%Z. float_int_lit.
  - qdecide.
  - qdecide.
Defined.
