(* ===== verification/ProfileFrame.v ===== *)
(** * ProfileFrame: the pandas values of src/src/load_profiles.py

    A Series is the list of its (index label, value) pairs in order; the
    operations the code applies to one are re-indexing
    ([df.index = df.index.map(f)], line 94), scaling ([ser * x], line
    48) and concatenation ([pd.concat], line 125). The DataFrame of a
    VDEW sheet has one index of times of day and columns labelled by
    (season, day type); [profile_df[season][weekday]] (line 85) is two
    lookups that raise [KeyError] when a label is missing.
    [get_profile_from_file] (lines 21-36) is modelled on a workbook that
    is already parsed: the sheet named [type] with its first [24 * 4]
    rows, or pandas' [ValueError] when the sheet does not exist. *)

From S2P Require Import Prelude Calendar.
Local Open Scope Q_scope.

(** ** Series *)

Definition series (I : Type) : Type := list (I * Q).

Definition series_index {I : Type} (s : series I) : list I := map fst s.
Definition series_values {I : Type} (s : series I) : list Q := map snd s.

(** [s.index = s.index.map(f)]: the values stay, the labels are mapped. *)
Definition series_map_index {I J : Type} (f : I -> J) (s : series I) : series J :=
  map (fun p => (f p.1, p.2)) s.

(** [s * x] for a scalar [x]. *)
Definition series_mul {I : Type} (s : series I) (x : Q) : series I :=
  map (fun p => (p.1, p.2 * x)) s.

(** [pd.concat(series_list, axis="index")]. *)
Definition series_concat {I : Type} (l : list (series I)) : series I := concat l.

(** [pd.concat(objs)] raises [ValueError] when [objs] is empty. *)
Definition pd_concat {I : Type} (l : list (series I)) : result (series I) :=
  match l with
  | [] => Raise (ValueError "No objects to concatenate")
  | _ => Ok (series_concat l)
  end.

(** ** DataFrame with two-level column labels *)

Record frame := mkframe {
  fr_index : list time;
  fr_columns : list ((string * string) * list Q)
}.

(** The frame [df[key]] returns: the columns under [key], with their
    second-level labels. *)
Record subframe := mksubframe {
  sf_index : list time;
  sf_columns : list (string * list Q)
}.

(** The columns under the first-level label [key], relabelled by their
    second level. *)
Definition level0_columns (cols : list ((string * string) * list Q)) (key : string)
    : list (string * list Q) :=
  omap (fun c : (string * string) * list Q =>
          if bool_decide (c.1.1 = key) then Some (c.1.2, c.2) else None) cols.

(** [df[key]] on the first column level. *)
Definition frame_getitem (df : frame) (key : string) : result subframe :=
  match level0_columns df.(fr_columns) key with
  | [] => Raise (KeyError key)
  | cols => Ok (mksubframe df.(fr_index) cols)
  end.

Fixpoint assoc_lookup {A : Type} (key : string) (l : list (string * A)) : option A :=
  match l with
  | [] => None
  | (k, a) :: l' => if bool_decide (k = key) then Some a else assoc_lookup key l'
  end.

(** [sub[key]]: the column as a Series over the frame's index. *)
Definition subframe_getitem (sf : subframe) (key : string) : result (series time) :=
  match assoc_lookup key sf.(sf_columns) with
  | Some vs => Ok (zip sf.(sf_index) vs)
  | None => Raise (KeyError key)
  end.

(** ** Reading a sheet *)

(** A workbook after parsing: each sheet name with its frame. *)
Definition workbook : Type := list (string * frame).

(** [nrows=n]: the first [n] data rows. *)
Definition frame_head (n : nat) (df : frame) : frame :=
  mkframe (take n df.(fr_index)) (map (fun c => (c.1, take n c.2)) df.(fr_columns)).

Definition get_profile_from_file (fp : workbook) (type : string) : result frame :=
  match assoc_lookup type fp with
  | Some df => Ok (frame_head (24 * 4) df)
  | None => Raise (ValueError ("Worksheet named '" +:+ type +:+ "' not found"))
  end.

(** ** Lemmas *)

Lemma length_series_map_index {I J : Type} (f : I -> J) (s : series I) :
  length (series_map_index f s) = length s.
Proof. apply length_map. Qed.

Lemma series_values_map_index {I J : Type} (f : I -> J) (s : series I) :
  series_values (series_map_index f s) = series_values s.
Proof. unfold series_values, series_map_index. rewrite map_map. by apply map_ext. Qed.

Lemma series_index_map_index {I J : Type} (f : I -> J) (s : series I) :
  series_index (series_map_index f s) = map f (series_index s).
Proof. unfold series_index, series_map_index. by rewrite !map_map. Qed.

Lemma series_index_mul {I : Type} (s : series I) (x : Q) :
  series_index (series_mul s x) = series_index s.
Proof. unfold series_index, series_mul. rewrite map_map. by apply map_ext. Qed.

Lemma series_values_mul {I : Type} (s : series I) (x : Q) :
  series_values (series_mul s x) = map (fun v => v * x) (series_values s).
Proof. unfold series_values, series_mul. by rewrite !map_map. Qed.

Lemma length_series_mul {I : Type} (s : series I) (x : Q) :
  length (series_mul s x) = length s.
Proof. apply length_map. Qed.

Lemma series_index_concat {I : Type} (l : list (series I)) :
  series_index (series_concat l) = concat (map series_index l).
Proof. unfold series_index, series_concat. induction l; simpl; [done|]. by rewrite map_app, IHl. Qed.

Lemma pd_concat_ne {I : Type} (l : list (series I)) : l <> [] -> pd_concat l = Ok (series_concat l).
Proof. by destruct l. Qed.

Lemma series_index_zip {I : Type} (idx : list I) (vs : list Q) :
  length vs = length idx -> series_index (zip idx vs) = idx.
Proof. intros H. unfold series_index. by apply fst_zip; lia. Qed.

Lemma series_values_zip {I : Type} (idx : list I) (vs : list Q) :
  length vs = length idx -> series_values (zip idx vs) = vs.
Proof. intros H. unfold series_values. by apply snd_zip; lia. Qed.

(** The column labelled [(key1, key2)], the first one when labels repeat. *)
Fixpoint frame_column (cols : list ((string * string) * list Q)) (key1 key2 : string)
    : option (list Q) :=
  match cols with
  | [] => None
  | c :: cols' =>
      if bool_decide (c.1 = (key1, key2)) then Some c.2 else frame_column cols' key1 key2
  end.

Definition has_level0 (cols : list ((string * string) * list Q)) (key1 : string) : bool :=
  existsb (fun c => bool_decide (c.1.1 = key1)) cols.

Lemma assoc_lookup_level0 (cols : list ((string * string) * list Q)) (key1 key2 : string) :
  assoc_lookup key2 (level0_columns cols key1) = frame_column cols key1 key2.
Proof.
  induction cols as [|[[k1 k2] vs] cols IH]; simpl; [done|].
  unfold level0_columns in *. simpl.
  case_bool_decide as H1; simpl; subst.
  - case_bool_decide as H2; case_bool_decide as H3; simplify_eq; done.
  - case_bool_decide; simplify_eq; done.
Qed.

Lemma level0_columns_nil (cols : list ((string * string) * list Q)) (key1 : string) :
  level0_columns cols key1 = [] <-> has_level0 cols key1 = false.
Proof.
  induction cols as [|[[k1 k2] vs] cols IH]; [done|].
  unfold level0_columns in *. simpl. case_bool_decide; simpl; [split; discriminate | done].
Qed.

(** [df[key1][key2]] is the lookup of the pair [(key1, key2)]; the
    [KeyError] names the first label that is missing. *)
Lemma frame_getitem2_spec (df : frame) (key1 key2 : string) :
  res_bind (frame_getitem df key1) (fun sf => subframe_getitem sf key2) =
  match frame_column df.(fr_columns) key1 key2 with
  | Some vs => Ok (zip df.(fr_index) vs)
  | None => Raise (KeyError (if has_level0 df.(fr_columns) key1 then key2 else key1))
  end.
Proof.
  unfold frame_getitem, subframe_getitem. rewrite <- assoc_lookup_level0.
  destruct (level0_columns _ key1) as [|c cs] eqn:E.
  - apply level0_columns_nil in E. by rewrite E.
  - destruct (has_level0 _ key1) eqn:Eh.
    + simpl. by destruct (assoc_lookup key2 _).
    + apply level0_columns_nil in Eh. congruence.
Qed.

Lemma series_map_index_zip {I J : Type} (f : I -> J) (idx : list I) (vs : list Q) :
  series_map_index f (zip idx vs) = zip (map f idx) vs.
Proof. revert vs. induction idx; intros [|v vs]; simpl; f_equal; auto. Qed.

Lemma series_mul_zip {I : Type} (idx : list I) (vs : list Q) (x : Q) :
  series_mul (zip idx vs) x = zip idx (map (fun v => v * x) vs).
Proof. revert vs. induction idx; intros [|v vs]; simpl; f_equal; auto. Qed.

Lemma length_zip_eq {I : Type} (idx : list I) (vs : list Q) :
  length vs = length idx -> length (zip idx vs) = length idx.
Proof. intros H. rewrite length_zip. lia. Qed.

Lemma series_values_concat {I : Type} (l : list (series I)) :
  series_values (series_concat l) = concat (map series_values l).
Proof. unfold series_values, series_concat. induction l; simpl; [done|]. by rewrite map_app, IHl. Qed.

(** [nrows] keeps the first [n] values of every column. *)
Lemma frame_column_head (n : nat) (cols : list ((string * string) * list Q)) (key1 key2 : string) :
  frame_column (map (fun c => (c.1, take n c.2)) cols) key1 key2 = take n <$> frame_column cols key1 key2.
Proof. induction cols as [|c cols IH]; simpl; [done|]. by case_bool_decide. Qed.
