(* ===== verification/PandasIndex.v ===== *)
(** * PandasIndex: the index objects behind [df.index.map(...)] and
    [df.index.dayofyear[0]] (src/src/load_profiles.py, lines 94 and 97)

    A pandas [Index] is its values with a dtype. Mapping a function over
    an index ([Index.map] in pandas/core/indexes/base.py) builds the new
    values and infers the dtype from them ([Index._with_infer]), except
    when there are none: an empty result keeps the dtype of the source
    index. An exception the function raises propagates out of [map].
    The dtype pandas infers for Python objects is the class
    [InferDtype]: [datetime.datetime] objects give [datetime64] (a
    [DatetimeIndex]), [datetime.time] objects stay [object]. Only a
    [DatetimeIndex] has the [dayofyear] accessor; an [object] index raises
    [AttributeError]. The accessor returns a NumPy array, indexed with
    Python's rules: negative positions count from the end and a position
    out of range raises [IndexError]. Assigning [s.index = ix] replaces
    the labels of a Series and raises [ValueError] on a length mismatch. *)

From S2P Require Import Prelude Calendar ProfileFrame.
From stdpp Require Import pretty.
Local Open Scope Z_scope.

(** ** Dtypes and their inference *)

Inductive dtype : Type :=
| DtObject
| DtDatetime64.

#[export] Instance dtype_eq_dec : EqDecision dtype.
Proof. solve_decision. Defined.

(** The dtype pandas infers for a non-empty array of objects of type [A]. *)
Class InferDtype (A : Type) := infer_dtype : dtype.

#[export] Instance infer_datetime : InferDtype datetime := DtDatetime64.
#[export] Instance infer_time : InferDtype time := DtObject.

(** ** Index *)

Record pindex (A : Type) := mkpindex { ix_dtype : dtype; ix_values : list A }.
Arguments mkpindex {A} _ _.
Arguments ix_dtype {A} _.
Arguments ix_values {A} _.

(** [pd.Index(values)]: an empty index has dtype [object]. *)
Definition index_of {A : Type} `{InferDtype A} (xs : list A) : pindex A :=
  match xs with
  | [] => mkpindex DtObject []
  | _ => mkpindex (infer_dtype (A:=A)) xs
  end.

(** The index [Index.map] builds from the mapped values: an empty
    result keeps the dtype [src] of the source index, a non-empty one has
    the dtype inferred from its values ([Index._with_infer]). *)
Definition index_of_mapped {B : Type} `{InferDtype B} (src : dtype) (vs : list B) : pindex B :=
  match vs with
  | [] => mkpindex src []
  | _ => mkpindex (infer_dtype (A:=B)) vs
  end.

(** [ix.map(f)]: [f] is applied to every label in order; the first
    exception it raises propagates out of [map]. *)
Definition index_map {A B : Type} `{InferDtype B} (f : A -> result B) (ix : pindex A)
    : result (pindex B) :=
  vs <- res_mapM f ix.(ix_values) ;;
  Ok (index_of_mapped ix.(ix_dtype) vs).

(** [ix.dayofyear]: defined on a [DatetimeIndex] only. *)
Definition index_dayofyear (ix : pindex datetime) : result (list Z) :=
  match ix.(ix_dtype) with
  | DtDatetime64 => Ok (map (fun dt => dayofyear dt.(dt_date)) ix.(ix_values))
  | DtObject => Raise (AttributeError "'Index' object has no attribute 'dayofyear'")
  end.

(** [arr[i]] on a one-dimensional NumPy array. *)
Definition np_getitem {A : Type} (xs : list A) (i : Z) : result A :=
  let n := Z.of_nat (length xs) in
  let j := if i <? 0 then i + n else i in
  match (if (0 <=? j) && (j <? n) then xs !! Z.to_nat j else None) with
  | Some x => Ok x
  | None => Raise (IndexError ("index " +:+ pretty i +:+
                               " is out of bounds for axis 0 with size " +:+ pretty n))
  end.

(** [s.index = ix]: the labels are replaced when the lengths agree. *)
Definition series_set_index {I J : Type} (s : series I) (ix : pindex J) : result (series J) :=
  if decide (length ix.(ix_values) = length s) then Ok (zip ix.(ix_values) (series_values s))
  else Raise (ValueError ("Length mismatch: Expected axis has " +:+ pretty (length s) +:+
                          " elements, new values have " +:+ pretty (length ix.(ix_values)) +:+
                          " elements")).

(** ** Lemmas *)

Lemma index_of_mapped_values {B : Type} `{InferDtype B} (src : dtype) (vs : list B) :
  (index_of_mapped src vs).(ix_values) = vs.
Proof. by destruct vs. Qed.

(** When [f] raises on no label, [ix.map(f)] is the index of the values
    of the total function [g] that [f] agrees with. *)
Lemma index_map_Ok {A B : Type} `{InferDtype B} (f : A -> result B) (g : A -> B) (ix : pindex A) :
  Forall (fun x => f x = Ok (g x)) ix.(ix_values) ->
  index_map f ix = Ok (index_of_mapped ix.(ix_dtype) (map g ix.(ix_values))).
Proof. intros Hf. unfold index_map. by rewrite (res_mapM_all_Ok f g). Qed.

Lemma np_getitem_0 {A : Type} (x : A) (xs : list A) : np_getitem (x :: xs) 0 = Ok x.
Proof. reflexivity. Qed.

Lemma index_of_values {A : Type} `{InferDtype A} (xs : list A) : (index_of xs).(ix_values) = xs.
Proof. by destruct xs. Qed.

(** Setting the labels a mapping of the old labels gives re-labels the
    series in place. *)
Lemma series_set_index_mapped {I J : Type} `{InferDtype J} (src : dtype) (g : I -> J) (s : series I) :
  series_set_index s (index_of_mapped src (map g (series_index s))) = Ok (series_map_index g s).
Proof.
  unfold series_set_index. rewrite index_of_mapped_values.
  rewrite decide_True by (unfold series_index; by rewrite !length_map).
  f_equal. unfold series_index, series_values, series_map_index.
  induction s as [|[i v] s IH]; simpl; f_equal; auto.
Qed.
