(* ===== verification/Dynamization.v ===== *)
(** * Dynamization: [dynamize_day] of src/src/load_profiles.py (lines 13-48)

    [dynamize_day(ser, dayofyear)] multiplies a Series by
    [A4*d^4 + A3*d^3 + A2*d^2 + A1*d + A0]. The day [d] comes from
    [df.index.dayofyear[0]] (line 97), a NumPy integer scalar, and
    [np.power(d, k)] keeps that integer type: the powers are computed in
    [w]-bit two's complement and wrap on overflow. The width is a
    parameter [w] of class [IntWidth]: pandas >= 2.0 returns [dayofyear]
    as [int32] and NumPy >= 2.0 keeps [int32] for [np.power(int32, 4)], so
    [w = 32]; with NumPy 1.x the Python exponent promotes to [int64], so
    [w = 64]. [dynamization_value] computes with the decimal values of
    the literals, as [Q]; [dynamization_value_float] is the same
    expression in binary64, as Python evaluates it: each power converted
    to a float, each product and each sum rounded, left to right. The two
    differ by less than [10^-14] on every day of a year. *)

From S2P Require Import Prelude Calendar ProfileFrame.
From Stdlib Require Import Floats Qabs.

(** ** Machine integers *)

Class IntWidth (w : Z) : Prop := width_cases : w = 32%Z \/ w = 64%Z.

#[export] Instance IntWidth_32 : IntWidth 32.
Proof. by left. Qed.

#[export] Instance IntWidth_64 : IntWidth 64.
Proof. by right. Qed.

(** Two's complement wrap-around to [w] bits. *)
Definition wrap_signed (w z : Z) : Z :=
  ((z + 2 ^ (w - 1)) mod 2 ^ w - 2 ^ (w - 1))%Z.

(** [np.power(x, k)] on a [w]-bit integer scalar. NumPy multiplies in the
    integer type, wrapping each product; the result is the residue of
    [x ^ k] in [w]-bit two's complement. *)
Definition np_power (w x : Z) (k : Z) : Z := wrap_signed w (x ^ k).

(** ** The polynomial *)

Definition A4 : Q := -392 # 1000000000000.
Definition A3 : Q := 32 # 100000000.
Definition A2 : Q := -702 # 10000000.
Definition A1 : Q := 21 # 10000.
Definition A0 : Q := 124 # 100.

Section Dynamize.
Context (w : Z) `{!IntWidth w}.

(** [dynamization_value] as the code computes it (lines 41-47). *)
Definition dynamization_value (dayofyear : Z) : Q :=
  inject_Z (np_power w dayofyear 4) * A4 + inject_Z (np_power w dayofyear 3) * A3 +
  inject_Z (np_power w dayofyear 2) * A2 + inject_Z dayofyear * A1 + A0.

Definition dynamize_day {I : Type} (ser : series I) (dayofyear : Z) : series I :=
  series_mul ser (dynamization_value dayofyear).

End Dynamize.

(** ** The factor in binary64 *)

(** A NumPy integer scalar converted to [float64]: exact below [2^53]. *)
Definition float_of_int (z : Z) : float :=
  if (z <? 0)%Z then PrimFloat.opp (PrimFloat.of_uint63 (Uint63.of_Z (- z)))
  else PrimFloat.of_uint63 (Uint63.of_Z z).

(** The literals of lines 14-18, rounded to the nearest binary64 as
    Python reads them. *)
Definition A4f : float := (-3.92e-10)%float.
Definition A3f : float := 0.00000032%float.
Definition A2f : float := (-0.0000702)%float.
Definition A1f : float := 0.0021%float.
Definition A0f : float := 1.24%float.

(** Lines 41-47 in binary64. *)
Definition dynamization_value_float (w dayofyear : Z) : float :=
  (float_of_int (np_power w dayofyear 4) * A4f + float_of_int (np_power w dayofyear 3) * A3f +
   float_of_int (np_power w dayofyear 2) * A2f + float_of_int dayofyear * A1f + A0f)%float.

(** The rational a finite float denotes. *)
Definition float_to_Q (f : float) : Q :=
  match Prim2SF f with
  | S754_finite s m e => ((if s then -1 else 1) * inject_Z (Zpos m) * Qpower (2 # 1) e)%Q
  | _ => 0%Q
  end.

(** The polynomial over exact integers, the function the code means. *)
Definition dynamization_poly (d : Z) : Q :=
  inject_Z (d ^ 4) * A4 + inject_Z (d ^ 3) * A3 + inject_Z (d ^ 2) * A2 + inject_Z d * A1 + A0.

(** ** Wrap-around *)

Local Open Scope Z_scope.

Lemma pow2_pred (w : Z) : 0 < w -> 2 ^ w = 2 * 2 ^ (w - 1).
Proof. intros Hw. rewrite <- Z.pow_succ_r by lia. f_equal. lia. Qed.

Lemma wrap_signed_small (w z : Z) :
  0 < w -> - 2 ^ (w - 1) <= z < 2 ^ (w - 1) -> wrap_signed w z = z.
Proof.
  intros Hw Hz. unfold wrap_signed. pose proof (pow2_pred w Hw).
  rewrite Z.mod_small; lia.
Qed.

Lemma wrap_signed_range (w z : Z) :
  0 < w -> - 2 ^ (w - 1) <= wrap_signed w z < 2 ^ (w - 1).
Proof.
  intros Hw. unfold wrap_signed. pose proof (pow2_pred w Hw).
  pose proof (Z.pow_pos_nonneg 2 (w - 1) ltac:(lia) ltac:(lia)).
  pose proof (Z.mod_pos_bound (z + 2 ^ (w - 1)) (2 ^ w) ltac:(lia)). lia.
Qed.

Lemma IntWidth_pos (w : Z) `{!IntWidth w} : 0 < w.
Proof. destruct width_cases; lia. Qed.

(** [np.power] of a non-negative base is exact precisely when the true
    power fits below [2^(w-1)]. *)
Lemma np_power_exact_iff (w x k : Z) `{!IntWidth w} :
  0 <= x -> 0 <= k -> np_power w x k = x ^ k <-> x ^ k < 2 ^ (w - 1).
Proof.
  intros Hx Hk. pose proof (IntWidth_pos w). unfold np_power. split.
  - intros <-. apply wrap_signed_range. lia.
  - intros Hlt. apply wrap_signed_small; [lia|].
    pose proof (Z.pow_nonneg x k Hx). pose proof (Z.pow_pos_nonneg 2 (w - 1) ltac:(lia) ltac:(lia)).
    lia.
Qed.

(** Every power the code takes is exact when the fourth power fits. *)
Lemma dynamization_value_exact (w d : Z) `{!IntWidth w} :
  1 <= d -> d ^ 4 < 2 ^ (w - 1) -> dynamization_value w d = dynamization_poly d.
Proof.
  intros Hd H4.
  assert (d ^ 2 <= d ^ 4) by (apply Z.pow_le_mono_r; lia).
  assert (d ^ 3 <= d ^ 4) by (apply Z.pow_le_mono_r; lia).
  unfold dynamization_value, dynamization_poly.
  rewrite (proj2 (np_power_exact_iff w d 4 ltac:(lia) ltac:(lia)) ltac:(lia)),
    (proj2 (np_power_exact_iff w d 3 ltac:(lia) ltac:(lia)) ltac:(lia)),
    (proj2 (np_power_exact_iff w d 2 ltac:(lia) ltac:(lia)) ltac:(lia)).
  done.
Qed.

Lemma pow4_mono (a b : Z) : 0 <= a <= b -> a ^ 4 <= b ^ 4.
Proof. intros. apply Z.pow_le_mono_l. lia. Qed.

(** ** Properties *)

(** C4: on [int32] the fourth power of the day of year is exact exactly
    up to day 215: [216^4 > 2^31 - 1], so from day 216 on [np.power]
    wraps around. *)
Theorem np_power_int32_exact_iff (d : Z) :
  1 <= d <= 366 -> (np_power 32 d 4 = d ^ 4 <-> d <= 215).
Proof.
  intros Hd. rewrite (np_power_exact_iff 32 d 4) by lia. split; intros H.
  - destruct (Z.le_gt_cases d 215) as [|Hgt]; [done|].
    pose proof (pow4_mono 216 d ltac:(lia)). simpl in *. lia.
  - pose proof (pow4_mono d 215 ltac:(lia)). simpl in *. lia.
Qed.

(** C22: with 64-bit powers the code computes the polynomial exactly on
    every day of a year, and the factor lies between 0.78 (late July)
    and 1.26 (day 366); on days 1 and 366 it lies in [1.0, 1.3]. *)
Theorem dynamization_value_int64_bounds (d : Z) :
  1 <= d <= 366 ->
  dynamization_value 64 d = dynamization_poly d /\
  (78 # 100 <= dynamization_value 64 d <= 126 # 100)%Q /\
  (d = 1 \/ d = 366 -> (1 <= dynamization_value 64 d <= 13 # 10)%Q).
Proof.
  intros Hd.
  assert (Hex : dynamization_value 64 d = dynamization_poly d).
  { apply dynamization_value_exact; [apply _ | lia |].
    pose proof (pow4_mono d 366 ltac:(lia)). simpl in *. lia. }
  rewrite Hex. split; [done|].
  pose proof (forallb_Z_range
    (fun d => Qle_bool (78 # 100) (dynamization_poly d) && Qle_bool (dynamization_poly d) (126 # 100))
    1 366 ltac:(vm_compute; reflexivity) d ltac:(lia)) as Hb.
  apply andb_true_iff in Hb as [Hlo Hhi]. apply Qle_bool_iff in Hlo, Hhi.
  split; [done|]. intros [-> | ->]; split; vm_compute; discriminate.
Qed.

(** C21: with [int32] powers (pandas >= 2 with NumPy >= 2) every day from
    216 to 366 gets a factor of at least 2.4, against at most 1.26 for
    the polynomial; day 366 gets more than 7.9. *)
Theorem dynamization_value_int32_overflow (d : Z) :
  216 <= d <= 366 ->
  (12 # 5 <= dynamization_value 32 d)%Q /\ (dynamization_poly d <= 126 # 100)%Q /\
  (79 # 10 <= dynamization_value 32 366)%Q.
Proof.
  intros Hd. split; [|split].
  - pose proof (forallb_Z_range (fun d => Qle_bool (12 # 5) (dynamization_value 32 d))
      216 151 ltac:(vm_compute; reflexivity) d ltac:(lia)) as Hb.
    by apply Qle_bool_iff in Hb.
  - pose proof (forallb_Z_range (fun d => Qle_bool (dynamization_poly d) (126 # 100))
      216 151 ltac:(vm_compute; reflexivity) d ltac:(lia)) as Hb.
    by apply Qle_bool_iff in Hb.
  - vm_compute. discriminate.
Qed.

(** [dynamize_day] keeps the index and multiplies every value of the
    day's curve by the same factor. *)
Theorem dynamize_day_spec (w : Z) {I : Type} (ser : series I) (d : Z) :
  series_index (dynamize_day w ser d) = series_index ser /\
  series_values (dynamize_day w ser d) =
    map (fun v => (v * dynamization_value w d)%Q) (series_values ser).
Proof. unfold dynamize_day. split; [apply series_index_mul | apply series_values_mul]. Qed.

(** C14: rounding is negligible: on every day of a year and for both
    integer widths, the binary64 factor the code computes is within
    [10^-14] of the exact value of the same expression. *)
Theorem dynamization_value_float_error (w d : Z) `{!IntWidth w} :
  1 <= d <= 366 ->
  (Qabs (float_to_Q (dynamization_value_float w d) - dynamization_value w d) <= 1 # 10 ^ 14)%Q.
Proof.
  intros Hd. apply Qle_bool_iff. revert d Hd.
  destruct width_cases as [-> | ->]; intros d Hd;
    [apply (forallb_Z_range (fun d => Qle_bool (Qabs (float_to_Q (dynamization_value_float 32 d) -
                                                       dynamization_value 32 d)) (1 # 10 ^ 14)) 1 366)
    |apply (forallb_Z_range (fun d => Qle_bool (Qabs (float_to_Q (dynamization_value_float 64 d) -
                                                       dynamization_value 64 d)) (1 # 10 ^ 14)) 1 366)];
    solve [vm_compute; reflexivity | lia].
Qed.

(** C16: the factor across the turn of the year (spec.md, 8: no
    discontinuity from day 365 to day 1). With 64-bit powers it falls by
    less than 0.02 from December 31 to January 1, against steps of at
    most 0.005 between consecutive days of a year; with [int32] powers it
    falls by more than 6. *)
Theorem dynamization_year_boundary :
  (0 < dynamization_value 64 365 - dynamization_value 64 1 /\
   dynamization_value 64 365 - dynamization_value 64 1 <= 2 # 100)%Q /\
  (forall d : Z, 1 <= d <= 365 ->
     (Qabs (dynamization_value 64 (d + 1) - dynamization_value 64 d) <= 5 # 1000)%Q) /\
  (6 <= dynamization_value 32 365 - dynamization_value 32 1)%Q.
Proof.
  split; [split; vm_compute; [reflexivity | discriminate]|split].
  - intros d Hd. apply Qle_bool_iff.
    exact (forallb_Z_range (fun d => Qle_bool (Qabs (dynamization_value 64 (d + 1) -
      dynamization_value 64 d)) (5 # 1000)) 1 365 ltac:(vm_compute; reflexivity) d ltac:(lia)).
  - vm_compute. discriminate.
Qed.

(** ** Witnesses *)

Lemma np_power_int32_exact_iff_witness : np_power 32 216 4 = 216 ^ 4 <-> 216 <= 215.
Proof. apply np_power_int32_exact_iff. lia. Defined.

Lemma dynamization_value_int64_bounds_witness :
  (78 # 100 <= dynamization_value 64 202 <= 126 # 100)%Q.
Proof. exact (proj1 (proj2 (dynamization_value_int64_bounds 202 ltac:(lia)))). Defined.

Lemma dynamization_value_int32_overflow_witness : (12 # 5 <= dynamization_value 32 216)%Q.
Proof. exact (proj1 (dynamization_value_int32_overflow 216 ltac:(lia))). Defined.

Lemma dynamization_value_float_error_witness :
  (Qabs (float_to_Q (dynamization_value_float 32 366) - dynamization_value 32 366) <= 1 # 10 ^ 14)%Q.
Proof. exact (dynamization_value_float_error 32 366 ltac:(lia)). Defined.

Lemma dynamization_year_boundary_witness :
  (Qabs (dynamization_value 64 201 - dynamization_value 64 200) <= 5 # 1000)%Q.
Proof. exact (proj1 (proj2 dynamization_year_boundary) 200 ltac:(lia)). Defined.
