(* ===== verification/DayClassifier.v ===== *)
(** * DayClassifier: the season and day-type rules of [load_profile_for_day]
    (src/src/load_profiles.py, lines 65-83)

    The season is chosen by comparing the date with four dates of its own
    year; the day type by holiday membership, by [day.isoweekday == 7]
    and [== 6], and by membership in [[Dec 24, Dec 31]]. The code
    compares the bound method [day.isoweekday] itself (it is not called)
    with an int: in Python such a comparison is always [False], which
    [py_eq] models on a small universe of Python values. The holiday
    calendar [AT_HOLIDAYS] is the section variable [in_holidays].
    [spec_daytype] is the rule the spec states (4.1), with the weekday. *)

From S2P Require Import Prelude Calendar.
Local Open Scope Z_scope.

Inductive season : Type := Winter | Sommer | Uebergangszeit.
Inductive daytype : Type := Samstag | Sonntag | Werktag.

#[export] Instance season_eq_dec : EqDecision season.
Proof. solve_decision. Defined.
#[export] Instance daytype_eq_dec : EqDecision daytype.
Proof. solve_decision. Defined.

(** The column labels of the VDEW sheet. *)
Definition season_label (s : season) : string :=
  match s with
  | Winter => "Winter"
  | Sommer => "Sommer"
  | Uebergangszeit => "Übergangszeit"
  end.

Definition daytype_label (t : daytype) : string :=
  match t with
  | Samstag => "Samstag"
  | Sonntag => "Sonntag"
  | Werktag => "Werktag"
  end.

(** The Python values the day-type test compares: ints and the bound
    method object [day.isoweekday]. *)
Inductive pyvalue : Type :=
| PyInt (z : Z)
| PyBoundMethod (self : date) (name : string).

(** [a == b]: ints by value, bound methods by receiver and function; an
    int and a method are never equal (both [__eq__] return
    [NotImplemented] and the identity fallback fails). *)
Definition py_eq (a b : pyvalue) : bool :=
  match a, b with
  | PyInt x, PyInt y => Z.eqb x y
  | PyBoundMethod s1 n1, PyBoundMethod s2 n2 => bool_decide (s1 = s2 /\ n1 = n2)
  | _, _ => false
  end.

(** [day.isoweekday] without the call. *)
Definition isoweekday_attr (day : date) : pyvalue := PyBoundMethod day "isoweekday".

Section Classify.
Context (in_holidays : date -> bool).

(** Lines 65-74. *)
Definition season_of_day (day : date) : season :=
  if date_leb day (mkdate day.(year) 3 20) || date_leb (mkdate day.(year) 11 1) day then Winter
  else if date_leb (mkdate day.(year) 5 15) day && date_leb day (mkdate day.(year) 9 14) then Sommer
  else Uebergangszeit.

(** [day in [date(day.year, 12, 24), date(day.year, 12, 31)]]. *)
Definition in_dec24_31 (day : date) : bool :=
  existsb (fun d => bool_decide (day = d)) [mkdate day.(year) 12 24; mkdate day.(year) 12 31].

(** Lines 76-83. *)
Definition weekday_of_day (day : date) : daytype :=
  if in_holidays day || py_eq (isoweekday_attr day) (PyInt 7) then Sonntag
  else if py_eq (isoweekday_attr day) (PyInt 6) || in_dec24_31 day then Samstag
  else Werktag.

(** The rule of the spec (4.1): the same tests with the weekday called. *)
Definition spec_daytype (day : date) : daytype :=
  if in_holidays day || (isoweekday day =? 7) then Sonntag
  else if (isoweekday day =? 6) || in_dec24_31 day then Samstag
  else Werktag.

End Classify.

(** How many entries of [l] are the day type [t]. *)
Definition daytype_count (t : daytype) (l : list daytype) : nat :=
  length (filter (fun x => bool_decide (x = t)) l).

(** Month and day as one number, [100 * month + day]: the order of
    dates within one year. *)
Definition month_day (d : date) : Z := 100 * d.(month) + d.(day).

(** ** Lemmas *)

(** Within one year, CPython's date order is the order of [month_day]. *)
Lemma date_leb_same_year (a b : date) :
  a.(year) = b.(year) -> 0 <= a.(day) < 100 -> 0 <= b.(day) < 100 ->
  date_leb a b = (month_day a <=? month_day b).
Proof.
  intros Hy Ha Hb. unfold date_leb, month_day. rewrite Hy, Z.compare_refl.
  destruct (Z.compare_spec a.(month) b.(month));
    destruct (Z.leb_spec (100 * a.(month) + a.(day)) (100 * b.(month) + b.(day)));
    try destruct (Z.leb_spec a.(day) b.(day)); try reflexivity; lia.
Qed.

Lemma season_of_day_month_day (d : date) :
  valid_date d = true ->
  season_of_day d =
    if (month_day d <=? 320) || (1101 <=? month_day d) then Winter
    else if (515 <=? month_day d) && (month_day d <=? 914) then Sommer
    else Uebergangszeit.
Proof.
  intros (_ & Hm & Hd)%valid_date_spec.
  pose proof (days_in_month_bounds d.(year) d.(month) Hm).
  unfold season_of_day. rewrite !date_leb_same_year by (simpl; lia). done.
Qed.

Lemma isoweekday_range (d : date) : 1 <= isoweekday d <= 7.
Proof.
  unfold isoweekday. pose proof (Z.mod_pos_bound (toordinal d) 7 ltac:(lia)).
  destruct (Z.eqb_spec (toordinal d mod 7) 0); lia.
Qed.

(** ** Properties *)

(** C6: the seasons partition a year into closed intervals of month and
    day: Winter up to March 20 and from November 1, Summer from May 15 to
    September 14, Transition from March 21 to May 14 and from September
    15 to October 31. *)
Theorem season_of_day_intervals (d : date) :
  valid_date d = true ->
  (season_of_day d = Winter <-> month_day d <= 320 \/ 1101 <= month_day d) /\
  (season_of_day d = Sommer <-> 515 <= month_day d <= 914) /\
  (season_of_day d = Uebergangszeit <->
     321 <= month_day d <= 514 \/ 915 <= month_day d <= 1100).
Proof.
  intros Hv. rewrite season_of_day_month_day by done.
  destruct (Z.leb_spec (month_day d) 320), (Z.leb_spec 1101 (month_day d)),
           (Z.leb_spec 515 (month_day d)), (Z.leb_spec (month_day d) 914);
    simpl; repeat split; intros; try done; try lia.
Qed.

(** The boundary dates of the seasons, in every year. *)
Lemma season_boundaries (y : Z) :
  season_of_day (mkdate y 3 20) = Winter /\ season_of_day (mkdate y 3 21) = Uebergangszeit /\
  season_of_day (mkdate y 5 14) = Uebergangszeit /\ season_of_day (mkdate y 5 15) = Sommer /\
  season_of_day (mkdate y 9 14) = Sommer /\ season_of_day (mkdate y 9 15) = Uebergangszeit /\
  season_of_day (mkdate y 10 31) = Uebergangszeit /\ season_of_day (mkdate y 11 1) = Winter.
Proof. unfold season_of_day, date_leb. simpl. rewrite !Z.compare_refl. repeat split. Qed.

(** C3: the day type as the code computes it never looks at the weekday:
    Sunday type iff a holiday, else Saturday type iff December 24 or 31,
    else workday. *)
Theorem weekday_of_day_ignores_weekday (in_holidays : date -> bool) (d : date) :
  weekday_of_day in_holidays d =
    if in_holidays d then Sonntag else if in_dec24_31 d then Samstag else Werktag.
Proof. unfold weekday_of_day. simpl. by rewrite !orb_false_r. Qed.

(** C20: the code's day type agrees with the spec's exactly on holidays,
    on Monday to Friday, and on a Saturday that is December 24 or 31. *)
Theorem weekday_of_day_agrees_iff (in_holidays : date -> bool) (d : date) :
  weekday_of_day in_holidays d = spec_daytype in_holidays d <->
  in_holidays d = true \/ isoweekday d <= 5 \/ (isoweekday d = 6 /\ in_dec24_31 d = true).
Proof.
  pose proof (isoweekday_range d).
  unfold weekday_of_day, spec_daytype. simpl.
  destruct (in_holidays d), (in_dec24_31 d); simpl;
    destruct (Z.eqb_spec (isoweekday d) 7), (Z.eqb_spec (isoweekday d) 6); simpl;
    split; intros; try done; try lia; destruct_or?; destruct_and?; try done; lia.
Qed.

(** A Sunday that is no holiday, 2015-01-04, is a workday for the code
    and a Sunday for the spec. *)
Theorem non_holiday_sunday_is_workday (in_holidays : date -> bool) :
  in_holidays (mkdate 2015 1 4) = false ->
  isoweekday (mkdate 2015 1 4) = 7 /\
  weekday_of_day in_holidays (mkdate 2015 1 4) = Werktag /\
  spec_daytype in_holidays (mkdate 2015 1 4) = Sonntag.
Proof.
  intros H. unfold weekday_of_day, spec_daytype. rewrite H. vm_compute. repeat split.
Qed.

(** December 24 on a Sunday (2017-12-24, no public holiday) is
    Saturday type for the code, while the spec lets the Sunday rule win. *)
Lemma dec24_on_sunday_is_saturday (in_holidays : date -> bool) :
  in_holidays (mkdate 2017 12 24) = false ->
  isoweekday (mkdate 2017 12 24) = 7 /\
  weekday_of_day in_holidays (mkdate 2017 12 24) = Samstag /\
  spec_daytype in_holidays (mkdate 2017 12 24) = Sonntag.
Proof.
  intros H. unfold weekday_of_day, spec_daytype. rewrite H. vm_compute. repeat split.
Qed.

(** ** Witnesses *)

Lemma season_of_day_intervals_witness :
  season_of_day (mkdate 2015 7 1) = Sommer <-> 515 <= month_day (mkdate 2015 7 1) <= 914.
Proof. apply (season_of_day_intervals (mkdate 2015 7 1)). reflexivity. Defined.

