(* ===== verification/LoadProfile.v ===== *)
(** * LoadProfile: [load_profile_for_day] and [get_load_profile]
    (src/src/load_profiles.py, lines 51-125)

    [load_profile_for_day] classifies the date ([DayClassifier]), selects
    the column [profile_df[season][weekday]] ([ProfileFrame]), re-stamps
    its index of times of day onto the date with [combine_day_time] (the
    row 24:00, stored as 00:00, moves to the next day; on 9999-12-31
    [dt + timedelta(days=1)] raises [OverflowError], which [Index.map]
    propagates) and, when asked, scales it by the dynamisation factor of
    the day of year of its first timestamp ([Dynamization]). Mapping an empty index keeps its object
    dtype (pandas' [Index.map]), so for an empty column
    [df.index.dayofyear] raises [AttributeError]; a non-empty index of
    datetimes becomes a [DatetimeIndex]. [get_load_profile] reads
    the sheet, sets [dynamize] to [type == "H0"], runs the loop over
    [pd.date_range("2015-01-01", date(2015, 12, 31))] and concatenates;
    its arguments [from_] and [to] are not used.

    The section takes the NumPy integer width [w] of [Dynamization] and
    the holiday calendar. A sheet in the VDEW layout ([vdew_frame]) has
    the 96 quarter-hour times 00:15, ..., 23:45, 00:00 as index and a
    96-value column for each of the nine (season, day type) pairs. *)

From S2P Require Import Prelude Calendar DateRange ProfileFrame PandasIndex Dynamization DayClassifier.

Section LoadProfile.
Context (w : Z) `{!IntWidth w} (in_holidays : date -> bool).

(** The closure [combine_day_time] of lines 87-92. *)
Definition combine_day_time (day : date) (t : time) : result datetime :=
  let dt := combine day t in
  if time_eqb t midnight then datetime_add_day dt else Ok dt.

(** Lines 51-99. *)
Definition load_profile_for_day (day : date) (profile_df : frame) (dynamize : bool)
    : result (series datetime) :=
  let season := season_of_day day in
  let weekday := weekday_of_day in_holidays day in
  df <- res_bind (frame_getitem profile_df (season_label season))
          (fun sub => subframe_getitem sub (daytype_label weekday)) ;;
  new_index <- index_map (combine_day_time day) (index_of (series_index df)) ;;
  df <- series_set_index df new_index ;;
  if dynamize then
    doys <- index_dayofyear new_index ;;
    d0 <- np_getitem doys 0 ;;
    Ok (dynamize_day w df d0)
  else Ok df.

(** Lines 102-125; [from_] and [to] are accepted and ignored. *)
Definition get_load_profile (fp : workbook) (from_ to : date) (type : string)
    : result (series datetime) :=
  profile_df <- get_profile_from_file fp type ;;
  let dynamize := bool_decide (type = "H0") in
  daily_profiles <- for_append (fun day => load_profile_for_day (timestamp_date day) profile_df dynamize)
                      (date_range (mkdate 2015 1 1) (mkdate 2015 12 31)) [] ;;
  pd_concat daily_profiles.

End LoadProfile.

(** ** The VDEW sheet layout *)

(** The [i]-th quarter hour of a day, [1 <= i <= 96]; the 96th is 24:00,
    which the sheet stores as 00:00. *)
Definition quarter_hour (i : Z) : time :=
  mktime ((15 * i / 60) mod 24) ((15 * i) mod 60).

Definition vdew_index : list time := map (fun i => quarter_hour (Z.of_nat i)) (seq 1 96).

Definition all_seasons : list season := [Winter; Sommer; Uebergangszeit].
Definition all_daytypes : list daytype := [Samstag; Sonntag; Werktag].

(** The sheet has the VDEW index and a 96-value column for every pair. *)
Definition vdew_frame (df : frame) : bool :=
  bool_decide (df.(fr_index) = vdew_index) &&
  forallb (fun s => forallb (fun t =>
    match frame_column df.(fr_columns) (season_label s) (daytype_label t) with
    | Some vs => Nat.eqb (length vs) 96
    | None => false
    end) all_daytypes) all_seasons.

(** The column a date reads in a VDEW sheet. *)
Definition day_curve (in_holidays : date -> bool) (df : frame) (day : date) : list Q :=
  default [] (frame_column df.(fr_columns) (season_label (season_of_day day))
                (daytype_label (weekday_of_day in_holidays day))).

(** ** Timestamps of one day *)

Local Open Scope Z_scope.

(** The timestamp [combine_day_time] gives a time of day on a date
    before 9999-12-31, where it cannot raise. *)
Definition restamp (day : date) (t : time) : datetime :=
  if time_eqb t midnight then mkdatetime (next_day day) t else combine day t.

Lemma combine_day_time_Ok (day : date) (t : time) :
  valid_date day = true -> toordinal day < MAXORDINAL ->
  combine_day_time day t = Ok (restamp day t).
Proof.
  intros Hv Hlt. unfold combine_day_time, restamp. destruct (time_eqb t midnight); [|done].
  rewrite datetime_add_day_next_day by done. cbn [dt_date dt_time combine].
  by rewrite (proj2 (Z.ltb_lt _ _) Hlt).
Qed.

Lemma index_map_combine_day_time (day : date) (ix : pindex time) :
  valid_date day = true -> toordinal day < MAXORDINAL ->
  index_map (combine_day_time day) ix = Ok (index_of_mapped ix.(ix_dtype) (map (restamp day) ix.(ix_values))).
Proof.
  intros Hv Hlt. apply index_map_Ok, Forall_forall. intros t _. by apply combine_day_time_Ok.
Qed.

(** Re-stamping the [i]-th quarter hour of [day] gives minute
    [15 * i] of the day; the 96th lands on 00:00 of the next day. *)
Lemma restamp_minutes (day : date) (i : Z) :
  valid_date day = true -> 1 <= i <= 96 ->
  dt_minutes (restamp day (quarter_hour i)) = toordinal day * 1440 + 15 * i.
Proof.
  intros Hv Hi. unfold restamp, quarter_hour, time_eqb, midnight, combine.
  case_bool_decide as Hm.
  - injection Hm as Hh Hmin. unfold dt_minutes. simpl.
    rewrite toordinal_next_day by done. rewrite Hh, Hmin.
    assert (i = 96) by (clear Hv; Z.div_mod_to_equations; lia). lia.
  - unfold dt_minutes. simpl.
    destruct (Z.eq_dec i 96) as [->|Hne]; [by contradict Hm|].
    assert ((15 * i / 60) mod 24 * 60 + 15 * i mod 60 = 15 * i)
      by (clear Hv Hm; Z.div_mod_to_equations; lia). lia.
Qed.

(** Only the 96th quarter hour moves to the next day. *)
Lemma restamp_date (day : date) (i : Z) :
  1 <= i <= 96 ->
  (restamp day (quarter_hour i)).(dt_date) = if i =? 96 then next_day day else day.
Proof.
  intros Hi. unfold restamp, quarter_hour, time_eqb, midnight, combine.
  case_bool_decide as Hm; destruct (Z.eqb_spec i 96) as [->|Hne]; try done.
  injection Hm as Hh Hmin. exfalso. Z.div_mod_to_equations. lia.
Qed.

Lemma vdew_frame_column (df : frame) (s : season) (t : daytype) :
  vdew_frame df = true ->
  exists vs, frame_column df.(fr_columns) (season_label s) (daytype_label t) = Some vs /\
             length vs = 96%nat.
Proof.
  unfold vdew_frame. intros [_ Hall]%andb_true_iff.
  rewrite forallb_forall in Hall. specialize (Hall s ltac:(destruct s; simpl; tauto)).
  rewrite forallb_forall in Hall. specialize (Hall t ltac:(destruct t; simpl; tauto)).
  destruct (frame_column _ _ _) as [vs|]; [|done].
  apply Nat.eqb_eq in Hall. by exists vs.
Qed.

Lemma vdew_frame_index (df : frame) : vdew_frame df = true -> df.(fr_index) = vdew_index.
Proof. unfold vdew_frame. intros [H _]%andb_true_iff. by apply bool_decide_eq_true in H. Qed.

Lemma vdew_index_cons : vdew_index = quarter_hour 1 :: map (fun i => quarter_hour (Z.of_nat i)) (seq 2 95).
Proof. reflexivity. Qed.

Lemma length_vdew_index : length vdew_index = 96%nat.
Proof. reflexivity. Qed.

(** The series of one day: the re-stamped VDEW index and the day's
    column, scaled when [dynamize] is set. *)
Definition day_series (w : Z) (in_holidays : date -> bool) (df : frame) (dynamize : bool)
    (day : date) : series datetime :=
  zip (map (restamp day) vdew_index)
      (if dynamize then map (fun v => (v * dynamization_value w (dayofyear day))%Q)
                          (day_curve in_holidays df day)
       else day_curve in_holidays df day).

(** The re-stamped VDEW index is a [DatetimeIndex] whose first day of
    year is the date's. *)
Lemma vdew_restamp_dayofyear (day : date) :
  exists rest, index_dayofyear (index_of_mapped (index_of vdew_index).(ix_dtype)
                                  (map (restamp day) vdew_index)) =
               Ok (dayofyear day :: rest).
Proof.
  rewrite vdew_index_cons. unfold index_of_mapped, index_dayofyear.
  cbn [map ix_dtype ix_values infer_dtype infer_datetime].
  rewrite restamp_date by lia. by eexists.
Qed.

Lemma load_profile_for_day_vdew (w : Z) `{!IntWidth w} (in_holidays : date -> bool)
    (day : date) (df : frame) (dynamize : bool) :
  valid_date day = true -> toordinal day < MAXORDINAL -> vdew_frame df = true ->
  load_profile_for_day w in_holidays day df dynamize = Ok (day_series w in_holidays df dynamize day) /\
  length (day_curve in_holidays df day) = 96%nat.
Proof.
  intros Hv Hlt Hdf. unfold load_profile_for_day, day_series, day_curve.
  rewrite frame_getitem2_spec.
  destruct (vdew_frame_column df (season_of_day day) (weekday_of_day in_holidays day) Hdf)
    as (vs & Hvs & Hlen).
  rewrite Hvs, (vdew_frame_index df Hdf). cbn [res_bind default from_option id]. split; [|done].
  rewrite index_map_combine_day_time by done. cbn [res_bind].
  rewrite index_of_values, series_set_index_mapped. cbn [res_bind]. rewrite series_map_index_zip.
  destruct dynamize; [|done].
  rewrite series_index_zip by (by rewrite length_vdew_index).
  destruct (vdew_restamp_dayofyear day) as [rest ->]. cbn [res_bind]. rewrite np_getitem_0.
  cbn [res_bind]. unfold dynamize_day. by rewrite series_mul_zip.
Qed.

Lemma day_series_index (w : Z) (in_holidays : date -> bool) (df : frame) (dynamize : bool)
    (day : date) :
  vdew_frame df = true ->
  series_index (day_series w in_holidays df dynamize day) = map (restamp day) vdew_index.
Proof.
  intros Hdf. pose proof (vdew_frame_column df (season_of_day day)
    (weekday_of_day in_holidays day) Hdf) as (vs & Hvs & Hlen).
  unfold day_series, day_curve. rewrite Hvs. cbn [default from_option id].
  apply series_index_zip. destruct dynamize; rewrite ?length_map, length_vdew_index; lia.
Qed.

Lemma day_minutes (day : date) :
  valid_date day = true ->
  map dt_minutes (map (restamp day) vdew_index) =
  map (fun k => toordinal day * 1440 + 15 * Z.of_nat k) (seq 1 96).
Proof.
  intros Hv. unfold vdew_index. rewrite !map_map. apply map_ext_in.
  intros k Hk%in_seq. apply restamp_minutes; [done | lia].
Qed.

(** [n] consecutive days re-stamped and concatenated lie on one uniform
    quarter-hour grid starting at 00:15 of the first day. *)
Lemma days_minutes (d : date) (n : nat) :
  valid_date d = true -> d.(year) + Z.of_nat n < 9999 ->
  map dt_minutes (concat (map (fun day => map (restamp day) vdew_index) (days_from d n))) =
  map (fun k => toordinal d * 1440 + 15 * Z.of_nat k) (seq 1 (96 * n)).
Proof.
  revert d. induction n as [|n IH]; intros d Hv Hy; [done|].
  pose proof (next_day_year d).
  cbn [days_from map concat]. rewrite map_app, day_minutes by done.
  rewrite IH by (try apply next_day_valid; try done; lia).
  replace (96 * S n)%nat with (96 + 96 * n)%nat by lia.
  rewrite seq_app, map_app. f_equal.
  rewrite (seq_offset 1 96), map_map, toordinal_next_day by done.
  apply map_ext. intros k. lia.
Qed.

(** ** The whole call *)

(** Turn the loop of [get_load_profile] into [mapM] over the dates of 2015. *)
Ltac loop_over_2015 :=
  rewrite for_append_mapM;
  match goal with
  | |- context [res_mapM (fun day => load_profile_for_day ?w ?h (timestamp_date day) ?df ?b) _] =>
      rewrite (res_mapM_map (fun day => load_profile_for_day w h day df b) timestamp_date)
  end;
  rewrite date_range_2015.

Definition days_2015 : list date := days_from (mkdate 2015 1 1) 365.

(** The loop's dates are valid and precede 9999-12-31. *)
Lemma days_2015_safe : Forall (fun d => valid_date d = true /\ toordinal d < MAXORDINAL) days_2015.
Proof. apply (bool_decide_unpack _). vm_compute. exact I. Qed.

Lemma map_days_2015_ne {A : Type} (f : date -> A) : map f days_2015 <> [].
Proof. intros Hnil. apply (f_equal length) in Hnil. by rewrite length_map in Hnil. Qed.

Lemma get_load_profile_vdew (w : Z) `{!IntWidth w} (in_holidays : date -> bool)
    (fp : workbook) (from_ to : date) (type : string) (df : frame) :
  get_profile_from_file fp type = Ok df -> vdew_frame df = true ->
  get_load_profile w in_holidays fp from_ to type =
    Ok (series_concat (map (day_series w in_holidays df (bool_decide (type = "H0"))) days_2015)).
Proof.
  intros Hget Hdf. unfold get_load_profile. rewrite Hget. cbn [res_bind].
  loop_over_2015.
  rewrite (res_mapM_all_Ok _ (day_series w in_holidays df (bool_decide (type = "H0")))).
  - cbn [res_map res_bind app]. apply pd_concat_ne, map_days_2015_ne.
  - eapply Forall_impl; [exact days_2015_safe|]. intros day [Hv Hlt].
    by apply load_profile_for_day_vdew.
Qed.

(** A sheet whose first 96 rows are in the VDEW layout is read as a VDEW
    sheet, whatever rows follow. *)
Lemma vdew_frame_head (df : frame) :
  take 96 df.(fr_index) = vdew_index ->
  (forall s t, exists vs, frame_column df.(fr_columns) (season_label s) (daytype_label t) = Some vs /\
                          (96 <= length vs)%nat) ->
  vdew_frame (frame_head 96 df) = true.
Proof.
  intros Hi Hc. unfold vdew_frame, frame_head. cbn [fr_index fr_columns].
  rewrite bool_decide_true by done. cbn [andb].
  apply forallb_forall. intros s _. apply forallb_forall. intros t _.
  rewrite frame_column_head. destruct (Hc s t) as (vs & -> & Hl). cbn [fmap option_fmap option_map].
  apply Nat.eqb_eq. rewrite length_take. lia.
Qed.

Lemma days_2015_index (w : Z) (in_holidays : date -> bool) (df : frame) (dynamize : bool) :
  vdew_frame df = true ->
  series_index (series_concat (map (day_series w in_holidays df dynamize) days_2015)) =
  concat (map (fun day => map (restamp day) vdew_index) days_2015).
Proof.
  intros Hdf. rewrite series_index_concat, map_map. f_equal.
  apply map_ext. intros day. by apply day_series_index.
Qed.

(** ** Example inputs and witnesses *)

(** A sheet in the VDEW layout whose nine columns all hold [vs]. *)
Definition uniform_sheet (vs : list Q) : frame :=
  mkframe vdew_index
    (flat_map (fun s => map (fun t => ((season_label s, daytype_label t), vs)) all_daytypes)
              all_seasons).

Definition flat_sheet : frame := uniform_sheet (repeat 100%Q 96).

(** The Austrian statutory holidays of 2015, as example input. *)
Definition example_holidays_2015 (d : date) : bool :=
  bool_decide (d ∈ [mkdate 2015 1 1; mkdate 2015 1 6; mkdate 2015 4 6; mkdate 2015 5 1;
                    mkdate 2015 5 14; mkdate 2015 5 25; mkdate 2015 6 4; mkdate 2015 8 15;
                    mkdate 2015 10 26; mkdate 2015 11 1; mkdate 2015 12 8; mkdate 2015 12 25;
                    mkdate 2015 12 26]).

(** ** Properties *)

(** C2: on a sheet in the VDEW layout and a valid date before
    9999-12-31, [load_profile_for_day] returns 96 points at minutes [15, 30, ..., 1440]
    after midnight of the date, with the values of the date's column,
    multiplied by the dynamisation factor of the date's day of year when
    [dynamize] is set. *)
Theorem load_profile_for_day_spec (w : Z) `{!IntWidth w} (in_holidays : date -> bool)
    (day : date) (df : frame) (dynamize : bool) :
  valid_date day = true -> toordinal day < MAXORDINAL -> vdew_frame df = true ->
  exists ser, load_profile_for_day w in_holidays day df dynamize = Ok ser /\
    length ser = 96%nat /\
    map dt_minutes (series_index ser) =
      map (fun k => toordinal day * 1440 + 15 * Z.of_nat k) (seq 1 96) /\
    series_values ser =
      (if dynamize then map (fun v => (v * dynamization_value w (dayofyear day))%Q)
                          (day_curve in_holidays df day)
       else day_curve in_holidays df day).
Proof.
  intros Hv Hlt Hdf. destruct (load_profile_for_day_vdew w in_holidays day df dynamize Hv Hlt Hdf) as [-> Hlen].
  eexists. split; [done|].
  rewrite day_series_index, day_minutes by done.
  unfold day_series. split; [|split; [done|]].
  - rewrite length_zip_eq; [apply length_map|]. destruct dynamize; rewrite ?length_map; by rewrite Hlen.
  - apply series_values_zip. destruct dynamize; rewrite !length_map, length_vdew_index; lia.
Qed.

(** C17: the rollover of 24:00: on a valid date before 9999-12-31, of the
    day's 96 timestamps the first 95 are 00:15, ..., 23:45 of the date
    and the last is 00:00 of the next day. *)
Theorem load_profile_for_day_rollover (w : Z) `{!IntWidth w} (in_holidays : date -> bool)
    (day : date) (df : frame) (dynamize : bool) :
  valid_date day = true -> toordinal day < MAXORDINAL -> vdew_frame df = true ->
  exists ser, load_profile_for_day w in_holidays day df dynamize = Ok ser /\
    series_index ser =
      map (fun i => mkdatetime day (quarter_hour (Z.of_nat i))) (seq 1 95) ++
      [mkdatetime (next_day day) midnight].
Proof.
  intros Hv Hlt Hdf. destruct (load_profile_for_day_vdew w in_holidays day df dynamize Hv Hlt Hdf) as [-> _].
  eexists. split; [done|]. rewrite day_series_index by done. reflexivity.
Qed.

(** C1: on a sheet in the VDEW layout, [get_load_profile] returns 35040
    points whose timestamps are the quarter hours of 2015 in order: the
    [k]-th lies [15 * k] minutes after 2015-01-01 00:00, so they are
    strictly increasing without gaps or duplicates, from 2015-01-01 00:15
    to 2016-01-01 00:00. *)
Theorem get_load_profile_timestamps (w : Z) `{!IntWidth w} (in_holidays : date -> bool)
    (fp : workbook) (from_ to : date) (type : string) (df : frame) :
  get_profile_from_file fp type = Ok df -> vdew_frame df = true ->
  exists ser, get_load_profile w in_holidays fp from_ to type = Ok ser /\
    length ser = 35040%nat /\
    map dt_minutes (series_index ser) =
      map (fun k => toordinal (mkdate 2015 1 1) * 1440 + 15 * Z.of_nat k) (seq 1 35040) /\
    strictly_increasing (map dt_minutes (series_index ser)) /\
    head (series_index ser) = Some (mkdatetime (mkdate 2015 1 1) (mktime 0 15)) /\
    last (series_index ser) = Some (mkdatetime (mkdate 2016 1 1) midnight).
Proof.
  intros Hget Hdf. rewrite (get_load_profile_vdew w in_holidays fp from_ to type df Hget Hdf).
  eexists. split; [done|].
  set (ser := series_concat _).
  assert (Hidx : series_index ser =
            concat (map (fun day => map (restamp day) vdew_index) days_2015))
    by (by apply days_2015_index).
  assert (Hmin : map dt_minutes (series_index ser) =
            map (fun k => toordinal (mkdate 2015 1 1) * 1440 + 15 * Z.of_nat k) (seq 1 35040)).
  { rewrite Hidx. unfold days_2015. by rewrite days_minutes by (reflexivity || simpl; lia). }
  split; [|split; [done | split; [|split]]].
  - rewrite <- (length_map fst ser). fold (series_index ser). rewrite <- (length_map dt_minutes), Hmin.
    by rewrite length_map, length_seq.
  - rewrite Hmin. apply grid_strictly_increasing. lia.
  - rewrite Hidx. vm_compute. reflexivity.
  - rewrite Hidx. vm_compute. reflexivity.
Qed.

(** The values of one day: the column, scaled when [dynamize] is set. *)
Definition day_values (w : Z) (in_holidays : date -> bool) (df : frame) (dynamize : bool)
    (day : date) : list Q :=
  if dynamize then map (fun v => (v * dynamization_value w (dayofyear day))%Q)
                     (day_curve in_holidays df day)
  else day_curve in_holidays df day.

Lemma day_series_values (w : Z) (in_holidays : date -> bool) (df : frame) (dynamize : bool)
    (day : date) :
  vdew_frame df = true ->
  series_values (day_series w in_holidays df dynamize day) = day_values w in_holidays df dynamize day.
Proof.
  intros Hdf. pose proof (vdew_frame_column df (season_of_day day)
    (weekday_of_day in_holidays day) Hdf) as (vs & Hvs & Hlen).
  unfold day_series, day_values, day_curve. rewrite Hvs. cbn [default from_option id].
  apply series_values_zip. destruct dynamize; rewrite ?length_map, length_vdew_index; lia.
Qed.

Lemma length_day_values (w : Z) (in_holidays : date -> bool) (df : frame) (dynamize : bool)
    (day : date) :
  vdew_frame df = true -> length (day_values w in_holidays df dynamize day) = 96%nat.
Proof.
  intros Hdf. pose proof (vdew_frame_column df (season_of_day day)
    (weekday_of_day in_holidays day) Hdf) as (vs & Hvs & Hlen).
  unfold day_values, day_curve. rewrite Hvs. cbn [default from_option id].
  destruct dynamize; rewrite ?length_map; lia.
Qed.

(** C5: on a sheet in the VDEW layout, the values of [get_load_profile]
    are the columns of the 365 days of 2015 in order, each scaled by the
    dynamisation factor of its day of year exactly when [type] is "H0". *)
Theorem get_load_profile_values (w : Z) `{!IntWidth w} (in_holidays : date -> bool)
    (fp : workbook) (from_ to : date) (type : string) (df : frame) :
  get_profile_from_file fp type = Ok df -> vdew_frame df = true ->
  exists ser, get_load_profile w in_holidays fp from_ to type = Ok ser /\
    series_values ser =
      concat (map (day_values w in_holidays df (bool_decide (type = "H0"))) days_2015).
Proof.
  intros Hget Hdf. rewrite (get_load_profile_vdew w in_holidays fp from_ to type df Hget Hdf).
  eexists. split; [done|]. rewrite series_values_concat, map_map. f_equal.
  apply map_ext. intros day. by apply day_series_values.
Qed.

(** C24: [from_] and [to] do not matter: every call returns what the call
    for 2015-01-01 to 2015-12-31 returns, even when [to] precedes [from_]
    (no range error is raised). *)
Theorem get_load_profile_ignores_range (w : Z) (in_holidays : date -> bool)
    (fp : workbook) (from_ to : date) (type : string) :
  get_load_profile w in_holidays fp from_ to type =
  get_load_profile w in_holidays fp (mkdate 2015 1 1) (mkdate 2015 12 31) type.
Proof. reflexivity. Qed.

(** C29: a workbook without the sheet [type] makes the call raise pandas'
    [ValueError]. *)
Theorem get_load_profile_missing_sheet (w : Z) `{!IntWidth w} (in_holidays : date -> bool)
    (fp : workbook) (from_ to : date) (type : string) :
  assoc_lookup type fp = None ->
  get_load_profile w in_holidays fp from_ to type =
    Raise (ValueError ("Worksheet named '" +:+ type +:+ "' not found")).
Proof. intros H. unfold get_load_profile, get_profile_from_file. by rewrite H. Qed.

(** C27: [nrows=96]: a sheet with more than 96 rows (a totals row, notes)
    whose first 96 rows are in the VDEW layout gives the profile of those 96
    rows; the rows that follow never reach the result. *)
Theorem get_load_profile_nrows (w : Z) `{!IntWidth w} (in_holidays : date -> bool)
    (fp : workbook) (from_ to : date) (type : string) (df : frame) :
  assoc_lookup type fp = Some df ->
  take 96 df.(fr_index) = vdew_index ->
  (forall s t, exists vs, frame_column df.(fr_columns) (season_label s) (daytype_label t) = Some vs /\
                          (96 <= length vs)%nat) ->
  get_load_profile w in_holidays fp from_ to type =
    Ok (series_concat (map (day_series w in_holidays (frame_head 96 df) (bool_decide (type = "H0")))
                           days_2015)).
Proof.
  intros Hl Hi Hc. apply (get_load_profile_vdew _ _ _ _ _ _ (frame_head 96 df)); [|by apply vdew_frame_head].
  unfold get_profile_from_file. by rewrite Hl.
Qed.

Lemma load_profile_for_day_missing_column (w : Z) `{!IntWidth w} (in_holidays : date -> bool)
    (day : date) (df : frame) (dynamize : bool) :
  frame_column df.(fr_columns) (season_label (season_of_day day))
    (daytype_label (weekday_of_day in_holidays day)) = None ->
  exists k, load_profile_for_day w in_holidays day df dynamize = Raise (KeyError k).
Proof.
  intros H. unfold load_profile_for_day. rewrite frame_getitem2_spec, H. by eexists.
Qed.

(** C25: if the sheet lacks the column some day of 2015 needs, the call
    raises and returns no partial series; that day's own lookup raises
    [KeyError]. *)
Theorem get_load_profile_missing_column (w : Z) `{!IntWidth w} (in_holidays : date -> bool)
    (fp : workbook) (from_ to : date) (type : string) (df : frame) (day : date) :
  get_profile_from_file fp type = Ok df -> In day days_2015 ->
  frame_column df.(fr_columns) (season_label (season_of_day day))
    (daytype_label (weekday_of_day in_holidays day)) = None ->
  (exists k, load_profile_for_day w in_holidays day df (bool_decide (type = "H0")) = Raise (KeyError k)) /\
  exists e, get_load_profile w in_holidays fp from_ to type = Raise e.
Proof.
  intros Hget Hin Hcol.
  destruct (load_profile_for_day_missing_column w in_holidays day df
    (bool_decide (type = "H0")) Hcol) as [k Hk].
  split; [by exists k|].
  unfold get_load_profile. rewrite Hget. cbn [res_bind].
  loop_over_2015.
  destruct (res_mapM_Raise_in
    (fun day0 => load_profile_for_day w in_holidays day0 df (bool_decide (type = "H0")))
    days_2015 day _ Hin Hk) as [e He].
  unfold days_2015 in He. rewrite He. by exists e.
Qed.

(** C10: the closure [combine_day_time] on every branch, for a valid
    date: a label other than 00:00 is stamped on the date; 00:00 (24:00
    of the sheet) becomes 00:00 of the next day, except on 9999-12-31,
    the last date Python represents, where [dt + timedelta(days=1)]
    raises [OverflowError]. *)
Theorem combine_day_time_spec (day : date) (t : time) :
  valid_date day = true ->
  combine_day_time day t =
    if time_eqb t midnight then
      if toordinal day <? MAXORDINAL then Ok (mkdatetime (next_day day) midnight)
      else Raise (OverflowError "result out of range")
    else Ok (mkdatetime day t).
Proof.
  intros Hv. unfold combine_day_time, time_eqb. case_bool_decide as Ht; [|done].
  subst t. by rewrite datetime_add_day_next_day.
Qed.

(** C15: the overflow reaches the day: on a sheet in the VDEW layout,
    [load_profile_for_day] for 9999-12-31 raises [OverflowError] when it
    re-stamps the 24:00 row, whatever the holidays, the integer width
    and [dynamize]; no series is returned. *)
Theorem load_profile_for_day_last_date (w : Z) `{!IntWidth w} (in_holidays : date -> bool)
    (df : frame) (dynamize : bool) :
  vdew_frame df = true ->
  load_profile_for_day w in_holidays (mkdate 9999 12 31) df dynamize =
    Raise (OverflowError "result out of range").
Proof.
  intros Hdf. unfold load_profile_for_day. rewrite frame_getitem2_spec.
  destruct (vdew_frame_column df (season_of_day (mkdate 9999 12 31))
    (weekday_of_day in_holidays (mkdate 9999 12 31)) Hdf) as (vs & Hvs & Hlen).
  rewrite Hvs, (vdew_frame_index df Hdf). cbn [res_bind].
  rewrite series_index_zip by (by rewrite length_vdew_index).
  assert (Hix : index_map (combine_day_time (mkdate 9999 12 31)) (index_of vdew_index) =
                Raise (OverflowError "result out of range")) by (vm_compute; reflexivity).
  by rewrite Hix.
Qed.

(** C28: a sheet "H0" without data rows raises [AttributeError] at
    [df.index.dayofyear] on the first day (the mapped empty index is no
    [DatetimeIndex]), while the same sheet under another name gives an
    empty series. *)
Theorem get_load_profile_empty_sheet (w : Z) `{!IntWidth w} (in_holidays : date -> bool)
    (fp : workbook) (from_ to : date) (type : string) (df : frame) :
  get_profile_from_file fp type = Ok df -> df.(fr_index) = [] ->
  Forall (fun day => frame_column df.(fr_columns) (season_label (season_of_day day))
    (daytype_label (weekday_of_day in_holidays day)) <> None) days_2015 ->
  get_load_profile w in_holidays fp from_ to type =
    if bool_decide (type = "H0")
    then Raise (AttributeError "'Index' object has no attribute 'dayofyear'")
    else Ok [].
Proof.
  intros Hget Hidx Hcols. unfold get_load_profile. rewrite Hget. cbn [res_bind].
  loop_over_2015.
  assert (Hday : forall day, frame_column df.(fr_columns) (season_label (season_of_day day))
    (daytype_label (weekday_of_day in_holidays day)) <> None ->
    load_profile_for_day w in_holidays day df (bool_decide (type = "H0")) =
      if bool_decide (type = "H0")
      then Raise (AttributeError "'Index' object has no attribute 'dayofyear'") else Ok []).
  { intros day Hc. unfold load_profile_for_day. rewrite frame_getitem2_spec, Hidx.
    destruct (frame_column _ _ _); [|done]. by case_bool_decide. }
  case_bool_decide.
  - unfold days_2015 in Hcols.
    change (days_from (mkdate 2015 1 1) 365) with
      (mkdate 2015 1 1 :: days_from (next_day (mkdate 2015 1 1)) 364) in Hcols |- *.
    apply Forall_cons in Hcols as [Hc _].
    cbn [res_mapM]. rewrite Hday by done. reflexivity.
  - rewrite (res_mapM_all_Ok _ (fun _ : date => ([] : series datetime))).
    + cbn [res_map res_bind app]. rewrite pd_concat_ne by apply map_days_2015_ne.
      unfold series_concat. f_equal.
    + eapply Forall_impl; [exact Hcols|]. intros day Hc. by rewrite Hday.
Qed.

(** The day types of the 2015 loop under the Austrian holidays of
    2015: the code gives 13 days the Sunday column, 2 the Saturday column
    and 350 the workday column, where the spec's rule gives 64, 52 and
    249; the two disagree on 101 of the 365 days. *)
Lemma daytype_counts_2015 :
  let code := map (weekday_of_day example_holidays_2015) days_2015 in
  let spec := map (spec_daytype example_holidays_2015) days_2015 in
  daytype_count Sonntag code = 13%nat /\ daytype_count Samstag code = 2%nat /\
  daytype_count Werktag code = 350%nat /\
  daytype_count Sonntag spec = 64%nat /\ daytype_count Samstag spec = 52%nat /\
  daytype_count Werktag spec = 249%nat /\
  length (filter (fun p => bool_decide (p.1 <> p.2)) (zip code spec)) = 101%nat.
Proof. vm_compute. repeat split. Qed.


Lemma flat_sheet_vdew : vdew_frame flat_sheet = true.
Proof. vm_compute. reflexivity. Qed.

Lemma load_profile_for_day_spec_witness :
  exists ser, load_profile_for_day 64 example_holidays_2015 (mkdate 2015 8 4) flat_sheet true = Ok ser /\
    length ser = 96%nat.
Proof.
  destruct (load_profile_for_day_spec 64 example_holidays_2015 (mkdate 2015 8 4) flat_sheet true
    ltac:(reflexivity) ltac:(vm_compute; reflexivity) flat_sheet_vdew) as (ser & Hser & Hlen & _).
  exact (ex_intro _ ser (conj Hser Hlen)).
Defined.

Lemma load_profile_for_day_rollover_witness :
  exists ser, load_profile_for_day 32 example_holidays_2015 (mkdate 2015 12 31) flat_sheet false = Ok ser /\
    last (series_index ser) = Some (mkdatetime (mkdate 2016 1 1) midnight).
Proof.
  destruct (load_profile_for_day_rollover 32 example_holidays_2015 (mkdate 2015 12 31) flat_sheet false
    ltac:(reflexivity) ltac:(vm_compute; reflexivity) flat_sheet_vdew) as (ser & Hser & Hidx).
  exists ser. split; [done|]. rewrite Hidx. vm_compute. reflexivity.
Defined.

Definition h0_workbook : workbook := [("H0", flat_sheet)].

Lemma get_load_profile_timestamps_witness :
  exists ser, get_load_profile 64 example_holidays_2015 h0_workbook (mkdate 2015 1 1) (mkdate 2015 12 31) "H0" = Ok ser /\
    length ser = 35040%nat.
Proof.
  destruct (get_load_profile_timestamps 64 example_holidays_2015 h0_workbook
    (mkdate 2015 1 1) (mkdate 2015 12 31) "H0" flat_sheet ltac:(vm_compute; reflexivity)
    flat_sheet_vdew) as (ser & Hser & Hlen & _).
  exact (ex_intro _ ser (conj Hser Hlen)).
Defined.

Lemma get_load_profile_values_witness :
  exists ser, get_load_profile 32 example_holidays_2015 h0_workbook (mkdate 2024 1 1) (mkdate 2023 1 1) "H0" = Ok ser /\
    series_values ser = concat (map (day_values 32 example_holidays_2015 flat_sheet true) days_2015).
Proof.
  exact (get_load_profile_values 32 example_holidays_2015 h0_workbook
    (mkdate 2024 1 1) (mkdate 2023 1 1) "H0" flat_sheet ltac:(vm_compute; reflexivity) flat_sheet_vdew).
Defined.

Lemma get_load_profile_missing_sheet_witness :
  get_load_profile 64 example_holidays_2015 h0_workbook (mkdate 2015 1 1) (mkdate 2015 12 31) "G0" =
    Raise (ValueError "Worksheet named 'G0' not found").
Proof. exact (get_load_profile_missing_sheet 64 example_holidays_2015 h0_workbook _ _ "G0" eq_refl). Defined.

(** The flat sheet without its (Sommer, Werktag) column. *)
Definition sheet_without_summer_workday : frame :=
  mkframe vdew_index
    (filter (fun c => c.1 <> (season_label Sommer, daytype_label Werktag)) flat_sheet.(fr_columns)).

Lemma get_load_profile_missing_column_witness :
  (exists k, load_profile_for_day 64 example_holidays_2015 (mkdate 2015 7 1)
               sheet_without_summer_workday true = Raise (KeyError k)) /\
  exists e, get_load_profile 64 example_holidays_2015 [("H0", sheet_without_summer_workday)]
              (mkdate 2015 1 1) (mkdate 2015 12 31) "H0" = Raise e.
Proof.
  apply (get_load_profile_missing_column 64 example_holidays_2015 [("H0", sheet_without_summer_workday)]
    (mkdate 2015 1 1) (mkdate 2015 12 31) "H0" sheet_without_summer_workday (mkdate 2015 7 1)).
  - vm_compute. reflexivity.
  - apply list_elem_of_In. apply (bool_decide_unpack _). vm_compute. exact I.
  - vm_compute. reflexivity.
Defined.

(** The flat sheet's columns with no data rows. *)
Definition empty_sheet : frame := mkframe [] flat_sheet.(fr_columns).

Lemma get_load_profile_empty_sheet_witness :
  get_load_profile 64 example_holidays_2015 [("H0", empty_sheet)] (mkdate 2015 1 1) (mkdate 2015 12 31) "H0" =
    Raise (AttributeError "'Index' object has no attribute 'dayofyear'").
Proof.
  apply (get_load_profile_empty_sheet 64 example_holidays_2015 [("H0", empty_sheet)]
    (mkdate 2015 1 1) (mkdate 2015 12 31) "H0" empty_sheet).
  - vm_compute. reflexivity.
  - reflexivity.
  - apply Forall_forall. intros day _.
    destruct (season_of_day day), (weekday_of_day example_holidays_2015 day); vm_compute; discriminate.
Defined.

(** C7: the [int32] wrap-around reaches the output: on an "H0" sheet in the
    VDEW layout, the 96 values of 2015-08-04 (day 216, the 216th block of
    the series) are that day's column scaled by the [int32] factor, which
    is at least 2.4, where the 64-bit factor is at most 1.26. *)
Theorem get_load_profile_int32_day216 (in_holidays : date -> bool)
    (fp : workbook) (from_ to : date) (df : frame) :
  get_profile_from_file fp "H0" = Ok df -> vdew_frame df = true ->
  exists ser, get_load_profile 32 in_holidays fp from_ to "H0" = Ok ser /\
    take 96 (drop (215 * 96) (series_values ser)) =
      map (fun v => (v * dynamization_value 32 216)%Q) (day_curve in_holidays df (mkdate 2015 8 4)) /\
    (12 # 5 <= dynamization_value 32 216)%Q /\ (dynamization_value 64 216 <= 126 # 100)%Q.
Proof.
  intros Hget Hdf. rewrite (get_load_profile_vdew 32 in_holidays fp from_ to "H0" df Hget Hdf).
  eexists. split; [done|]. split; [|split; vm_compute; discriminate].
  rewrite series_values_concat, map_map.
  rewrite (map_ext _ (day_values 32 in_holidays df true)) by (intros; by apply day_series_values).
  apply concat_uniform_block.
  - apply List.Forall_map, Forall_forall. intros day _. by apply length_day_values.
  - rewrite list_lookup_fmap. change (days_2015 !! 215) with (Some (mkdate 2015 8 4)). reflexivity.
Qed.

Lemma get_load_profile_int32_day216_witness :
  exists ser, get_load_profile 32 example_holidays_2015 h0_workbook (mkdate 2015 1 1) (mkdate 2015 12 31) "H0" = Ok ser /\
    take 96 (drop (215 * 96) (series_values ser)) =
      map (fun v => (v * dynamization_value 32 216)%Q) (day_curve example_holidays_2015 flat_sheet (mkdate 2015 8 4)).
Proof.
  destruct (get_load_profile_int32_day216 example_holidays_2015 h0_workbook (mkdate 2015 1 1)
    (mkdate 2015 12 31) flat_sheet ltac:(vm_compute; reflexivity) flat_sheet_vdew) as (ser & H1 & H2 & _).
  exact (ex_intro _ ser (conj H1 H2)).
Defined.

Lemma combine_day_time_spec_witness :
  combine_day_time (mkdate 2015 12 31) midnight = Ok (mkdatetime (mkdate 2016 1 1) midnight) /\
  combine_day_time (mkdate 9999 12 31) midnight = Raise (OverflowError "result out of range").
Proof.
  split.
  - rewrite (combine_day_time_spec (mkdate 2015 12 31) midnight eq_refl). vm_compute. reflexivity.
  - rewrite (combine_day_time_spec (mkdate 9999 12 31) midnight eq_refl). vm_compute. reflexivity.
Defined.

Lemma load_profile_for_day_last_date_witness :
  load_profile_for_day 64 example_holidays_2015 (mkdate 9999 12 31) flat_sheet true =
    Raise (OverflowError "result out of range").
Proof. exact (load_profile_for_day_last_date 64 example_holidays_2015 flat_sheet true flat_sheet_vdew). Defined.

(** A VDEW sheet followed by a totals row. *)
Definition totals_row_sheet : frame :=
  mkframe (vdew_index ++ [midnight])
    (map (fun c => (c.1, c.2 ++ [9600%Q])) flat_sheet.(fr_columns)).

Definition totals_workbook : workbook := [("G0", totals_row_sheet)].

Lemma get_load_profile_nrows_witness :
  get_load_profile 64 example_holidays_2015 totals_workbook (mkdate 2015 1 1) (mkdate 2015 12 31) "G0" =
    Ok (series_concat (map (day_series 64 example_holidays_2015 (frame_head 96 totals_row_sheet)
                                       (bool_decide ("G0" = "H0"))) days_2015)).
Proof.
  apply (get_load_profile_nrows 64 example_holidays_2015 totals_workbook
           (mkdate 2015 1 1) (mkdate 2015 12 31) "G0" totals_row_sheet).
  - reflexivity.
  - vm_compute. reflexivity.
  - intros s t. eexists. split; [destruct s, t; reflexivity|]. destruct s, t; vm_compute; lia.
Defined.
