(* ===== verification/SpecAssembler.v ===== *)
(** * SpecAssembler: the spec's [assemble] (spec.md, 4.3) as an abstract
    specification, and what [get_load_profile] refines of it

    The spec describes the assembly as a loop over the days of
    [[fromDate, toDate]] in chronological order: classify the day, look
    up its reference curve ([ProfileNotFoundError] when absent), scale it
    by the factor of the day of year when [dynamize] is set, stamp
    interval [i] with [i * 15] minutes past midnight (the 96th with 00:00
    of the next day) and append. [fromDate > toDate] fails with
    [InvalidRangeError]. The loop is written as the spec words it, a
    [while] over days with the successor [next_day], defined by
    well-founded recursion on the number of days left ([spec_days]).

    The specification is parametric in the classifier, the catalog lookup
    and the factor, so that the refinement theorem can state exactly
    which collaborators of the code play these roles: the code's
    classifier (with the weekday bug), the frame lookup, and
    [dynamization_value] at the NumPy width [w]. *)

From S2P Require Import Prelude Calendar DateRange ProfileFrame PandasIndex Dynamization DayClassifier LoadProfile.
From Equations Require Import Equations.

Local Open Scope Z_scope.

(** ** The abstract algorithm *)

Inductive spec_error : Type :=
| InvalidRangeError
| ProfileNotFoundError.

(** Match on a value and keep the equation ([inspect] of the Equations
    tutorials). *)
Definition inspect {A : Type} (a : A) : {b | a = b} := exist _ a eq_refl.

(** [d := fromDate; while d <= toDate: visit d; d := d + 1 day]. The
    measure is the number of days left; a date outside the calendar ends
    the loop. *)
Equations? spec_days (from to : date) : list date
  by wf (Z.to_nat (toordinal to - toordinal from + 1)) lt :=
spec_days from to with inspect (valid_date from && (toordinal from <=? toordinal to)) := {
  | exist _ true H => from :: spec_days (next_day from) to
  | exist _ false _ => [] }.
Proof.
  apply andb_true_iff in H as [Hv Hle%Z.leb_le].
  rewrite toordinal_next_day by done. lia.
Qed.

(** The spec's curve of a day, stamped: interval [i] at [i * 15] minutes
    past midnight, the 96th at 00:00 of the next day. *)
Definition spec_timestamp (d : date) (i : Z) : datetime :=
  if i =? 96 then mkdatetime (next_day d) midnight
  else mkdatetime d (mktime (15 * i / 60) ((15 * i) mod 60)).

Definition spec_day (classify : date -> season * daytype)
    (lookup : season -> daytype -> option (list Q)) (factor : Z -> Q) (dynamize : bool)
    (d : date) : spec_error + list (datetime * Q) :=
  let '(s, t) := classify d in
  match lookup s t with
  | None => inl ProfileNotFoundError
  | Some curve =>
      let curve := if dynamize then map (fun v => (v * factor (dayofyear d))%Q) curve else curve in
      inr (zip (map (fun i => spec_timestamp d (Z.of_nat i)) (seq 1 96)) curve)
  end.

(** Append the days' series in order; the first missing curve aborts. *)
Fixpoint spec_collect (f : date -> spec_error + list (datetime * Q)) (ds : list date)
    : spec_error + list (datetime * Q) :=
  match ds with
  | [] => inr []
  | d :: ds' =>
      match f d with
      | inl e => inl e
      | inr xs => match spec_collect f ds' with inl e => inl e | inr ys => inr (xs ++ ys) end
      end
  end.

(** [assemble(catalog, fromDate, toDate, profileType, dynamize)]. *)
Definition spec_assemble (classify : date -> season * daytype)
    (lookup : season -> daytype -> option (list Q)) (factor : Z -> Q)
    (from to : date) (dynamize : bool) : spec_error + list (datetime * Q) :=
  if date_leb from to then spec_collect (spec_day classify lookup factor dynamize) (spec_days from to)
  else inl InvalidRangeError.

(** The collaborators as the code has them. *)
Definition code_classify (in_holidays : date -> bool) (d : date) : season * daytype :=
  (season_of_day d, weekday_of_day in_holidays d).

Definition frame_lookup (df : frame) (s : season) (t : daytype) : option (list Q) :=
  frame_column df.(fr_columns) (season_label s) (daytype_label t).

(** ** Lemmas *)

(** The last day has no valid successor. *)
Lemma next_day_last_invalid (d : date) :
  valid_date d = true -> toordinal d = MAXORDINAL -> valid_date (next_day d) = false.
Proof.
  intros Hv Ho. destruct (valid_date (next_day d)) eqn:E; [|done].
  pose proof (toordinal_range _ E). rewrite toordinal_next_day in * by done. lia.
Qed.

(** The loop visits the days from [from] to [to], one per iteration. *)
Lemma spec_days_days_from (from to : date) :
  valid_date from = true -> valid_date to = true ->
  spec_days from to = days_from from (Z.to_nat (toordinal to - toordinal from + 1)).
Proof.
  funelim (spec_days from to); intros Hv Hto.
  - match goal with E : valid_date from && _ = true |- _ => pose proof E as Hc end.
    apply andb_true_iff in Hc as [_ Hle%Z.leb_le].
    replace (Z.to_nat (toordinal to - toordinal from + 1))
      with (S (Z.to_nat (toordinal to - toordinal (next_day from) + 1)))
      by (rewrite toordinal_next_day by done; lia).
    simpl. f_equal.
    pose proof (toordinal_range to Hto).
    destruct (Z.ltb_spec (toordinal from) MAXORDINAL) as [Hlt|Hge].
    + match goal with IH : valid_date (next_day from) = true -> _ |- _ => apply IH end;
        [by apply next_day_valid_ord | done].
    + rewrite toordinal_next_day by done.
      replace (Z.to_nat (toordinal to - (toordinal from + 1) + 1)) with 0%nat by lia.
      simp spec_days. destruct (inspect _) as [[|] E].
      * exfalso. symmetry in E. rewrite next_day_last_invalid in E by (done || lia). done.
      * reflexivity.
  - match goal with E : valid_date from && _ = false |- _ => pose proof E as Hc end.
    rewrite Hv in Hc. apply Z.leb_gt in Hc.
    by replace (Z.to_nat (toordinal to - toordinal from + 1)) with 0%nat by lia.
Qed.

(** The code's re-stamping of the VDEW times is the spec's stamping. *)
Lemma restamp_spec_timestamp (d : date) (i : Z) :
  1 <= i <= 96 -> restamp d (quarter_hour i) = spec_timestamp d i.
Proof.
  intros Hi. unfold restamp, spec_timestamp, quarter_hour, time_eqb, midnight, combine.
  destruct (Z.eqb_spec i 96) as [->|Hne].
  - reflexivity.
  - rewrite (Z.mod_small (15 * i / 60) 24) by (Z.div_mod_to_equations; lia).
    rewrite bool_decide_eq_false_2; [done|].
    intros [= Hh Hm]. Z.div_mod_to_equations. lia.
Qed.

Lemma vdew_index_spec_stamps (d : date) :
  map (restamp d) vdew_index = map (fun i => spec_timestamp d (Z.of_nat i)) (seq 1 96).
Proof.
  unfold vdew_index. rewrite map_map. apply map_ext_in. intros i Hi%in_seq.
  apply restamp_spec_timestamp. lia.
Qed.

Lemma spec_day_vdew (w : Z) (in_holidays : date -> bool) (df : frame) (dynamize : bool) (d : date) :
  vdew_frame df = true ->
  spec_day (code_classify in_holidays) (frame_lookup df) (dynamization_value w) dynamize d =
  inr (day_series w in_holidays df dynamize d).
Proof.
  intros Hdf. unfold spec_day, code_classify, frame_lookup, day_series, day_curve.
  destruct (vdew_frame_column df (season_of_day d) (weekday_of_day in_holidays d) Hdf) as (vs & -> & _).
  cbn [default from_option id]. by rewrite vdew_index_spec_stamps.
Qed.

Lemma spec_collect_all (f : date -> spec_error + list (datetime * Q))
    (g : date -> list (datetime * Q)) (ds : list date) :
  Forall (fun d => f d = inr (g d)) ds -> spec_collect f ds = inr (concat (map g ds)).
Proof. induction 1 as [|d ds Hd _ IH]; simpl; [done|]. by rewrite Hd, IH. Qed.

(** ** Properties *)

(** Termination of the spec's day loop. For valid dates the [while]
    loop over days stops after exactly [toordinal to - toordinal from + 1]
    iterations (none when [to] precedes [from]) and visits the days
    [pd.date_range(from, to)] gives the code. *)
Lemma spec_days_terminates (from to : date) :
  valid_date from = true -> valid_date to = true ->
  length (spec_days from to) = Z.to_nat (toordinal to - toordinal from + 1) /\
  spec_days from to = map timestamp_date (date_range from to).
Proof.
  intros Hf Ht. rewrite spec_days_days_from by done. split; [apply length_days_from|].
  pose proof (toordinal_range from Hf). pose proof (toordinal_range to Ht).
  rewrite date_range_dates, days_from_ord2ymd by (done || lia). reflexivity.
Qed.

(** C9: refinement. On a sheet in the VDEW layout, [get_load_profile]
    returns what the spec's [assemble] returns for 2015-01-01 to
    2015-12-31 with [dynamize] set to [type == "H0"], when the spec's
    collaborators are the code's: its classifier (with the weekday test
    that never fires), the frame lookup as the catalog, and the
    dynamisation factor at the NumPy width [w]. *)
Theorem get_load_profile_refines_assemble (w : Z) `{!IntWidth w} (in_holidays : date -> bool)
    (fp : workbook) (from_ to : date) (type : string) (df : frame) :
  get_profile_from_file fp type = Ok df -> vdew_frame df = true ->
  exists ser, get_load_profile w in_holidays fp from_ to type = Ok ser /\
    spec_assemble (code_classify in_holidays) (frame_lookup df) (dynamization_value w)
      (mkdate 2015 1 1) (mkdate 2015 12 31) (bool_decide (type = "H0")) = inr ser.
Proof.
  intros Hget Hdf. rewrite (get_load_profile_vdew w in_holidays fp from_ to type df Hget Hdf).
  eexists. split; [done|]. unfold spec_assemble. cbn [date_leb year month day Z.compare].
  rewrite spec_days_days_from by reflexivity. cbv [Z.to_nat toordinal]; fold days_2015.
  rewrite (spec_collect_all _ (day_series w in_holidays df (bool_decide (type = "H0")))); [done|].
  apply Forall_forall. intros d _. by apply spec_day_vdew.
Qed.

(** ** Witnesses *)

Lemma get_load_profile_refines_assemble_witness :
  exists ser, get_load_profile 32 example_holidays_2015 h0_workbook (mkdate 2015 1 1) (mkdate 2015 12 31) "H0" = Ok ser /\
    spec_assemble (code_classify example_holidays_2015) (frame_lookup flat_sheet) (dynamization_value 32)
      (mkdate 2015 1 1) (mkdate 2015 12 31) true = inr ser.
Proof.
  exact (get_load_profile_refines_assemble 32 example_holidays_2015 h0_workbook
    (mkdate 2015 1 1) (mkdate 2015 12 31) "H0" flat_sheet ltac:(vm_compute; reflexivity) flat_sheet_vdew).
Defined.
